(** * neuroshare._capi: the C glue between Python and a Neuroshare vendor library

    A shallow embedding of [capi/nspy_glue.c] and the properties its
    specification states about it.

    Conventions of the embedding.
    - C unsigned integers are [Z] with the wrap-around written out ([wrap]);
      a C [long] is 64 bits wide (the LP64 data model of the POSIX systems
      whose [dlfcn.h] the file includes).
    - The byte order of the machine is a parameter ([Platform]).
    - [double] values are IEEE 754 data ([spec_float]); only the conversion
      of a double to a [long] is computed with.
    - The glue runs in a state made of the C allocations it owns or was
      handed ([heap]), the Python error indicator ([pyerr]) and the state of
      everything outside it: the dynamic loader and the vendor library
      ([world], of an arbitrary type [W]).
    - A computation either completes in a new state or is [Undefined]: it
      reads released or foreign memory, calls a null or ill-typed function
      pointer, reads bytes nobody wrote, or overflows a signed integer.
    - Allocation itself (malloc, PyDict_New, PyList_New, PyArray_New, ...)
      is taken to succeed.
    - Python objects are values. The two places where the glue holds on to
      an object and changes it later are written out: a buffer or array is
      an allocation in [heap], and the dict stored into a list slot is
      updated through that slot ([alias_dict_set_item]). *)

From Stdlib Require Import ZArith Lia Strings.Byte Floats.SpecFloat.
From stdpp Require Import gmap strings list fin_maps.

Set Warnings "-register-all".
Local Open Scope Z_scope.

(* ===================================================================== *)
(** ** Machine integers and raw bytes *)
(* ===================================================================== *)

(** Conversion of an integer value to the unsigned type of [w] bits. *)
Definition wrap (w : Z) (z : Z) : Z := z mod 2 ^ w.

(** Conversion of an integer value to the signed type of [w] bits. *)
Definition swrap (w : Z) (z : Z) : Z :=
  (z + 2 ^ (w - 1)) mod 2 ^ w - 2 ^ (w - 1).

Abbreviation uint8 := Z (only parsing).
Abbreviation uint16 := Z (only parsing).
Abbreviation uint32 := Z (only parsing).
Abbreviation size_t := Z (only parsing).
Abbreviation ns_RESULT := Z (only parsing).

Definition LONG_BIT : Z := 64.
Definition LONG_MIN : Z := - 2 ^ 63.
Definition LONG_MAX : Z := 2 ^ 63 - 1.
Definition INT_MAX : Z := 2 ^ 31 - 1.

Inductive endianness : Set := LittleEndian | BigEndian.

(** The machine the extension module is compiled for. *)
Class Platform : Set := { byte_order : endianness }.

Definition little_endian : Platform := {| byte_order := LittleEndian |}.
Definition big_endian : Platform := {| byte_order := BigEndian |}.

Definition byte_val (b : byte) : Z := Z.of_N (Byte.to_N b).

(** The number a run of bytes spells, least significant byte first. *)
Fixpoint le_value (bs : list byte) : Z :=
  match bs with
  | [] => 0
  | b :: rest => byte_val b + 256 * le_value rest
  end.

(** The same in the machine's own byte order. *)
Definition native_value `{Platform} (bs : list byte) : Z :=
  match byte_order with
  | LittleEndian => le_value bs
  | BigEndian => le_value (rev bs)
  end.

(** [*(uintN_t * ) data] for [N = 8 * n]: the first [n] bytes of the
    buffer, or nothing when the buffer holds fewer written bytes. *)
Definition load `{Platform} (n : nat) (data : list byte) : option Z :=
  if (n <=? length data)%nat then Some (native_value (take n data)) else None.

(* ===================================================================== *)
(** ** The numeric decoders *)
(* ===================================================================== *)

Section Decoders.
Context `{Platform}.

(** [uint8 uint8_from_data (void *data, size_t data_len)]; the local [ret]
    is a [uint8]. *)
Definition uint8_from_data (data : list byte) (data_len : size_t) : option uint8 :=
  if data_len =? 1 then
    u8 ← load 1 data; Some (wrap 8 u8)
  else if data_len =? 2 then
    u8 ← load 1 data; Some (wrap 8 u8)
  else if data_len =? 4 then
    u32 ← load 4 data; Some (wrap 8 u32)
  else
    Some (wrap 8 0).

(** [static uint16 uint16_from_data (void *data, size_t data_len)]; the
    local [ret] is a [uint16]. *)
Definition uint16_from_data (data : list byte) (data_len : size_t) : option uint16 :=
  if data_len =? 1 then
    u8 ← load 1 data; Some (wrap 16 (wrap 16 u8))
  else if data_len =? 2 then
    u16 ← load 2 data; Some (wrap 16 u16)
  else if data_len =? 4 then
    u32 ← load 4 data; Some (wrap 16 (wrap 16 u32))
  else
    Some (wrap 16 0).

(** [static uint32 uint32_from_data (void *data, size_t data_len)]; the
    local [ret] is declared [uint16 ret], so every assignment to it
    converts to 16 bits; [return ret] then widens it to the [uint32]
    result. *)
Definition uint32_from_data (data : list byte) (data_len : size_t) : option uint32 :=
  if data_len =? 1 then
    u8 ← load 1 data; Some (wrap 32 (wrap 16 (wrap 32 u8)))
  else if data_len =? 2 then
    u16 ← load 2 data; Some (wrap 32 (wrap 16 (wrap 32 u16)))
  else if data_len =? 4 then
    u32 ← load 4 data; Some (wrap 32 (wrap 16 u32))
  else
    Some (wrap 32 (wrap 16 0)).

End Decoders.

(* ===================================================================== *)
(** ** Doubles *)
(* ===================================================================== *)

(** A C [double]: the binary64 values are among the [spec_float]s. *)
Abbreviation double := spec_float (only parsing).

(** The conversion of a [double] to a [long] (C99 6.3.1.4): the fractional
    part is discarded; nothing is defined for a value whose integral part
    is no [long], an infinity or a NaN. *)
Definition double_to_long (d : double) : option Z :=
  match d with
  | S754_zero _ => Some 0
  | S754_finite s m e =>
      let mag := Z.shiftl (Z.pos m) e in
      let z := if s then - mag else mag in
      if (LONG_MIN <=? z) && (z <=? LONG_MAX) then Some z else None
  | S754_infinity _ | S754_nan => None
  end.

(** The rational a finite double stands for, as numerator and (positive)
    denominator. *)
Definition double_num (d : double) : Z :=
  match d with
  | S754_finite s m e =>
      let n := Z.pos m * 2 ^ Z.max e 0 in if s then - n else n
  | _ => 0
  end.

Definition double_den (d : double) : Z :=
  match d with
  | S754_finite _ _ e => 2 ^ Z.max (- e) 0
  | _ => 1
  end.

Definition double_is_finite (d : double) : bool :=
  match d with
  | S754_zero _ | S754_finite _ _ _ => true
  | _ => false
  end.

(* ===================================================================== *)
(** ** C strings *)
(* ===================================================================== *)

(** The bytes of a [char] array up to its first NUL; nothing when the
    array holds no NUL (the read runs off its end). *)
Fixpoint c_str (arr : list byte) : option (list byte) :=
  match arr with
  | [] => None
  | b :: rest => if Byte.eqb b x00 then Some [] else cons b <$> c_str rest
  end.

(** The string a reader of [char buf[size] = {0, }] finds after [written]
    was copied to its start. *)
Definition c_str_in_buffer (size : nat) (written : list byte) : option (list byte) :=
  if (length written <=? size)%nat
  then c_str (written ++ replicate (size - length written) x00)
  else None.

(* ===================================================================== *)
(** ** The Neuroshare API types ([nsAPItypes.h]) *)
(* ===================================================================== *)

(** [nsAPItypes.h] is not part of the sources at hand: the constants the
    glue compares against are parameters. The labels of one [switch] are
    distinct, as C requires of them. *)
Class nsAPItypes : Type := {
  ns_OK : Z;
  ns_ENTITY_EVENT : Z;
  ns_ENTITY_ANALOG : Z;
  ns_ENTITY_SEGMENT : Z;
  ns_ENTITY_NEURALEVENT : Z;
  ns_EVENT_TEXT : Z;
  ns_EVENT_CSV : Z;
  ns_EVENT_BYTE : Z;
  ns_EVENT_WORD : Z;
  ns_EVENT_DWORD : Z;
  ns_ENTITY_labels :
    NoDup [ns_ENTITY_EVENT; ns_ENTITY_ANALOG; ns_ENTITY_SEGMENT; ns_ENTITY_NEURALEVENT];
  ns_EVENT_labels :
    NoDup [ns_EVENT_TEXT; ns_EVENT_CSV; ns_EVENT_BYTE; ns_EVENT_WORD; ns_EVENT_DWORD]
}.

(** The records the info entry points fill, with the fields the glue
    reads: [dw] fields are [uint32], [d] fields are [double], [sz] fields
    are [char] arrays. *)
Module ns_ENTITYINFO.
Record t : Set := {
  szEntityLabel : list byte;
  dwEntityType : uint32;
  dwItemCount : uint32
}.
End ns_ENTITYINFO.

Module ns_EVENTINFO.
Record t : Set := {
  dwEventType : uint32;
  dwMinDataLength : uint32;
  dwMaxDataLength : uint32;
  szCSVDesc : list byte
}.
End ns_EVENTINFO.

Module ns_ANALOGINFO.
Record t : Set := {
  dSampleRate : double;
  dMinVal : double;
  dMaxVal : double;
  szUnits : list byte;
  dResolution : double;
  dLocationX : double;
  dLocationY : double;
  dLocationZ : double;
  dLocationUser : double;
  dHighFreqCorner : double;
  dwHighFreqOrder : uint32;
  szHighFilterType : list byte;
  dLowFreqCorner : double;
  dwLowFreqOrder : uint32;
  szLowFilterType : list byte;
  szProbeInfo : list byte
}.
End ns_ANALOGINFO.

Module ns_SEGMENTINFO.
Record t : Set := {
  dwSourceCount : uint32;
  dwMinSampleCount : uint32;
  dwMaxSampleCount : uint32;
  dSampleRate : double;
  szUnits : list byte
}.
End ns_SEGMENTINFO.

Module ns_SEGSOURCEINFO.
Record t : Set := {
  dMinVal : double;
  dMaxVal : double;
  dSubSampleShift : double;
  dResolution : double;
  dLocationX : double;
  dLocationY : double;
  dLocationZ : double;
  dLocationUser : double;
  dHighFreqCorner : double;
  dwHighFreqOrder : uint32;
  szHighFilterType : list byte;
  dLowFreqCorner : double;
  dwLowFreqOrder : uint32;
  szLowFilterType : list byte;
  szProbeInfo : list byte
}.
End ns_SEGSOURCEINFO.

Module ns_NEURALINFO.
Record t : Set := {
  dwSourceEntityID : uint32;
  dwSourceUnitID : uint32;
  szProbeInfo : list byte
}.
End ns_NEURALINFO.

(* ===================================================================== *)
(** ** Python objects *)
(* ===================================================================== *)

Abbreviation addr := positive (only parsing).

(** The objects the module takes and makes. A list slot is [None] until
    [PyList_SetItem] fills it; a cell of an array is [None] until the
    vendor library writes it. A [PyCObject] wraps a C pointer, a
    [PyArray] owns the allocation [array_ptr]. *)
Inductive PyObject : Type :=
  | Py_None
  | PyInt (ob_ival : Z)
  | PyFloat (ob_fval : double)
  | PyString (ob_sval : string)
  | PyTuple (ob_item : list PyObject)
  | PyList (ob_slots : list (option PyObject))
  | PyDict (ma_table : gmap string PyObject)
  | PyCObject (cobject : addr)
  | PyArray (array_ptr : addr) (dimensions : list Z) (data : list (option double)).

Definition PyCObject_Check (o : PyObject) : bool :=
  match o with PyCObject _ => true | _ => false end.

Definition PyInt_Check (o : PyObject) : bool :=
  match o with PyInt _ => true | _ => false end.

(** [(uint32) PyInt_AsUnsignedLongMask (o)], for an [o] that passed
    [PyInt_Check]. *)
Definition PyInt_AsUnsignedLongMask (o : PyObject) : uint32 :=
  match o with PyInt v => wrap 32 v | _ => 0 end.

(** [PyInt_FromLong (v)]: the argument is converted to [long]. *)
Definition PyInt_FromLong (v : Z) : PyObject := PyInt (swrap LONG_BIT v).

Definition PyFloat_FromDouble (d : double) : PyObject := PyFloat d.

Inductive PyExc : Set :=
  | PyExc_StandardError
  | PyExc_TypeError
  | PgError.

(** The pending Python exception: its class and text. The text of the
    error [PyArg_ParseTuple] raises itself is composed by CPython and is
    left out ([None]). *)
Definition exn : Set := PyExc * option string.

(* ===================================================================== *)
(** ** The vendor library and the dynamic loader *)
(* ===================================================================== *)

(** A vendor entry point: it changes the world outside the glue, returns
    a status and leaves values in the locations it was given. *)
Definition native (W A : Type) : Type := W → ns_RESULT * A * W.

(** What [dlsym] can hand out: the code of an entry point, by its type in
    [nsAPIdllimp.h] ([file_id], [entity_id] and further inputs first; the
    outputs are what the call leaves in its output locations; the size
    passed for a fixed record is [sizeof] of it and is left out), or any
    other object of the library. The data entry points return the values
    they wrote to the start of the buffer they were given. *)
Inductive symbol (W : Type) : Type :=
  | ns_GetEntityInfo (f : uint32 → uint32 → native W ns_ENTITYINFO.t)
  | ns_GetEventInfo (f : uint32 → uint32 → native W ns_EVENTINFO.t)
  | ns_GetAnalogInfo (f : uint32 → uint32 → native W ns_ANALOGINFO.t)
  | ns_GetSegmentInfo (f : uint32 → uint32 → native W ns_SEGMENTINFO.t)
  | ns_GetSegmentSourceInfo (f : uint32 → uint32 → uint32 → native W ns_SEGSOURCEINFO.t)
  | ns_GetNeuralInfo (f : uint32 → uint32 → native W ns_NEURALINFO.t)
  | ns_GetEventData
      (f : uint32 → uint32 → uint32 → uint32 → native W (double * list byte * uint32))
  | ns_GetAnalogData
      (f : uint32 → uint32 → uint32 → uint32 → native W (uint32 * list double))
  | ns_GetSegmentData
      (f : uint32 → uint32 → uint32 → uint32 →
           native W (double * list double * uint32 * uint32))
  | ns_GetNeuralData (f : uint32 → uint32 → uint32 → uint32 → native W (list double))
  | ns_GetLastErrorMsg (f : uint32 → native W (list byte))
  | other_symbol (code : addr).

Arguments ns_GetEntityInfo {W} f.
Arguments ns_GetEventInfo {W} f.
Arguments ns_GetAnalogInfo {W} f.
Arguments ns_GetSegmentInfo {W} f.
Arguments ns_GetSegmentSourceInfo {W} f.
Arguments ns_GetNeuralInfo {W} f.
Arguments ns_GetEventData {W} f.
Arguments ns_GetAnalogData {W} f.
Arguments ns_GetSegmentData {W} f.
Arguments ns_GetNeuralData {W} f.
Arguments ns_GetLastErrorMsg {W} f.
Arguments other_symbol {W} code.

(** [typedef struct { void *dl_handle; NS_GETLIBRARYINFO GetLibraryInfo;
    ... } NsLibrary]: a function pointer is [None] when null. *)
Record NsLibrary (W : Type) : Type := {
  dl_handle : addr;
  GetLibraryInfo : option (symbol W);
  OpenFile : option (symbol W);
  CloseFile : option (symbol W);
  GetFileInfo : option (symbol W);
  GetEntityInfo : option (symbol W);
  GetEventInfo : option (symbol W);
  GetEventData : option (symbol W);
  GetAnalogInfo : option (symbol W);
  GetAnalogData : option (symbol W);
  GetSegmentInfo : option (symbol W);
  GetSegmentSourceInfo : option (symbol W);
  GetSegmentData : option (symbol W);
  GetNeuralInfo : option (symbol W);
  GetNeuralData : option (symbol W);
  GetIndexByTime : option (symbol W);
  GetTimeByIndex : option (symbol W);
  GetLastErrorMsg : option (symbol W)
}.

Arguments dl_handle {W} n.
Arguments GetLibraryInfo {W} n.
Arguments OpenFile {W} n.
Arguments CloseFile {W} n.
Arguments GetFileInfo {W} n.
Arguments GetEntityInfo {W} n.
Arguments GetEventInfo {W} n.
Arguments GetEventData {W} n.
Arguments GetAnalogInfo {W} n.
Arguments GetAnalogData {W} n.
Arguments GetSegmentInfo {W} n.
Arguments GetSegmentSourceInfo {W} n.
Arguments GetSegmentData {W} n.
Arguments GetNeuralInfo {W} n.
Arguments GetNeuralData {W} n.
Arguments GetIndexByTime {W} n.
Arguments GetTimeByIndex {W} n.
Arguments GetLastErrorMsg {W} n.

(** [<dlfcn.h>]. [dlopen] and [dlclose] change which libraries are
    loaded; [dlsym] looks a name up in a loaded library (the error text it
    may leave behind is replaced by the failing call that precedes every
    [dlerror] of the glue); [dlerror] returns the pending text. *)
Class Loader (W : Type) : Type := {
  dlopen : string → Z → W → option addr * W;
  dlsym : addr → string → W → option (symbol W);
  dlclose : addr → W → Z * W;
  dlerror : W → string * W
}.

Definition RTLD_NOW : Z := 2.

(* ===================================================================== *)
(** ** State and computations *)
(* ===================================================================== *)

(** What lives at an address: the record of an open library, [size] raw
    bytes from [malloc], or the storage of an array of the given shape. *)
Inductive block (W : Type) : Type :=
  | BLib (lib : NsLibrary W)
  | BRaw (size : Z)
  | BArr (dims : list Z).

Arguments BLib {W} lib.
Arguments BRaw {W} size.
Arguments BArr {W} dims.

Record state (W : Type) : Type := mkState {
  heap : gmap addr (block W);
  pyerr : option exn;
  world : W
}.

Arguments mkState {W} heap pyerr world.
Arguments heap {W} s.
Arguments pyerr {W} s.
Arguments world {W} s.

Inductive outcome (W A : Type) : Type :=
  | Done (a : A) (s : state W)
  | Undefined.

Arguments Done {W A} a s.
Arguments Undefined {W A}.

Definition M (W A : Type) : Type := state W → outcome W A.

Global Instance M_ret {W} : MRet (M W) := λ A a s, Done a s.

Global Instance M_bind {W} : MBind (M W) := λ A B f m s,
  match m s with
  | Done a s' => f a s'
  | Undefined => Undefined
  end.

Section Primitives.
Context {W : Type}.

Definition undefined {A} : M W A := λ _, Undefined.

(** A call of vendor code. *)
Definition call_native {A} (f : native W A) : M W (ns_RESULT * A) := λ s,
  let '(res, out, w) := f (world s) in
  Done (res, out) (mkState (heap s) (pyerr s) w).

(** A call of the loader. *)
Definition call_loader {A} (f : W → A * W) : M W A := λ s,
  let '(a, w) := f (world s) in
  Done a (mkState (heap s) (pyerr s) w).

Definition read_world {A} (f : W → A) : M W A := λ s, Done (f (world s)) s.

(** [malloc] and the allocation inside [PyArray_New]: a fresh address. *)
Definition allocate (b : block W) : M W addr := λ s,
  let p := fresh (dom (heap s)) in
  Done p (mkState (<[p := b]> (heap s)) (pyerr s) (world s)).

Definition malloc (size : size_t) : M W addr := allocate (BRaw size).

(** [free (p)], and the deallocation by the [Py_DECREF] that drops the
    only reference to an array. Releasing what is not allocated is
    undefined. *)
Definition free (p : addr) : M W () := λ s,
  match heap s !! p with
  | Some _ => Done () (mkState (delete p (heap s)) (pyerr s) (world s))
  | None => Undefined
  end.

(** The assignments [lib->field = ...] taken together. *)
Definition store_NsLibrary (p : addr) (lib : NsLibrary W) : M W () := λ s,
  match heap s !! p with
  | Some (BRaw _) => Done () (mkState (<[p := BLib lib]> (heap s)) (pyerr s) (world s))
  | _ => Undefined
  end.

(** [PyCObject_AsVoidPtr (cobj)], for a [cobj] that passed
    [PyCObject_Check]. *)
Definition PyCObject_AsVoidPtr (cobj : PyObject) : M W addr :=
  match cobj with
  | PyCObject p => mret p
  | _ => undefined
  end.

(** The fields of [*lib]. The glue reads them as [lib->...] at each use;
    between the cast of the pointer and the last use it allocates and
    releases other blocks only, so they are read once, at the cast. *)
Definition read_NsLibrary (lib : addr) : M W (NsLibrary W) := λ s,
  match heap s !! lib with
  | Some (BLib fields) => Done fields s
  | _ => Undefined
  end.

Definition PyErr_SetString (exc : PyExc) (msg : string) : M W () := λ s,
  Done () (mkState (heap s) (Some (exc, Some msg)) (world s)).

(** The error [PyArg_ParseTuple] raises when the arguments do not fit the
    format. *)
Definition PyArg_ParseTuple_error : M W () := λ s,
  Done () (mkState (heap s) (Some (PyExc_TypeError, None)) (world s)).

(** [PyString_FromString (sz)] of a [char] array. *)
Definition PyString_FromString (sz : list byte) : M W PyObject :=
  match c_str sz with
  | Some bs => mret (PyString (String.string_of_list_byte bs))
  | None => undefined
  end.

(** [PyString_FromStringAndSize (buffer, size)] over the bytes written to
    [buffer]. *)
Definition PyString_FromStringAndSize (buffer : list byte) (size : Z) : M W PyObject :=
  if size <=? Z.of_nat (length buffer)
  then mret (PyString (String.string_of_list_byte (take (Z.to_nat size) buffer)))
  else undefined.

(** [PyArray_New (&PyArray_Type, nd, dims, NPY_DOUBLE, NULL, NULL, 0,
    flags, NULL)]: an array of the given shape whose cells nobody wrote. *)
Definition PyArray_New (dims : list Z) : M W addr := allocate (BArr dims).

Definition PyArray_SIZE (dims : list Z) : Z := foldr Z.mul 1 dims.

(** The cells of an array of [size] doubles after the vendor library wrote
    [samples] to its start; writing past the end is undefined. *)
Definition array_cells (size : Z) (samples : list double) : M W (list (option double)) :=
  if Z.of_nat (length samples) <=? size
  then mret ((Some <$> samples) ++ replicate (Z.to_nat size - length samples) None)
  else undefined.

(** The bytes of a buffer of [size] bytes the vendor library wrote
    [written] to. *)
Definition buffer_bytes (size : Z) (written : list byte) : M W (list byte) :=
  if Z.of_nat (length written) <=? size then mret written else undefined.

Definition defined {A} (o : option A) : M W A :=
  match o with
  | Some a => mret a
  | None => undefined
  end.

End Primitives.

(* ===================================================================== *)
(** ** The glue: helpers and entity information *)
(* ===================================================================== *)

(** The value of a [uint32] object. *)
Definition u32 (z : Z) : uint32 := wrap 32 z.

(** [static int dict_set_item_eat_ref (PyObject *dict, const char *string,
    PyObject *item)]: the dict after the call. *)
Definition dict_set_item_eat_ref
    (dict : gmap string PyObject) (key : string) (item : PyObject) : gmap string PyObject :=
  <[key := item]> dict.

(** [dict_set_item_eat_ref (dict, ...)] when [dict] is the object held in
    slot [index] of [list]: the list after the call. *)
Definition alias_dict_set_item
    (pylist : list (option PyObject)) (index : Z) (key : string) (item : PyObject)
    : list (option PyObject) :=
  match pylist !! Z.to_nat index with
  | Some (Some (PyDict d)) =>
      <[Z.to_nat index := Some (PyDict (dict_set_item_eat_ref d key item))]> pylist
  | _ => pylist
  end.

Section Glue.
Context {W : Type} `{nsAPItypes} `{Platform} `{Loader W}.

(** [PyList_SetItem (list, index, item)]. Outside the list the item is
    released and the glue goes on to use it. *)
Definition PyList_SetItem
    (pylist : list (option PyObject)) (index : Z) (item : PyObject)
    : M W (list (option PyObject)) :=
  if (0 <=? index) && (index <? Z.of_nat (length pylist))
  then mret (<[Z.to_nat index := Some item]> pylist)
  else undefined.

(** Calls through the function pointers of [lib]. *)
Definition call_GetLastErrorMsg (lib : NsLibrary W) (size : uint32) :=
  match GetLastErrorMsg lib with
  | Some (ns_GetLastErrorMsg f) => call_native (f size)
  | _ => undefined
  end.

Definition call_GetEntityInfo (lib : NsLibrary W) (file_id entity_id : uint32) :=
  match GetEntityInfo lib with
  | Some (ns_GetEntityInfo f) => call_native (f file_id entity_id)
  | _ => undefined
  end.

Definition call_GetEventInfo (lib : NsLibrary W) (file_id entity_id : uint32) :=
  match GetEventInfo lib with
  | Some (ns_GetEventInfo f) => call_native (f file_id entity_id)
  | _ => undefined
  end.

Definition call_GetAnalogInfo (lib : NsLibrary W) (file_id entity_id : uint32) :=
  match GetAnalogInfo lib with
  | Some (ns_GetAnalogInfo f) => call_native (f file_id entity_id)
  | _ => undefined
  end.

Definition call_GetSegmentInfo (lib : NsLibrary W) (file_id entity_id : uint32) :=
  match GetSegmentInfo lib with
  | Some (ns_GetSegmentInfo f) => call_native (f file_id entity_id)
  | _ => undefined
  end.

Definition call_GetSegmentSourceInfo
    (lib : NsLibrary W) (file_id entity_id source_id : uint32) :=
  match GetSegmentSourceInfo lib with
  | Some (ns_GetSegmentSourceInfo f) => call_native (f file_id entity_id source_id)
  | _ => undefined
  end.

Definition call_GetNeuralInfo (lib : NsLibrary W) (file_id entity_id : uint32) :=
  match GetNeuralInfo lib with
  | Some (ns_GetNeuralInfo f) => call_native (f file_id entity_id)
  | _ => undefined
  end.

Definition call_GetEventData
    (lib : NsLibrary W) (file_id entity_id index data_size : uint32) :=
  match GetEventData lib with
  | Some (ns_GetEventData f) => call_native (f file_id entity_id index data_size)
  | _ => undefined
  end.

Definition call_GetAnalogData
    (lib : NsLibrary W) (file_id entity_id index count : uint32) :=
  match GetAnalogData lib with
  | Some (ns_GetAnalogData f) => call_native (f file_id entity_id index count)
  | _ => undefined
  end.

Definition call_GetSegmentData
    (lib : NsLibrary W) (file_id entity_id index buffer_size : uint32) :=
  match GetSegmentData lib with
  | Some (ns_GetSegmentData f) => call_native (f file_id entity_id index buffer_size)
  | _ => undefined
  end.

Definition call_GetNeuralData
    (lib : NsLibrary W) (file_id entity_id index index_count : uint32) :=
  match GetNeuralData lib with
  | Some (ns_GetNeuralData f) => call_native (f file_id entity_id index index_count)
  | _ => undefined
  end.

(** [static int check_result_is_error (ns_RESULT res, NsLibrary *lib)]. *)
Definition check_result_is_error (res : ns_RESULT) (lib : NsLibrary W) : M W bool :=
  if res =? ns_OK then mret false
  else
    '(_, written) ← call_GetLastErrorMsg lib 1024;
    buf ← defined (c_str_in_buffer 1024 written);
    PyErr_SetString PgError (String.string_of_list_byte buf);;
    mret true.

(** [static int get_and_add_event_info (NsLibrary *lib, uint32 file_id,
    uint32 entity_id, PyObject *dict)]: the status and the dict after the
    call. *)
Definition get_and_add_event_info
    (lib : NsLibrary W) (file_id entity_id : uint32) (dict : gmap string PyObject)
    : M W (ns_RESULT * gmap string PyObject) :=
  '(res, info) ← call_GetEventInfo lib file_id entity_id;
  if negb (res =? ns_OK) then mret (res, dict)
  else
    let dict := dict_set_item_eat_ref dict "EventType"
                  (PyInt_FromLong (u32 (ns_EVENTINFO.dwEventType info))) in
    let dict := dict_set_item_eat_ref dict "MinDataLength"
                  (PyInt_FromLong (u32 (ns_EVENTINFO.dwMinDataLength info))) in
    let dict := dict_set_item_eat_ref dict "MaxDataLength"
                  (PyInt_FromLong (u32 (ns_EVENTINFO.dwMaxDataLength info))) in
    item ← PyString_FromString (ns_EVENTINFO.szCSVDesc info);
    let dict := dict_set_item_eat_ref dict "CSVDesc" item in
    mret (ns_OK, dict).

(** [static int get_and_add_analog_info (...)]. *)
Definition get_and_add_analog_info
    (lib : NsLibrary W) (file_id entity_id : uint32) (dict : gmap string PyObject)
    : M W (ns_RESULT * gmap string PyObject) :=
  '(res, info) ← call_GetAnalogInfo lib file_id entity_id;
  if negb (res =? ns_OK) then mret (res, dict)
  else
    let dict := dict_set_item_eat_ref dict "SampleRate"
                  (PyFloat_FromDouble (ns_ANALOGINFO.dSampleRate info)) in
    let dict := dict_set_item_eat_ref dict "MinVal"
                  (PyFloat_FromDouble (ns_ANALOGINFO.dMinVal info)) in
    let dict := dict_set_item_eat_ref dict "MaxVal"
                  (PyFloat_FromDouble (ns_ANALOGINFO.dMaxVal info)) in
    item ← PyString_FromString (ns_ANALOGINFO.szUnits info);
    let dict := dict_set_item_eat_ref dict "zUnits" item in
    let dict := dict_set_item_eat_ref dict "Resolution"
                  (PyFloat_FromDouble (ns_ANALOGINFO.dResolution info)) in
    let dict := dict_set_item_eat_ref dict "LocationX"
                  (PyFloat_FromDouble (ns_ANALOGINFO.dLocationX info)) in
    let dict := dict_set_item_eat_ref dict "LocationY"
                  (PyFloat_FromDouble (ns_ANALOGINFO.dLocationY info)) in
    let dict := dict_set_item_eat_ref dict "LocationZ"
                  (PyFloat_FromDouble (ns_ANALOGINFO.dLocationZ info)) in
    let dict := dict_set_item_eat_ref dict "LocationUser"
                  (PyFloat_FromDouble (ns_ANALOGINFO.dLocationUser info)) in
    let dict := dict_set_item_eat_ref dict "HighFreqCorner"
                  (PyFloat_FromDouble (ns_ANALOGINFO.dHighFreqCorner info)) in
    let dict := dict_set_item_eat_ref dict "HighFreqOrder"
                  (PyInt_FromLong (u32 (ns_ANALOGINFO.dwHighFreqOrder info))) in
    item ← PyString_FromString (ns_ANALOGINFO.szHighFilterType info);
    let dict := dict_set_item_eat_ref dict "HighFilterType" item in
    let dict := dict_set_item_eat_ref dict "LowFreqCorner"
                  (PyFloat_FromDouble (ns_ANALOGINFO.dLowFreqCorner info)) in
    let dict := dict_set_item_eat_ref dict "LowFreqOrder"
                  (PyInt_FromLong (u32 (ns_ANALOGINFO.dwLowFreqOrder info))) in
    item ← PyString_FromString (ns_ANALOGINFO.szLowFilterType info);
    let dict := dict_set_item_eat_ref dict "LowFilterType" item in
    item ← PyString_FromString (ns_ANALOGINFO.szProbeInfo info);
    let dict := dict_set_item_eat_ref dict "ProbeInfo" item in
    mret (ns_OK, dict).

(** [static int get_and_add_segment_source_info (NsLibrary *lib, uint32
    file_id, uint32 entity_id, uint32 source_id, PyObject *list)]: the
    status and the list after the call. The new dict is put into the list
    first; from then on [dict] names the object in slot [source_id]. *)
Definition get_and_add_segment_source_info
    (lib : NsLibrary W) (file_id entity_id source_id : uint32)
    (pylist : list (option PyObject))
    : M W (ns_RESULT * list (option PyObject)) :=
  let dict : gmap string PyObject := ∅ in
  pylist ← PyList_SetItem pylist source_id (PyDict dict);
  '(res, info) ← call_GetSegmentSourceInfo lib file_id entity_id source_id;
  if negb (res =? ns_OK) then mret (res, pylist)
  else
    let pylist := alias_dict_set_item pylist source_id "MinVal"
                  (PyFloat_FromDouble (ns_SEGSOURCEINFO.dMinVal info)) in
    let pylist := alias_dict_set_item pylist source_id "MaxVal"
                  (PyFloat_FromDouble (ns_SEGSOURCEINFO.dMaxVal info)) in
    let pylist := alias_dict_set_item pylist source_id "SubSampleShift"
                  (PyFloat_FromDouble (ns_SEGSOURCEINFO.dSubSampleShift info)) in
    let pylist := alias_dict_set_item pylist source_id "Resolution"
                  (PyFloat_FromDouble (ns_SEGSOURCEINFO.dResolution info)) in
    let pylist := alias_dict_set_item pylist source_id "LocationX"
                  (PyFloat_FromDouble (ns_SEGSOURCEINFO.dLocationX info)) in
    let pylist := alias_dict_set_item pylist source_id "LocationY"
                  (PyFloat_FromDouble (ns_SEGSOURCEINFO.dLocationY info)) in
    let pylist := alias_dict_set_item pylist source_id "LocationZ"
                  (PyFloat_FromDouble (ns_SEGSOURCEINFO.dLocationZ info)) in
    let pylist := alias_dict_set_item pylist source_id "LocationUser"
                  (PyFloat_FromDouble (ns_SEGSOURCEINFO.dLocationUser info)) in
    let pylist := alias_dict_set_item pylist source_id "HighFreqCorner"
                  (PyFloat_FromDouble (ns_SEGSOURCEINFO.dHighFreqCorner info)) in
    let pylist := alias_dict_set_item pylist source_id "HighFreqOrder"
                  (PyInt_FromLong (u32 (ns_SEGSOURCEINFO.dwHighFreqOrder info))) in
    item ← PyString_FromString (ns_SEGSOURCEINFO.szHighFilterType info);
    let pylist := alias_dict_set_item pylist source_id "HighFilterType" item in
    let pylist := alias_dict_set_item pylist source_id "LowFreqCorner"
                  (PyFloat_FromDouble (ns_SEGSOURCEINFO.dLowFreqCorner info)) in
    let pylist := alias_dict_set_item pylist source_id "LowFreqOrder"
                  (PyInt_FromLong (u32 (ns_SEGSOURCEINFO.dwLowFreqOrder info))) in
    item ← PyString_FromString (ns_SEGSOURCEINFO.szLowFilterType info);
    let pylist := alias_dict_set_item pylist source_id "LowFilterType" item in
    item ← PyString_FromString (ns_SEGSOURCEINFO.szProbeInfo info);
    let pylist := alias_dict_set_item pylist source_id "ProbeInfo" item in
    mret (ns_OK, pylist).

(** [for (i = 0; i < info.dwSourceCount; i++)
      get_and_add_segment_source_info (lib, file_id, entity_id, i, list);]
    with [n] rounds to go, [n] being [info.dwSourceCount - i]. The value
    the call returns is dropped. [i] is an [int]: [i++] at [INT_MAX] is
    undefined. *)
Fixpoint segment_source_loop
    (lib : NsLibrary W) (file_id entity_id : uint32)
    (n : nat) (i : Z) (pylist : list (option PyObject))
    : M W (list (option PyObject)) :=
  match n with
  | O => mret pylist
  | S n' =>
      '(_, pylist) ← get_and_add_segment_source_info lib file_id entity_id i pylist;
      if INT_MAX <=? i then undefined
      else segment_source_loop lib file_id entity_id n' (i + 1) pylist
  end.

(** [static int get_and_add_segment_info (...)]. *)
Definition get_and_add_segment_info
    (lib : NsLibrary W) (file_id entity_id : uint32) (dict : gmap string PyObject)
    : M W (ns_RESULT * gmap string PyObject) :=
  '(res, info) ← call_GetSegmentInfo lib file_id entity_id;
  if negb (res =? ns_OK) then mret (res, dict)
  else
    let dict := dict_set_item_eat_ref dict "SourceCount"
                  (PyInt_FromLong (u32 (ns_SEGMENTINFO.dwSourceCount info))) in
    let dict := dict_set_item_eat_ref dict "MinSampleCount"
                  (PyInt_FromLong (u32 (ns_SEGMENTINFO.dwMinSampleCount info))) in
    let dict := dict_set_item_eat_ref dict "MaxSampleCount"
                  (PyInt_FromLong (u32 (ns_SEGMENTINFO.dwMaxSampleCount info))) in
    let dict := dict_set_item_eat_ref dict "SampleRate"
                  (PyFloat_FromDouble (ns_SEGMENTINFO.dSampleRate info)) in
    item ← PyString_FromString (ns_SEGMENTINFO.szUnits info);
    let dict := dict_set_item_eat_ref dict "Units" item in
    let pylist : list (option PyObject) :=
      replicate (Z.to_nat (u32 (ns_SEGMENTINFO.dwSourceCount info))) None in
    pylist ← segment_source_loop lib file_id entity_id
             (Z.to_nat (u32 (ns_SEGMENTINFO.dwSourceCount info))) 0 pylist;
    let dict := dict_set_item_eat_ref dict "SourceInfos" (PyList pylist) in
    mret (res, dict).

(** [static int get_and_add_neural_info (...)]. *)
Definition get_and_add_neural_info
    (lib : NsLibrary W) (file_id entity_id : uint32) (dict : gmap string PyObject)
    : M W (ns_RESULT * gmap string PyObject) :=
  '(res, info) ← call_GetNeuralInfo lib file_id entity_id;
  if negb (res =? ns_OK) then mret (res, dict)
  else
    let dict := dict_set_item_eat_ref dict "SourceEntityID"
                  (PyInt_FromLong (u32 (ns_NEURALINFO.dwSourceEntityID info))) in
    let dict := dict_set_item_eat_ref dict "SourceUnitID"
                  (PyInt_FromLong (u32 (ns_NEURALINFO.dwSourceUnitID info))) in
    item ← PyString_FromString (ns_NEURALINFO.szProbeInfo info);
    let dict := dict_set_item_eat_ref dict "ProbeInfo" item in
    mret (ns_OK, dict).

(** [static PyObject *do_get_entity_info (PyObject *self, PyObject *args,
    PyObject *kwds)], on the items of the argument tuple; [None] is the
    [NULL] result. *)
Definition do_get_entity_info (args : list PyObject) : M W (option PyObject) :=
  match args with
  | [cobj; iobj; id_obj] =>
      if negb (PyCObject_Check cobj) || negb (PyInt_Check iobj)
         || negb (PyInt_Check id_obj)
      then
        PyErr_SetString PyExc_TypeError "Wrong argument type(s)";;
        mret None
      else
        lib_ptr ← PyCObject_AsVoidPtr cobj;
        lib ← read_NsLibrary lib_ptr;
        let file_id := PyInt_AsUnsignedLongMask iobj in
        let entity_id := PyInt_AsUnsignedLongMask id_obj in
        '(res, info) ← call_GetEntityInfo lib file_id entity_id;
        err ← check_result_is_error res lib;
        if err : bool then mret None
        else
          let dict : gmap string PyObject := ∅ in
          item ← PyString_FromString (ns_ENTITYINFO.szEntityLabel info);
          let dict := dict_set_item_eat_ref dict "EntityLabel" item in
          let dict := dict_set_item_eat_ref dict "EntityType"
                        (PyInt_FromLong (u32 (ns_ENTITYINFO.dwEntityType info))) in
          let dict := dict_set_item_eat_ref dict "ItemCount"
                        (PyInt_FromLong (u32 (ns_ENTITYINFO.dwItemCount info))) in
          '(res, dict) ←
            (let dwEntityType := u32 (ns_ENTITYINFO.dwEntityType info) in
             if dwEntityType =? ns_ENTITY_EVENT then
               get_and_add_event_info lib file_id entity_id dict
             else if dwEntityType =? ns_ENTITY_ANALOG then
               get_and_add_analog_info lib file_id entity_id dict
             else if dwEntityType =? ns_ENTITY_SEGMENT then
               get_and_add_segment_info lib file_id entity_id dict
             else if dwEntityType =? ns_ENTITY_NEURALEVENT then
               get_and_add_neural_info lib file_id entity_id dict
             else mret (res, dict));
          err ← check_result_is_error res lib;
          if err : bool then mret None
          else mret (Some (PyDict dict))
  | _ =>
      PyArg_ParseTuple_error;;
      PyErr_SetString PyExc_StandardError "Could not parse arguments";;
      mret None
  end.

(* ===================================================================== *)
(** ** The glue: data accessors *)
(* ===================================================================== *)

(** [static PyObject *do_get_event_data (PyObject *self, PyObject *args,
    PyObject *kwds)]. *)
Definition do_get_event_data (args : list PyObject) : M W (option PyObject) :=
  match args with
  | [cobj; iobj; id_obj; idx_obj; tp_obj; sz_obj] =>
      if negb (PyCObject_Check cobj) || negb (PyInt_Check iobj)
         || negb (PyInt_Check id_obj) || negb (PyInt_Check idx_obj)
         || negb (PyInt_Check tp_obj) || negb (PyInt_Check sz_obj)
      then
        PyErr_SetString PyExc_TypeError "Wrong argument type(s)";;
        mret None
      else
        lib_ptr ← PyCObject_AsVoidPtr cobj;
        lib ← read_NsLibrary lib_ptr;
        let file_id := PyInt_AsUnsignedLongMask iobj in
        let entity_id := PyInt_AsUnsignedLongMask id_obj in
        let index := PyInt_AsUnsignedLongMask idx_obj in
        let event_type := PyInt_AsUnsignedLongMask tp_obj in
        let data_size := PyInt_AsUnsignedLongMask sz_obj in
        buffer ← malloc data_size;
        '(res, (time_stamp, written, data_ret_size)) ←
          call_GetEventData lib file_id entity_id index data_size;
        bytes ← buffer_bytes data_size written;
        let data_ret_size := u32 data_ret_size in
        err ← check_result_is_error res lib;
        if err : bool then
          free buffer;;
          mret None
        else
          data_obj ←
            (if (event_type =? ns_EVENT_TEXT) || (event_type =? ns_EVENT_CSV) then
               PyString_FromStringAndSize bytes data_ret_size
             else if event_type =? ns_EVENT_BYTE then
               v ← defined (uint8_from_data bytes data_ret_size);
               mret (PyInt_FromLong v)
             else if event_type =? ns_EVENT_WORD then
               v ← defined (uint16_from_data bytes data_ret_size);
               mret (PyInt_FromLong v)
             else if event_type =? ns_EVENT_DWORD then
               v ← defined (uint32_from_data bytes data_ret_size);
               mret (PyInt_FromLong v)
             else mret Py_None);
          let res_obj := PyTuple [PyFloat_FromDouble time_stamp; data_obj] in
          free buffer;;
          mret (Some res_obj)
  | _ =>
      PyArg_ParseTuple_error;;
      PyErr_SetString PyExc_StandardError "Could not parse arguments";;
      mret None
  end.

(** [static PyObject *do_get_analog_data (...)]. *)
Definition do_get_analog_data (args : list PyObject) : M W (option PyObject) :=
  match args with
  | [cobj; iobj; id_obj; idx_obj; sz_obj] =>
      if negb (PyCObject_Check cobj) || negb (PyInt_Check iobj)
         || negb (PyInt_Check id_obj) || negb (PyInt_Check idx_obj)
         || negb (PyInt_Check sz_obj)
      then
        PyErr_SetString PyExc_TypeError "Wrong argument type(s)";;
        mret None
      else
        lib_ptr ← PyCObject_AsVoidPtr cobj;
        lib ← read_NsLibrary lib_ptr;
        let file_id := PyInt_AsUnsignedLongMask iobj in
        let entity_id := PyInt_AsUnsignedLongMask id_obj in
        let index := PyInt_AsUnsignedLongMask idx_obj in
        let count := PyInt_AsUnsignedLongMask sz_obj in
        let dims := [count] in
        array ← PyArray_New dims;
        '(res, (cont_count, samples)) ←
          call_GetAnalogData lib file_id entity_id index count;
        cells ← array_cells (PyArray_SIZE dims) samples;
        err ← check_result_is_error res lib;
        if err : bool then
          free array;;
          mret None
        else
          mret (Some (PyTuple [PyArray array dims cells;
                               PyInt_FromLong (u32 cont_count)]))
  | _ =>
      PyArg_ParseTuple_error;;
      PyErr_SetString PyExc_StandardError "Could not parse arguments";;
      mret None
  end.

(** [static PyObject *do_get_segment_data (...)]; the arguments are
    parsed as [cobj, iobj, id_obj, idx_obj, src_obj, sz_obj]. *)
Definition do_get_segment_data (args : list PyObject) : M W (option PyObject) :=
  match args with
  | [cobj; iobj; id_obj; idx_obj; src_obj; sz_obj] =>
      if negb (PyCObject_Check cobj) || negb (PyInt_Check iobj)
         || negb (PyInt_Check id_obj) || negb (PyInt_Check idx_obj)
         || negb (PyInt_Check sz_obj) || negb (PyInt_Check src_obj)
      then
        PyErr_SetString PyExc_TypeError "Wrong argument type(s)";;
        mret None
      else
        lib_ptr ← PyCObject_AsVoidPtr cobj;
        lib ← read_NsLibrary lib_ptr;
        let file_id := PyInt_AsUnsignedLongMask iobj in
        let entity_id := PyInt_AsUnsignedLongMask id_obj in
        let index := PyInt_AsUnsignedLongMask idx_obj in
        let count := PyInt_AsUnsignedLongMask sz_obj in
        let sources := PyInt_AsUnsignedLongMask src_obj in
        let dims := [sources; count] in
        array ← PyArray_New dims;
        let buffer_size := u32 (8 * PyArray_SIZE dims) in
        '(res, (time_stamp, samples, sample_count, uint_id)) ←
          call_GetSegmentData lib file_id entity_id index buffer_size;
        cells ← array_cells (PyArray_SIZE dims) samples;
        err ← check_result_is_error res lib;
        if err : bool then
          free array;;
          mret None
        else
          time_stamp_long ← defined (double_to_long time_stamp);
          mret (Some (PyTuple [PyArray array dims cells;
                               PyInt_FromLong time_stamp_long;
                               PyInt_FromLong (u32 sample_count);
                               PyInt_FromLong (u32 uint_id)]))
  | _ =>
      PyArg_ParseTuple_error;;
      PyErr_SetString PyExc_StandardError "Could not parse arguments";;
      mret None
  end.

(** [static PyObject *do_get_neural_data (...)]. *)
Definition do_get_neural_data (args : list PyObject) : M W (option PyObject) :=
  match args with
  | [cobj; iobj; id_obj; idx_obj; sz_obj] =>
      if negb (PyCObject_Check cobj) || negb (PyInt_Check iobj)
         || negb (PyInt_Check id_obj) || negb (PyInt_Check idx_obj)
         || negb (PyInt_Check sz_obj)
      then
        PyErr_SetString PyExc_TypeError "Wrong argument type(s)";;
        mret None
      else
        lib_ptr ← PyCObject_AsVoidPtr cobj;
        lib ← read_NsLibrary lib_ptr;
        let file_id := PyInt_AsUnsignedLongMask iobj in
        let entity_id := PyInt_AsUnsignedLongMask id_obj in
        let index := PyInt_AsUnsignedLongMask idx_obj in
        let index_count := PyInt_AsUnsignedLongMask sz_obj in
        let dims := [index_count] in
        array ← PyArray_New dims;
        '(res, samples) ←
          call_GetNeuralData lib file_id entity_id index index_count;
        cells ← array_cells (PyArray_SIZE dims) samples;
        err ← check_result_is_error res lib;
        if err : bool then
          free array;;
          mret None
        else
          mret (Some (PyArray array dims cells))
  | _ =>
      PyArg_ParseTuple_error;;
      PyErr_SetString PyExc_StandardError "Could not parse arguments";;
      mret None
  end.

(* ===================================================================== *)
(** ** The glue: opening and closing a library *)
(* ===================================================================== *)

(** [sizeof (NsLibrary)]: eighteen pointers. *)
Definition sizeof_NsLibrary : Z := 18 * 8.

(** The format [s] of [PyArg_ParseTuple] takes a string without a NUL. *)
Definition is_c_string (s : string) : bool :=
  forallb (λ b, negb (Byte.eqb b x00)) (String.list_byte_of_string s).

(** [static PyObject *library_open (PyObject *self, PyObject *args,
    PyObject *kwds)]. *)
Definition library_open (args : list PyObject) : M W (option PyObject) :=
  let flags := RTLD_NOW in
  match args with
  | [PyString filename] =>
      if negb (is_c_string filename) then
        PyArg_ParseTuple_error;;
        mret None
      else
        dlh ← call_loader (dlopen filename flags);
        match dlh with
        | None =>
            msg ← call_loader dlerror;
            PyErr_SetString PgError ("Could not load library: " +:+ msg);;
            mret None
        | Some dlh =>
            lib ← malloc sizeof_NsLibrary;
            sGetLibraryInfo ← read_world (dlsym dlh "ns_GetLibraryInfo");
            sOpenFile ← read_world (dlsym dlh "ns_OpenFile");
            sCloseFile ← read_world (dlsym dlh "ns_CloseFile");
            sGetFileInfo ← read_world (dlsym dlh "ns_GetFileInfo");
            sGetEntityInfo ← read_world (dlsym dlh "ns_GetEntityInfo");
            sGetEventInfo ← read_world (dlsym dlh "ns_GetEventInfo");
            sGetEventData ← read_world (dlsym dlh "ns_GetEventData");
            sGetAnalogInfo ← read_world (dlsym dlh "ns_GetAnalogInfo");
            sGetAnalogData ← read_world (dlsym dlh "ns_GetAnalogData");
            sGetSegmentInfo ← read_world (dlsym dlh "ns_GetSegmentInfo");
            sGetSegmentSourceInfo ← read_world (dlsym dlh "ns_GetSegmentSourceInfo");
            sGetSegmentData ← read_world (dlsym dlh "ns_GetSegmentData");
            sGetNeuralInfo ← read_world (dlsym dlh "ns_GetNeuralInfo");
            sGetNeuralData ← read_world (dlsym dlh "ns_GetNeuralData");
            sGetIndexByTime ← read_world (dlsym dlh "ns_GetIndexByTime");
            sGetTimeByIndex ← read_world (dlsym dlh "ns_GetTimeByIndex");
            sGetLastErrorMsg ← read_world (dlsym dlh "ns_GetLastErrorMsg");
            store_NsLibrary lib
              {| dl_handle := dlh;
                 GetLibraryInfo := sGetLibraryInfo;
                 OpenFile := sOpenFile;
                 CloseFile := sCloseFile;
                 GetFileInfo := sGetFileInfo;
                 GetEntityInfo := sGetEntityInfo;
                 GetEventInfo := sGetEventInfo;
                 GetEventData := sGetEventData;
                 GetAnalogInfo := sGetAnalogInfo;
                 GetAnalogData := sGetAnalogData;
                 GetSegmentInfo := sGetSegmentInfo;
                 GetSegmentSourceInfo := sGetSegmentSourceInfo;
                 GetSegmentData := sGetSegmentData;
                 GetNeuralInfo := sGetNeuralInfo;
                 GetNeuralData := sGetNeuralData;
                 GetIndexByTime := sGetIndexByTime;
                 GetTimeByIndex := sGetTimeByIndex;
                 GetLastErrorMsg := sGetLastErrorMsg |};;
            let lib_handle := PyCObject lib in
            mret (Some lib_handle)
        end
  | _ =>
      PyArg_ParseTuple_error;;
      mret None
  end.

(** [static PyObject *library_close (PyObject *self, PyObject *args,
    PyObject *kwds)]. *)
Definition library_close (args : list PyObject) : M W (option PyObject) :=
  match args with
  | [cobj] =>
      if negb (PyCObject_Check cobj) then
        PyErr_SetString PyExc_TypeError "Expected NsLibrary type";;
        mret None
      else
        lib_ptr ← PyCObject_AsVoidPtr cobj;
        lib ← read_NsLibrary lib_ptr;
        res ← call_loader (dlclose (dl_handle lib));
        if negb (res =? 0) then
          msg ← call_loader dlerror;
          PyErr_SetString PgError ("Could not load library: " +:+ msg);;
          mret None
        else
          free lib_ptr;;
          mret (Some Py_None)
  | _ =>
      PyArg_ParseTuple_error;;
      PyErr_SetString PyExc_StandardError "Could not parse arguments";;
      mret None
  end.

End Glue.

(** The names [library_open] resolves, each with the field it goes to. *)
Definition entry_points {W : Type} : list (string * (NsLibrary W → option (symbol W))) :=
  [ ("ns_GetLibraryInfo", GetLibraryInfo);
    ("ns_OpenFile", OpenFile);
    ("ns_CloseFile", CloseFile);
    ("ns_GetFileInfo", GetFileInfo);
    ("ns_GetEntityInfo", GetEntityInfo);
    ("ns_GetEventInfo", GetEventInfo);
    ("ns_GetEventData", GetEventData);
    ("ns_GetAnalogInfo", GetAnalogInfo);
    ("ns_GetAnalogData", GetAnalogData);
    ("ns_GetSegmentInfo", GetSegmentInfo);
    ("ns_GetSegmentSourceInfo", GetSegmentSourceInfo);
    ("ns_GetSegmentData", GetSegmentData);
    ("ns_GetNeuralInfo", GetNeuralInfo);
    ("ns_GetNeuralData", GetNeuralData);
    ("ns_GetIndexByTime", GetIndexByTime);
    ("ns_GetTimeByIndex", GetTimeByIndex);
    ("ns_GetLastErrorMsg", GetLastErrorMsg) ].

(* ===================================================================== *)
(** ** The glue: library information, files, time and index *)
(* ===================================================================== *)

(** The records [ns_GetLibraryInfo] and [ns_GetFileInfo] fill, with the
    fields the glue reads. *)
Module ns_LIBRARYINFO.
Record t : Set := {
  szDescription : list byte;
  szCreator : list byte;
  dwLibVersionMaj : uint32;
  dwLibVersionMin : uint32;
  dwAPIVersionMaj : uint32;
  dwAPIVersionMin : uint32;
  dwTime_Year : uint32;
  dwTime_Month : uint32;
  dwTime_Day : uint32;
  dwMaxFiles : uint32
}.
End ns_LIBRARYINFO.

Module ns_FILEINFO.
Record t : Set := {
  szFileType : list byte;
  szAppName : list byte;
  szFileComment : list byte;
  dwEntityCount : uint32;
  dTimeStampResolution : double;
  dTimeSpan : double;
  dwTime_Year : uint32;
  dwTime_Month : uint32;
  dwTime_Day : uint32;
  dwTime_Hour : uint32;
  dwTime_Min : uint32;
  dwTime_Sec : uint32;
  dwTime_MilliSec : uint32
}.
End ns_FILEINFO.

(** The code behind the other symbols of a vendor library: the entry
    points that are not among the [symbol]s above, by their types in
    [nsAPIdllimp.h]. [ns_OpenFile] takes the file name and leaves the id of
    the file; [ns_CloseFile] leaves nothing. *)
Inductive routine (W : Type) : Type :=
  | ns_GetLibraryInfo (f : native W ns_LIBRARYINFO.t)
  | ns_OpenFile (f : string → native W uint32)
  | ns_CloseFile (f : uint32 → native W ())
  | ns_GetFileInfo (f : uint32 → native W ns_FILEINFO.t)
  | ns_GetIndexByTime (f : uint32 → uint32 → double → uint32 → native W uint32)
  | ns_GetTimeByIndex (f : uint32 → uint32 → uint32 → native W double).

Arguments ns_GetLibraryInfo {W} f.
Arguments ns_OpenFile {W} f.
Arguments ns_CloseFile {W} f.
Arguments ns_GetFileInfo {W} f.
Arguments ns_GetIndexByTime {W} f.
Arguments ns_GetTimeByIndex {W} f.

(** What is found at the address of an [other_symbol]: one of these
    routines, or something that is no entry point of the API. *)
Class Vendor (W : Type) : Type := {
  routine_at : addr → option (routine W)
}.

Definition PyFloat_Check (o : PyObject) : bool :=
  match o with PyFloat _ => true | _ => false end.

(** [PyFloat_AsDouble (o)], for an [o] that passed [PyFloat_Check]. *)
Definition PyFloat_AsDouble (o : PyObject) : double :=
  match o with PyFloat v => v | _ => S754_nan end.

Section Files.
Context {W : Type} `{nsAPItypes} `{Vendor W}.

(** A call through a function pointer of [lib] that holds the address of
    a routine; [typed] is the type the glue calls it at. *)
Definition call_routine {A}
    (pointer : option (symbol W)) (typed : routine W → option (native W A))
    : M W (ns_RESULT * A) :=
  match pointer with
  | Some (other_symbol code) =>
      match routine_at code ≫= typed with
      | Some f => call_native f
      | None => undefined
      end
  | _ => undefined
  end.

Definition call_GetLibraryInfo (lib : NsLibrary W) :=
  call_routine (GetLibraryInfo lib)
    (λ r, match r with ns_GetLibraryInfo f => Some f | _ => None end).

Definition call_OpenFile (lib : NsLibrary W) (filename : string) :=
  call_routine (OpenFile lib)
    (λ r, match r with ns_OpenFile f => Some (f filename) | _ => None end).

Definition call_CloseFile (lib : NsLibrary W) (file_id : uint32) :=
  call_routine (CloseFile lib)
    (λ r, match r with ns_CloseFile f => Some (f file_id) | _ => None end).

Definition call_GetFileInfo (lib : NsLibrary W) (file_id : uint32) :=
  call_routine (GetFileInfo lib)
    (λ r, match r with ns_GetFileInfo f => Some (f file_id) | _ => None end).

Definition call_GetIndexByTime
    (lib : NsLibrary W) (file_id entity_id : uint32) (timepoint : double) (flags : uint32) :=
  call_routine (GetIndexByTime lib)
    (λ r, match r with
          | ns_GetIndexByTime f => Some (f file_id entity_id timepoint flags)
          | _ => None
          end).

Definition call_GetTimeByIndex (lib : NsLibrary W) (file_id entity_id index : uint32) :=
  call_routine (GetTimeByIndex lib)
    (λ r, match r with
          | ns_GetTimeByIndex f => Some (f file_id entity_id index)
          | _ => None
          end).

(** [static PyObject *do_get_library_info (PyObject *self, PyObject *args,
    PyObject *kwds)]. *)
Definition do_get_library_info (args : list PyObject) : M W (option PyObject) :=
  match args with
  | [cobj] =>
      if negb (PyCObject_Check cobj) then
        PyErr_SetString PyExc_TypeError "Expected NsLibrary type";;
        mret None
      else
        lib_ptr ← PyCObject_AsVoidPtr cobj;
        lib ← read_NsLibrary lib_ptr;
        '(res, info) ← call_GetLibraryInfo lib;
        err ← check_result_is_error res lib;
        if err : bool then mret None
        else
          let dict : gmap string PyObject := ∅ in
          item ← PyString_FromString (ns_LIBRARYINFO.szDescription info);
          let dict := dict_set_item_eat_ref dict "Description" item in
          item ← PyString_FromString (ns_LIBRARYINFO.szCreator info);
          let dict := dict_set_item_eat_ref dict "Creator" item in
          let dict := dict_set_item_eat_ref dict "LibVersionMaj"
                        (PyInt_FromLong (u32 (ns_LIBRARYINFO.dwLibVersionMaj info))) in
          let dict := dict_set_item_eat_ref dict "LibVersionMin"
                        (PyInt_FromLong (u32 (ns_LIBRARYINFO.dwLibVersionMin info))) in
          let dict := dict_set_item_eat_ref dict "APIVersionMaj"
                        (PyInt_FromLong (u32 (ns_LIBRARYINFO.dwAPIVersionMaj info))) in
          let dict := dict_set_item_eat_ref dict "APIVersionMin"
                        (PyInt_FromLong (u32 (ns_LIBRARYINFO.dwAPIVersionMin info))) in
          let dict := dict_set_item_eat_ref dict "Time_Year"
                        (PyInt_FromLong (u32 (ns_LIBRARYINFO.dwTime_Year info))) in
          let dict := dict_set_item_eat_ref dict "Time_Month"
                        (PyInt_FromLong (u32 (ns_LIBRARYINFO.dwTime_Month info))) in
          let dict := dict_set_item_eat_ref dict "Time_Day"
                        (PyInt_FromLong (u32 (ns_LIBRARYINFO.dwTime_Day info))) in
          let dict := dict_set_item_eat_ref dict "MaxFiles"
                        (PyInt_FromLong (u32 (ns_LIBRARYINFO.dwMaxFiles info))) in
          mret (Some (PyDict dict))
  | _ =>
      PyArg_ParseTuple_error;;
      PyErr_SetString PyExc_StandardError "Could not parse arguments";;
      mret None
  end.

(** [static ns_RESULT get_and_add_file_info (NsLibrary *lib, uint32
    file_id, PyObject *dict)]: the status and the dict after the call. *)
Definition get_and_add_file_info
    (lib : NsLibrary W) (file_id : uint32) (dict : gmap string PyObject)
    : M W (ns_RESULT * gmap string PyObject) :=
  '(res, info) ← call_GetFileInfo lib file_id;
  if negb (res =? ns_OK) then mret (res, dict)
  else
    item ← PyString_FromString (ns_FILEINFO.szFileType info);
    let dict := dict_set_item_eat_ref dict "FileType" item in
    item ← PyString_FromString (ns_FILEINFO.szAppName info);
    let dict := dict_set_item_eat_ref dict "AppName" item in
    item ← PyString_FromString (ns_FILEINFO.szFileComment info);
    let dict := dict_set_item_eat_ref dict "FileComment" item in
    let dict := dict_set_item_eat_ref dict "EntityCount"
                  (PyInt_FromLong (u32 (ns_FILEINFO.dwEntityCount info))) in
    let dict := dict_set_item_eat_ref dict "TimeStampResolution"
                  (PyFloat_FromDouble (ns_FILEINFO.dTimeStampResolution info)) in
    let dict := dict_set_item_eat_ref dict "TimeSpan"
                  (PyFloat_FromDouble (ns_FILEINFO.dTimeSpan info)) in
    let dict := dict_set_item_eat_ref dict "Time_Year"
                  (PyInt_FromLong (u32 (ns_FILEINFO.dwTime_Year info))) in
    let dict := dict_set_item_eat_ref dict "Time_Month"
                  (PyInt_FromLong (u32 (ns_FILEINFO.dwTime_Month info))) in
    let dict := dict_set_item_eat_ref dict "Time_Day"
                  (PyInt_FromLong (u32 (ns_FILEINFO.dwTime_Day info))) in
    let dict := dict_set_item_eat_ref dict "Time_Hour"
                  (PyInt_FromLong (u32 (ns_FILEINFO.dwTime_Hour info))) in
    let dict := dict_set_item_eat_ref dict "Time_Min"
                  (PyInt_FromLong (u32 (ns_FILEINFO.dwTime_Min info))) in
    let dict := dict_set_item_eat_ref dict "Time_Sec"
                  (PyInt_FromLong (u32 (ns_FILEINFO.dwTime_Sec info))) in
    let dict := dict_set_item_eat_ref dict "Time_MilliSec"
                  (PyInt_FromLong (u32 (ns_FILEINFO.dwTime_MilliSec info))) in
    mret (res, dict).

(** [static PyObject *do_open_file (PyObject *self, PyObject *args,
    PyObject *kwds)]; the format is [Os]. The local [dict] starts out
    [NULL] ([None]) and is made once [ns_OpenFile] returned [ns_OK]; the
    tuple is built when the last status is [ns_OK], which it is only after
    the dict was made. *)
Definition do_open_file (args : list PyObject) : M W (option PyObject) :=
  match args with
  | [cobj; PyString filename] =>
      if negb (is_c_string filename) then
        PyArg_ParseTuple_error;;
        PyErr_SetString PyExc_StandardError "Could not parse arguments";;
        mret None
      else if negb (PyCObject_Check cobj) then
        PyErr_SetString PyExc_TypeError "Expected NsLibrary type";;
        mret None
      else
        lib_ptr ← PyCObject_AsVoidPtr cobj;
        lib ← read_NsLibrary lib_ptr;
        '(res, file_id) ← call_OpenFile lib filename;
        let file_id := u32 file_id in
        '(res, dict) ←
          (if res =? ns_OK then
             let dict : gmap string PyObject := ∅ in
             '(res, dict) ← get_and_add_file_info lib file_id dict;
             mret (res, Some dict)
           else mret (res, None));
        err ← check_result_is_error res lib;
        if negb err then
          dict ← defined dict;
          mret (Some (PyTuple [PyInt_FromLong file_id; PyDict dict]))
        else mret None
  | _ =>
      PyArg_ParseTuple_error;;
      PyErr_SetString PyExc_StandardError "Could not parse arguments";;
      mret None
  end.

(** [static PyObject *do_close_file (...)]. *)
Definition do_close_file (args : list PyObject) : M W (option PyObject) :=
  match args with
  | [cobj; iobj] =>
      if negb (PyCObject_Check cobj) || negb (PyInt_Check iobj) then
        PyErr_SetString PyExc_TypeError "Wrong argument type(s)";;
        mret None
      else
        lib_ptr ← PyCObject_AsVoidPtr cobj;
        lib ← read_NsLibrary lib_ptr;
        let file_id := PyInt_AsUnsignedLongMask iobj in
        '(res, _) ← call_CloseFile lib file_id;
        err ← check_result_is_error res lib;
        if err : bool then mret None
        else mret (Some Py_None)
  | _ =>
      PyArg_ParseTuple_error;;
      PyErr_SetString PyExc_StandardError "Could not parse arguments";;
      mret None
  end.

(** [static PyObject *do_get_index_by_time (...)]; the arguments are
    parsed as [cobj, iobj, id_obj, tp_obj, fl_obj]. *)
Definition do_get_index_by_time (args : list PyObject) : M W (option PyObject) :=
  match args with
  | [cobj; iobj; id_obj; tp_obj; fl_obj] =>
      if negb (PyCObject_Check cobj) || negb (PyInt_Check iobj)
         || negb (PyInt_Check id_obj) || negb (PyFloat_Check tp_obj)
         || negb (PyInt_Check fl_obj)
      then
        PyErr_SetString PyExc_TypeError "Wrong argument type(s)";;
        mret None
      else
        lib_ptr ← PyCObject_AsVoidPtr cobj;
        lib ← read_NsLibrary lib_ptr;
        let file_id := PyInt_AsUnsignedLongMask iobj in
        let entity_id := PyInt_AsUnsignedLongMask id_obj in
        let timepoint := PyFloat_AsDouble tp_obj in
        let flags := PyInt_AsUnsignedLongMask fl_obj in
        '(res, index) ← call_GetIndexByTime lib file_id entity_id timepoint flags;
        err ← check_result_is_error res lib;
        if err : bool then mret None
        else mret (Some (PyInt_FromLong (u32 index)))
  | _ =>
      PyArg_ParseTuple_error;;
      PyErr_SetString PyExc_StandardError "Could not parse arguments";;
      mret None
  end.

(** [static PyObject *do_get_time_by_index (...)]. *)
Definition do_get_time_by_index (args : list PyObject) : M W (option PyObject) :=
  match args with
  | [cobj; iobj; id_obj; idx_obj] =>
      if negb (PyCObject_Check cobj) || negb (PyInt_Check iobj)
         || negb (PyInt_Check id_obj) || negb (PyInt_Check idx_obj)
      then
        PyErr_SetString PyExc_TypeError "Wrong argument type(s)";;
        mret None
      else
        lib_ptr ← PyCObject_AsVoidPtr cobj;
        lib ← read_NsLibrary lib_ptr;
        let file_id := PyInt_AsUnsignedLongMask iobj in
        let entity_id := PyInt_AsUnsignedLongMask id_obj in
        let index := PyInt_AsUnsignedLongMask idx_obj in
        '(res, timepoint) ← call_GetTimeByIndex lib file_id entity_id index;
        err ← check_result_is_error res lib;
        if err : bool then mret None
        else mret (Some (PyFloat_FromDouble timepoint))
  | _ =>
      PyArg_ParseTuple_error;;
      PyErr_SetString PyExc_StandardError "Could not parse arguments";;
      mret None
  end.

End Files.

(* ===================================================================== *)
(** ** The method table *)
(* ===================================================================== *)

Section Methods.
Context {W : Type} `{nsAPItypes} `{Platform} `{Loader W} `{Vendor W}.

(** A [PyCFunction] of the module, on the items of its argument tuple. All
    are registered [METH_VARARGS | METH_KEYWORDS] and none looks at the
    keywords. *)
Definition PyCFunction : Type := list PyObject → M W (option PyObject).

(** [static PyMethodDef NativeMethods[]], up to its sentinel: the name,
    the function and the documentation of each entry. *)
Definition NativeMethods : list (string * PyCFunction * string) :=
  [ ("library_open", library_open, "Open a Neuroshare Library");
    ("library_close", library_close, "Close an open Neuroshare Library");
    ("_get_library_info", do_get_library_info,
     "Retrieves information about the loaded API library");
    ("_open_file", do_open_file, "Opens the data file and returns its file info.");
    ("_close_file", do_close_file, "Close the open data file");
    ("_get_entity_info", do_get_entity_info,
     "Retrieve Entity (general and specific) information");
    ("_get_event_data", do_get_event_data, "Retrieve event data");
    ("_get_analog_data", do_get_analog_data, "Retrieve analog data");
    ("_get_segment_data", do_get_segment_data, "Retrieve segment data");
    ("_get_neural_data", do_get_neural_data, "Retrieve analog data");
    ("_get_time_by_index", do_get_time_by_index, "Timestamp of the index");
    ("_get_index_by_time", do_get_index_by_time, "Index by timepoint") ].

End Methods.

(* ===================================================================== *)
(** ** The vocabulary of the statements *)
(* ===================================================================== *)

(** What [check_result_is_error] is about to report in world [w]: the
    text the vendor library hands out, and the world after asking. *)
Definition vendor_error_text {W : Type} (lib : NsLibrary W) (w : W) : option (string * W) :=
  match GetLastErrorMsg lib with
  | Some (ns_GetLastErrorMsg g) =>
      let '(_, written, w') := g 1024 w in
      (λ buf, (String.string_of_list_byte buf, w')) <$> c_str_in_buffer 1024 written
  | _ => None
  end.

(** The world in which the glue asks for source [k] of a segment entity,
    [w] being the world after [ns_GetSegmentInfo]: sources [0 .. k-1] were
    asked for before, in this order. *)
Fixpoint source_world {W : Type}
    (f : uint32 → uint32 → uint32 → native W ns_SEGSOURCEINFO.t)
    (file_id entity_id : uint32) (k : nat) (w : W) : W :=
  match k with
  | O => w
  | S k' => (f file_id entity_id (Z.of_nat k') (source_world f file_id entity_id k' w)).2
  end.

(** A C string read leniently: empty when the array has no NUL. *)
Definition c_string (arr : list byte) : string :=
  String.string_of_list_byte (default [] (c_str arr)).

(** The Segment Source Descriptor of a filled [ns_SEGSOURCEINFO]. *)
Definition SegmentSourceDescriptor (info : ns_SEGSOURCEINFO.t) : gmap string PyObject :=
  list_to_map
    [ ("MinVal", PyFloat (ns_SEGSOURCEINFO.dMinVal info));
      ("MaxVal", PyFloat (ns_SEGSOURCEINFO.dMaxVal info));
      ("SubSampleShift", PyFloat (ns_SEGSOURCEINFO.dSubSampleShift info));
      ("Resolution", PyFloat (ns_SEGSOURCEINFO.dResolution info));
      ("LocationX", PyFloat (ns_SEGSOURCEINFO.dLocationX info));
      ("LocationY", PyFloat (ns_SEGSOURCEINFO.dLocationY info));
      ("LocationZ", PyFloat (ns_SEGSOURCEINFO.dLocationZ info));
      ("LocationUser", PyFloat (ns_SEGSOURCEINFO.dLocationUser info));
      ("HighFreqCorner", PyFloat (ns_SEGSOURCEINFO.dHighFreqCorner info));
      ("HighFreqOrder", PyInt (u32 (ns_SEGSOURCEINFO.dwHighFreqOrder info)));
      ("HighFilterType", PyString (c_string (ns_SEGSOURCEINFO.szHighFilterType info)));
      ("LowFreqCorner", PyFloat (ns_SEGSOURCEINFO.dLowFreqCorner info));
      ("LowFreqOrder", PyInt (u32 (ns_SEGSOURCEINFO.dwLowFreqOrder info)));
      ("LowFilterType", PyString (c_string (ns_SEGSOURCEINFO.szLowFilterType info)));
      ("ProbeInfo", PyString (c_string (ns_SEGSOURCEINFO.szProbeInfo info))) ].

(** What slot [source_id] of [SourceInfos] holds once the source was asked
    for: its descriptor, or the dict the slot was filled with beforehand
    when the vendor call failed. *)
Definition source_slot `{nsAPItypes} (res : ns_RESULT) (info : ns_SEGSOURCEINFO.t) : PyObject :=
  PyDict (if res =? ns_OK then SegmentSourceDescriptor info else ∅).

(** What slot [i] of [SourceInfos] holds at the end: the answer to the
    vendor call for source [i], made in the world that the calls for the
    sources before it left. *)
Definition source_at {W : Type} `{nsAPItypes}
    (f : uint32 → uint32 → uint32 → native W ns_SEGSOURCEINFO.t)
    (file_id entity_id : uint32) (w : W) (i : nat) : PyObject :=
  let '(res, info, _) :=
    f file_id entity_id (Z.of_nat i) (source_world f file_id entity_id i w) in
  source_slot res info.

(** How a call started in state [s] ends once the check of a failed
    vendor call, made in world [w1], has run and the allocation of the
    call is released: with the vendor's text as a pending [PgError], or
    undefined when there is no text to be had. *)
Definition failed {W : Type} (s : state W) (lib : NsLibrary W) (w1 : W)
    : outcome W (option PyObject) :=
  match vendor_error_text lib w1 with
  | Some (msg, w2) => Done None (mkState (heap s) (Some (PgError, Some msg)) w2)
  | None => Undefined
  end.

(** The payload of an event, by the subtype the caller declared, over the
    [size] bytes the vendor reported to have written into [bytes]. *)
Definition payload_by_subtype `{nsAPItypes} `{Platform}
    (event_type : uint32) (bytes : list byte) (size : uint32) (payload : PyObject) : Prop :=
  (event_type = ns_EVENT_TEXT ∨ event_type = ns_EVENT_CSV →
     size ≤ Z.of_nat (length bytes)
     ∧ payload = PyString (String.string_of_list_byte (take (Z.to_nat size) bytes)))
  ∧ (event_type = ns_EVENT_BYTE →
     ∃ v, uint8_from_data bytes size = Some v ∧ payload = PyInt v)
  ∧ (event_type = ns_EVENT_WORD →
     ∃ v, uint16_from_data bytes size = Some v ∧ payload = PyInt v)
  ∧ (event_type = ns_EVENT_DWORD →
     ∃ v, uint32_from_data bytes size = Some v ∧ payload = PyInt v)
  ∧ (event_type ∉ [ns_EVENT_TEXT; ns_EVENT_CSV; ns_EVENT_BYTE; ns_EVENT_WORD;
                    ns_EVENT_DWORD] →
     payload = Py_None).

(** A run of a data accessor whose vendor call failed in world [w1],
    started in state [s]: whenever it completes it returns [NULL] with a
    [PgError] pending and the heap as it was before the call; and it does
    complete, with the vendor's text as the message, when the vendor
    stayed inside the buffer ([fits]) and has a text to give. *)
Definition fails_cleanly {W : Type}
    (s : state W) (lib : NsLibrary W) (w1 : W) (fits : Prop)
    (run : outcome W (option PyObject)) : Prop :=
  (∀ r s', run = Done r s' →
     r = None ∧ heap s' = heap s ∧ ∃ msg, pyerr s' = Some (PgError, Some msg))
  ∧ (fits → ∀ msg w2, vendor_error_text lib w1 = Some (msg, w2) →
     run = Done None (mkState (heap s) (Some (PgError, Some msg)) w2)).

(** *** The module as a whole *)

(** A computation that leaves the C heap and the error indicator alone,
    whatever it does to the world outside. *)
Definition quiet {W A : Type} (m : M W A) : Prop :=
  ∀ s a s', m s = Done a s' → heap s' = heap s ∧ pyerr s' = pyerr s.

(** How CPython expects a function of a module to end: with an object,
    and then the error indicator is as it was, or with [NULL], and then an
    exception is pending; here also: and then the C heap is as before the
    call. *)
Definition error_protocol {W : Type}
    (s : state W) (r : option PyObject) (s' : state W) : Prop :=
  match r with
  | Some _ => pyerr s' = pyerr s
  | None => heap s' = heap s ∧ is_Some (pyerr s')
  end.

Definition keeps_protocol {W : Type} (m : M W (option PyObject)) : Prop :=
  ∀ s r s', m s = Done r s' → error_protocol s r s'.

(** The same for a function that allocates nothing it keeps. *)
Definition tidy {W : Type} (m : M W (option PyObject)) : Prop :=
  ∀ s r s', m s = Done r s' → heap s' = heap s ∧ error_protocol s r s'.

(** A computation that runs while the block at [q] is allocated and is to
    dispose of it: it releases the block when it fails, and when it
    succeeds it hands the block on ([kept]) or releases it too. *)
Definition settles {W : Type} (q : addr) (kept : bool) (m : M W (option PyObject)) : Prop :=
  ∀ s r s', is_Some (heap s !! q) → m s = Done r s' →
    match r with
    | Some _ => pyerr s' = pyerr s ∧ heap s' = (if kept then heap s else delete q (heap s))
    | None => heap s' = delete q (heap s) ∧ is_Some (pyerr s')
    end.

(** What a function of the module takes, by its [PyArg_ParseTuple] format
    and the type checks that follow it: a library handle, an int, a float,
    or a string without NUL. *)
Inductive kind : Set := Handle | Int | Float | Str.

Definition fits (k : kind) (o : PyObject) : bool :=
  match k, o with
  | Handle, PyCObject _ => true
  | Int, PyInt _ => true
  | Float, PyFloat _ => true
  | Str, PyString s => is_c_string s
  | _, _ => false
  end.

Fixpoint well_typed (sig : list kind) (args : list PyObject) : bool :=
  match sig, args with
  | [], [] => true
  | k :: sig, o :: args => fits k o && well_typed sig args
  | _, _ => false
  end.

(** The signatures of the functions of the module, by name. *)
Definition signatures : list (string * list kind) :=
  [ ("library_open", [Str]);
    ("library_close", [Handle]);
    ("_get_library_info", [Handle]);
    ("_open_file", [Handle; Str]);
    ("_close_file", [Handle; Int]);
    ("_get_entity_info", [Handle; Int; Int]);
    ("_get_event_data", [Handle; Int; Int; Int; Int; Int]);
    ("_get_analog_data", [Handle; Int; Int; Int; Int]);
    ("_get_segment_data", [Handle; Int; Int; Int; Int; Int]);
    ("_get_neural_data", [Handle; Int; Int; Int; Int]);
    ("_get_time_by_index", [Handle; Int; Int; Int]);
    ("_get_index_by_time", [Handle; Int; Int; Float; Int]) ].

(** A call that is turned down at the door: it returns [NULL] with an
    exception other than the module's own pending, and has touched neither
    the heap nor the world outside. *)
Definition rejected {W : Type} (s : state W) (run : outcome W (option PyObject)) : Prop :=
  ∃ exc msg, exc ≠ PgError ∧ run = Done None (mkState (heap s) (Some (exc, msg)) (world s)).

(** Two argument objects the glue cannot tell apart: the same object, or
    two ints that agree modulo 2^32. *)
Definition same_uint32 (a b : PyObject) : Prop :=
  match a, b with
  | PyInt x, PyInt y => u32 x = u32 y
  | _, _ => a = b
  end.

(** The functions that hand out or take back an allocation. *)
Definition allocating : list string :=
  [ "library_open"; "library_close";
    "_get_analog_data"; "_get_segment_data"; "_get_neural_data" ].

(** The entry point each function of the module calls first, by the
    name [library_open] resolves it under. *)
Definition first_call : list (string * string) :=
  [ ("_get_library_info", "ns_GetLibraryInfo");
    ("_open_file", "ns_OpenFile");
    ("_close_file", "ns_CloseFile");
    ("_get_entity_info", "ns_GetEntityInfo");
    ("_get_event_data", "ns_GetEventData");
    ("_get_analog_data", "ns_GetAnalogData");
    ("_get_segment_data", "ns_GetSegmentData");
    ("_get_neural_data", "ns_GetNeuralData");
    ("_get_time_by_index", "ns_GetTimeByIndex");
    ("_get_index_by_time", "ns_GetIndexByTime") ].

(** *** Error texts *)

(** The bytes of a run up to its first NUL, or all of them. *)
Fixpoint up_to_nul (bs : list byte) : list byte :=
  match bs with
  | [] => []
  | b :: rest => if Byte.eqb b x00 then [] else b :: up_to_nul rest
  end.

(** The vendor's error text fits the buffer of [check_result_is_error]
    and ends in it: it is no longer than the buffer, and holds a NUL or is
    shorter than the buffer, whose other bytes are 0. *)
Definition text_fits (size : nat) (written : list byte) : Prop :=
  (length written ≤ size)%nat ∧ (x00 ∈ written ∨ (length written < size)%nat).

Global Instance byte_eq_decision : EqDecision byte.
Proof.
  intros x y. destruct (Byte.eqb x y) eqn:E;
    [left; by apply Byte.byte_dec_bl | right; by apply Byte.eqb_false].
Defined.

Global Instance text_fits_decision (size : nat) (written : list byte) :
  Decision (text_fits size written).
Proof. unfold text_fits. apply _. Defined.

(** *** Arrays *)

(** The cells of a fresh array of [size] doubles after the vendor wrote
    [samples] to its start: the samples, then cells nobody wrote. *)
Definition cells_after (size : Z) (samples : list double) : list (option double) :=
  (Some <$> samples) ++ replicate (Z.to_nat size - length samples) None.

(** *** Info dicts *)

(** The dict of a filled [ns_LIBRARYINFO]. *)
Definition LibraryInfoDescriptor (info : ns_LIBRARYINFO.t) : gmap string PyObject :=
  list_to_map
    [ ("Description", PyString (c_string (ns_LIBRARYINFO.szDescription info)));
      ("Creator", PyString (c_string (ns_LIBRARYINFO.szCreator info)));
      ("LibVersionMaj", PyInt (u32 (ns_LIBRARYINFO.dwLibVersionMaj info)));
      ("LibVersionMin", PyInt (u32 (ns_LIBRARYINFO.dwLibVersionMin info)));
      ("APIVersionMaj", PyInt (u32 (ns_LIBRARYINFO.dwAPIVersionMaj info)));
      ("APIVersionMin", PyInt (u32 (ns_LIBRARYINFO.dwAPIVersionMin info)));
      ("Time_Year", PyInt (u32 (ns_LIBRARYINFO.dwTime_Year info)));
      ("Time_Month", PyInt (u32 (ns_LIBRARYINFO.dwTime_Month info)));
      ("Time_Day", PyInt (u32 (ns_LIBRARYINFO.dwTime_Day info)));
      ("MaxFiles", PyInt (u32 (ns_LIBRARYINFO.dwMaxFiles info))) ].

(** The dict of a filled [ns_FILEINFO]. *)
Definition FileInfoDescriptor (info : ns_FILEINFO.t) : gmap string PyObject :=
  list_to_map
    [ ("FileType", PyString (c_string (ns_FILEINFO.szFileType info)));
      ("AppName", PyString (c_string (ns_FILEINFO.szAppName info)));
      ("FileComment", PyString (c_string (ns_FILEINFO.szFileComment info)));
      ("EntityCount", PyInt (u32 (ns_FILEINFO.dwEntityCount info)));
      ("TimeStampResolution", PyFloat (ns_FILEINFO.dTimeStampResolution info));
      ("TimeSpan", PyFloat (ns_FILEINFO.dTimeSpan info));
      ("Time_Year", PyInt (u32 (ns_FILEINFO.dwTime_Year info)));
      ("Time_Month", PyInt (u32 (ns_FILEINFO.dwTime_Month info)));
      ("Time_Day", PyInt (u32 (ns_FILEINFO.dwTime_Day info)));
      ("Time_Hour", PyInt (u32 (ns_FILEINFO.dwTime_Hour info)));
      ("Time_Min", PyInt (u32 (ns_FILEINFO.dwTime_Min info)));
      ("Time_Sec", PyInt (u32 (ns_FILEINFO.dwTime_Sec info)));
      ("Time_MilliSec", PyInt (u32 (ns_FILEINFO.dwTime_MilliSec info))) ].

(** The part of an entity dict made of a filled [ns_ENTITYINFO], and the
    parts made of the records by entity type. *)
Definition EntityInfoDescriptor (info : ns_ENTITYINFO.t) : gmap string PyObject :=
  list_to_map
    [ ("EntityLabel", PyString (c_string (ns_ENTITYINFO.szEntityLabel info)));
      ("EntityType", PyInt (u32 (ns_ENTITYINFO.dwEntityType info)));
      ("ItemCount", PyInt (u32 (ns_ENTITYINFO.dwItemCount info))) ].

Definition EventInfoDescriptor (info : ns_EVENTINFO.t) : gmap string PyObject :=
  list_to_map
    [ ("EventType", PyInt (u32 (ns_EVENTINFO.dwEventType info)));
      ("MinDataLength", PyInt (u32 (ns_EVENTINFO.dwMinDataLength info)));
      ("MaxDataLength", PyInt (u32 (ns_EVENTINFO.dwMaxDataLength info)));
      ("CSVDesc", PyString (c_string (ns_EVENTINFO.szCSVDesc info))) ].

Definition AnalogInfoDescriptor (info : ns_ANALOGINFO.t) : gmap string PyObject :=
  list_to_map
    [ ("SampleRate", PyFloat (ns_ANALOGINFO.dSampleRate info));
      ("MinVal", PyFloat (ns_ANALOGINFO.dMinVal info));
      ("MaxVal", PyFloat (ns_ANALOGINFO.dMaxVal info));
      ("zUnits", PyString (c_string (ns_ANALOGINFO.szUnits info)));
      ("Resolution", PyFloat (ns_ANALOGINFO.dResolution info));
      ("LocationX", PyFloat (ns_ANALOGINFO.dLocationX info));
      ("LocationY", PyFloat (ns_ANALOGINFO.dLocationY info));
      ("LocationZ", PyFloat (ns_ANALOGINFO.dLocationZ info));
      ("LocationUser", PyFloat (ns_ANALOGINFO.dLocationUser info));
      ("HighFreqCorner", PyFloat (ns_ANALOGINFO.dHighFreqCorner info));
      ("HighFreqOrder", PyInt (u32 (ns_ANALOGINFO.dwHighFreqOrder info)));
      ("HighFilterType", PyString (c_string (ns_ANALOGINFO.szHighFilterType info)));
      ("LowFreqCorner", PyFloat (ns_ANALOGINFO.dLowFreqCorner info));
      ("LowFreqOrder", PyInt (u32 (ns_ANALOGINFO.dwLowFreqOrder info)));
      ("LowFilterType", PyString (c_string (ns_ANALOGINFO.szLowFilterType info)));
      ("ProbeInfo", PyString (c_string (ns_ANALOGINFO.szProbeInfo info))) ].

Definition NeuralInfoDescriptor (info : ns_NEURALINFO.t) : gmap string PyObject :=
  list_to_map
    [ ("SourceEntityID", PyInt (u32 (ns_NEURALINFO.dwSourceEntityID info)));
      ("SourceUnitID", PyInt (u32 (ns_NEURALINFO.dwSourceUnitID info)));
      ("ProbeInfo", PyString (c_string (ns_NEURALINFO.szProbeInfo info))) ].

(** The routine a pointer of a library record points to, if any. *)
Definition routine_behind {W : Type} `{Vendor W} (pointer : option (symbol W))
    : option (routine W) :=
  match pointer with
  | Some (other_symbol code) => routine_at code
  | _ => None
  end.

(** The keys every entity dict has, and the keys added by entity type. *)
Definition generic_keys : gset string :=
  {[ "EntityLabel"; "EntityType"; "ItemCount" ]}.

Definition event_keys : gset string :=
  {[ "EventType"; "MinDataLength"; "MaxDataLength"; "CSVDesc" ]}.

Definition analog_keys : gset string :=
  list_to_set
    [ "SampleRate"; "MinVal"; "MaxVal"; "zUnits"; "Resolution"; "LocationX";
      "LocationY"; "LocationZ"; "LocationUser"; "HighFreqCorner"; "HighFreqOrder";
      "HighFilterType"; "LowFreqCorner"; "LowFreqOrder"; "LowFilterType"; "ProbeInfo" ].

Definition segment_keys : gset string :=
  {[ "SourceCount"; "MinSampleCount"; "MaxSampleCount"; "SampleRate"; "Units";
     "SourceInfos" ]}.

Definition neural_keys : gset string :=
  {[ "SourceEntityID"; "SourceUnitID"; "ProbeInfo" ]}.

Definition specific_keys `{nsAPItypes} (entity_type : uint32) : gset string :=
  if entity_type =? ns_ENTITY_EVENT then event_keys
  else if entity_type =? ns_ENTITY_ANALOG then analog_keys
  else if entity_type =? ns_ENTITY_SEGMENT then segment_keys
  else if entity_type =? ns_ENTITY_NEURALEVENT then neural_keys
  else ∅.

(* ===================================================================== *)
(** ** A stand-in vendor library, for concrete runs *)
(* ===================================================================== *)

Module Mock.

(** Constants as in the header of the Neuroshare API (any choice with
    distinct labels would do). *)
Definition api : nsAPItypes.
Proof.
  refine {| ns_OK := 0;
            ns_ENTITY_EVENT := 1; ns_ENTITY_ANALOG := 2;
            ns_ENTITY_SEGMENT := 3; ns_ENTITY_NEURALEVENT := 4;
            ns_EVENT_TEXT := 0; ns_EVENT_CSV := 1; ns_EVENT_BYTE := 2;
            ns_EVENT_WORD := 3; ns_EVENT_DWORD := 4 |};
    apply (bool_decide_unpack _); vm_compute; exact I.
Defined.

(** The world of the stand-in: the number of vendor calls made so far. *)
Abbreviation calls := nat (only parsing).

Definition d0 : double := S754_zero false.
(** 1.5 and -2.75 *)
Definition d1_5 : double := S754_finite false 3 (-1).
Definition dm2_75 : double := S754_finite true 11 (-2).

Definition sz (s : string) : list byte := String.list_byte_of_string s ++ [x00].

Definition entity_record (kind : Z) : ns_ENTITYINFO.t :=
  {| ns_ENTITYINFO.szEntityLabel := sz "elec1";
     ns_ENTITYINFO.dwEntityType := kind;
     ns_ENTITYINFO.dwItemCount := 10 |}.

Definition entity_info (kind : Z) (file_id entity_id : uint32)
    : native calls ns_ENTITYINFO.t := λ w,
  (0, entity_record kind, S w).

Definition segment_record (sources : Z) : ns_SEGMENTINFO.t :=
  {| ns_SEGMENTINFO.dwSourceCount := sources;
     ns_SEGMENTINFO.dwMinSampleCount := 16;
     ns_SEGMENTINFO.dwMaxSampleCount := 32;
     ns_SEGMENTINFO.dSampleRate := d1_5;
     ns_SEGMENTINFO.szUnits := sz "uV" |}.

Definition segment_info (sources : Z) (file_id entity_id : uint32)
    : native calls ns_SEGMENTINFO.t := λ w,
  (0, segment_record sources, S w).

Definition source_info (source_id : uint32) : ns_SEGSOURCEINFO.t :=
  {| ns_SEGSOURCEINFO.dMinVal := dm2_75;
     ns_SEGSOURCEINFO.dMaxVal := d1_5;
     ns_SEGSOURCEINFO.dSubSampleShift := d0;
     ns_SEGSOURCEINFO.dResolution := d1_5;
     ns_SEGSOURCEINFO.dLocationX := d0;
     ns_SEGSOURCEINFO.dLocationY := d0;
     ns_SEGSOURCEINFO.dLocationZ := d0;
     ns_SEGSOURCEINFO.dLocationUser := d0;
     ns_SEGSOURCEINFO.dHighFreqCorner := d1_5;
     ns_SEGSOURCEINFO.dwHighFreqOrder := source_id;
     ns_SEGSOURCEINFO.szHighFilterType := sz "none";
     ns_SEGSOURCEINFO.dLowFreqCorner := d1_5;
     ns_SEGSOURCEINFO.dwLowFreqOrder := 100 + source_id;
     ns_SEGSOURCEINFO.szLowFilterType := sz "none";
     ns_SEGSOURCEINFO.szProbeInfo := sz "probe" |}.

(** Fails with status [-1] for the source [bad], if any. *)
Definition segment_source_info (bad : option Z) (file_id entity_id source_id : uint32)
    : native calls ns_SEGSOURCEINFO.t := λ w,
  (if bool_decide (bad = Some source_id) then -1 else 0, source_info source_id, S w).

(** Writes the four bytes 78 56 34 12 and reports [res]. *)
Definition event_data (res : ns_RESULT) (file_id entity_id index data_size : uint32)
    : native calls (double * list byte * uint32) := λ w,
  (res, (d1_5, [x78; x56; x34; x12], 4), S w).

(** Writes two samples and reports [cont] contiguous samples. *)
Definition analog_data (res : ns_RESULT) (cont : uint32)
    (file_id entity_id index count : uint32)
    : native calls (uint32 * list double) := λ w,
  (res, (cont, [d1_5; dm2_75]), S w).

Definition segment_data (res : ns_RESULT) (time_stamp : double)
    (file_id entity_id index buffer_size : uint32)
    : native calls (double * list double * uint32 * uint32) := λ w,
  (res, (time_stamp, [d1_5; dm2_75], 2, 7), S w).

Definition neural_data (res : ns_RESULT) (file_id entity_id index index_count : uint32)
    : native calls (list double) := λ w,
  (res, [d1_5], S w).

Definition last_error_msg (size : uint32) : native calls (list byte) := λ w,
  (0, sz "bad index", S w).

(** A library whose data calls report [res], whose analog call reports
    [cont] contiguous samples, whose segment call reports [time_stamp],
    whose one segment entity has [sources] sources, and whose source
    [bad] cannot be described. The entry points of the operations left
    out of this development are other symbols. *)
Definition library (res : ns_RESULT) (cont : uint32) (time_stamp : double)
    (sources : Z) (bad : option Z) (handle : addr) : NsLibrary calls :=
  {| dl_handle := handle;
     GetLibraryInfo := Some (other_symbol 1);
     OpenFile := Some (other_symbol 2);
     CloseFile := Some (other_symbol 3);
     GetFileInfo := Some (other_symbol 4);
     GetEntityInfo := Some (ns_GetEntityInfo (entity_info 3));
     GetEventInfo := None;
     GetEventData := Some (ns_GetEventData (event_data res));
     GetAnalogInfo := None;
     GetAnalogData := Some (ns_GetAnalogData (analog_data res cont));
     GetSegmentInfo := Some (ns_GetSegmentInfo (segment_info sources));
     GetSegmentSourceInfo := Some (ns_GetSegmentSourceInfo (segment_source_info bad));
     GetSegmentData := Some (ns_GetSegmentData (segment_data res time_stamp));
     GetNeuralInfo := None;
     GetNeuralData := Some (ns_GetNeuralData (neural_data res));
     GetIndexByTime := Some (other_symbol 5);
     GetTimeByIndex := Some (other_symbol 6);
     GetLastErrorMsg := Some (ns_GetLastErrorMsg last_error_msg) |}.

(** A loader that knows one file, [libmock.so], which exports the data
    entry points and the error text but none of the info entry points. *)
Definition loader : Loader calls :=
  {| dlopen := λ filename flags w,
       (if bool_decide (filename = "libmock.so") then Some 7%positive else None, S w);
     dlsym := λ handle name w,
       if bool_decide (name = "ns_GetEventData") then
         Some (ns_GetEventData (event_data 0))
       else if bool_decide (name = "ns_GetLastErrorMsg") then
         Some (ns_GetLastErrorMsg last_error_msg)
       else None;
     dlclose := λ handle w, (0, S w);
     dlerror := λ w, ("libbad.so: cannot open shared object file", w) |}.

(** A library that works; one whose data calls fail; one that reports
    five contiguous samples, whatever was asked for; one whose second
    source cannot be described. *)
Definition working : NsLibrary calls := library 0 2 dm2_75 2 None 7.
Definition failing : NsLibrary calls := library (-1) 0 d1_5 2 None 7.
Definition overcounting : NsLibrary calls := library 0 5 d1_5 2 None 7.
Definition half_described : NsLibrary calls := library 0 2 d1_5 2 (Some 1) 7.

(** What [library_open] makes of [libmock.so], and the states after
    opening it in the empty state and after closing it again. *)
Definition resolved : NsLibrary calls :=
  {| dl_handle := 7;
     GetLibraryInfo := None; OpenFile := None; CloseFile := None;
     GetFileInfo := None; GetEntityInfo := None; GetEventInfo := None;
     GetEventData := Some (ns_GetEventData (event_data 0));
     GetAnalogInfo := None; GetAnalogData := None; GetSegmentInfo := None;
     GetSegmentSourceInfo := None; GetSegmentData := None;
     GetNeuralInfo := None; GetNeuralData := None;
     GetIndexByTime := None; GetTimeByIndex := None;
     GetLastErrorMsg := Some (ns_GetLastErrorMsg last_error_msg) |}.

Definition opened : state calls := mkState {[ 1%positive := BLib resolved ]} None 1%nat.
Definition closed : state calls := mkState ∅ None 2%nat.

(** A state in which the library record sits at address 1. *)
Definition state_with (lib : NsLibrary calls) : state calls :=
  mkState {[ 1%positive := BLib lib ]} None 0%nat.

Definition empty_state : state calls := mkState ∅ None 0%nat.

Definition handle : PyObject := PyCObject 1.

End Mock.

(* ===================================================================== *)
(** ** The rest of the stand-in library *)
(* ===================================================================== *)

Module MockFiles.

Definition library_record : ns_LIBRARYINFO.t :=
  {| ns_LIBRARYINFO.szDescription := Mock.sz "stand-in";
     ns_LIBRARYINFO.szCreator := Mock.sz "nobody";
     ns_LIBRARYINFO.dwLibVersionMaj := 1;
     ns_LIBRARYINFO.dwLibVersionMin := 2;
     ns_LIBRARYINFO.dwAPIVersionMaj := 1;
     ns_LIBRARYINFO.dwAPIVersionMin := 1;
     ns_LIBRARYINFO.dwTime_Year := 2011;
     ns_LIBRARYINFO.dwTime_Month := 3;
     ns_LIBRARYINFO.dwTime_Day := 14;
     ns_LIBRARYINFO.dwMaxFiles := 8 |}.

Definition library_info : native Mock.calls ns_LIBRARYINFO.t := λ w,
  (0, library_record, S w).

Definition file_record : ns_FILEINFO.t :=
  {| ns_FILEINFO.szFileType := Mock.sz "mcd";
     ns_FILEINFO.szAppName := Mock.sz "rec";
     ns_FILEINFO.szFileComment := Mock.sz "";
     ns_FILEINFO.dwEntityCount := 3;
     ns_FILEINFO.dTimeStampResolution := Mock.d1_5;
     ns_FILEINFO.dTimeSpan := Mock.d1_5;
     ns_FILEINFO.dwTime_Year := 2011;
     ns_FILEINFO.dwTime_Month := 3;
     ns_FILEINFO.dwTime_Day := 14;
     ns_FILEINFO.dwTime_Hour := 15;
     ns_FILEINFO.dwTime_Min := 9;
     ns_FILEINFO.dwTime_Sec := 26;
     ns_FILEINFO.dwTime_MilliSec := 535 |}.

(** Every file opens, with status [res], as the file 42. *)
Definition open_file (res : ns_RESULT) (filename : string) : native Mock.calls uint32 := λ w,
  (res, 42, S w).

Definition file_info (res : ns_RESULT) (file_id : uint32)
    : native Mock.calls ns_FILEINFO.t := λ w,
  (res, file_record, S w).

(** Only the file 42 can be closed. *)
Definition close_file (file_id : uint32) : native Mock.calls () := λ w,
  (if bool_decide (file_id = 42) then 0 else -1, (), S w).

(** The index of a time is the number of flags given; the time of an
    index is -2.75. *)
Definition index_by_time (file_id entity_id : uint32) (timepoint : double) (flags : uint32)
    : native Mock.calls uint32 := λ w,
  (0, flags, S w).

Definition time_by_index (file_id entity_id index : uint32)
    : native Mock.calls double := λ w,
  (0, Mock.dm2_75, S w).

(** What the other symbols 1 to 6 of [Mock.library] are, [ns_OpenFile]
    reporting [opening] and [ns_GetFileInfo] reporting [describing]. *)
Definition vendor (opening describing : ns_RESULT) : Vendor Mock.calls :=
  {| routine_at := λ code,
       ({[ 1%positive := ns_GetLibraryInfo library_info;
           2%positive := ns_OpenFile (open_file opening);
           3%positive := ns_CloseFile close_file;
           4%positive := ns_GetFileInfo (file_info describing);
           5%positive := ns_GetIndexByTime index_by_time;
           6%positive := ns_GetTimeByIndex time_by_index ]}
        : gmap positive (routine Mock.calls)) !! code |}.

Definition event_record : ns_EVENTINFO.t :=
  {| ns_EVENTINFO.dwEventType := 4;
     ns_EVENTINFO.dwMinDataLength := 4;
     ns_EVENTINFO.dwMaxDataLength := 4;
     ns_EVENTINFO.szCSVDesc := Mock.sz "" |}.

Definition event_info (res : ns_RESULT) (file_id entity_id : uint32)
    : native Mock.calls ns_EVENTINFO.t := λ w,
  (res, event_record, S w).

Definition neural_record : ns_NEURALINFO.t :=
  {| ns_NEURALINFO.dwSourceEntityID := 1;
     ns_NEURALINFO.dwSourceUnitID := 2;
     ns_NEURALINFO.szProbeInfo := Mock.sz "probe" |}.

Definition neural_info (res : ns_RESULT) (file_id entity_id : uint32)
    : native Mock.calls ns_NEURALINFO.t := λ w,
  (res, neural_record, S w).

Definition analog_record : ns_ANALOGINFO.t :=
  {| ns_ANALOGINFO.dSampleRate := Mock.d1_5;
     ns_ANALOGINFO.dMinVal := Mock.dm2_75;
     ns_ANALOGINFO.dMaxVal := Mock.d1_5;
     ns_ANALOGINFO.szUnits := Mock.sz "mV";
     ns_ANALOGINFO.dResolution := Mock.d1_5;
     ns_ANALOGINFO.dLocationX := Mock.d0;
     ns_ANALOGINFO.dLocationY := Mock.d0;
     ns_ANALOGINFO.dLocationZ := Mock.d0;
     ns_ANALOGINFO.dLocationUser := Mock.d0;
     ns_ANALOGINFO.dHighFreqCorner := Mock.d1_5;
     ns_ANALOGINFO.dwHighFreqOrder := 2;
     ns_ANALOGINFO.szHighFilterType := Mock.sz "none";
     ns_ANALOGINFO.dLowFreqCorner := Mock.d1_5;
     ns_ANALOGINFO.dwLowFreqOrder := 1;
     ns_ANALOGINFO.szLowFilterType := Mock.sz "none";
     ns_ANALOGINFO.szProbeInfo := Mock.sz "probe" |}.

Definition analog_info (res : ns_RESULT) (file_id entity_id : uint32)
    : native Mock.calls ns_ANALOGINFO.t := λ w,
  (res, analog_record, S w).

Definition segment_info (res : ns_RESULT) (file_id entity_id : uint32)
    : native Mock.calls ns_SEGMENTINFO.t := λ w,
  (res, Mock.segment_record 1, S w).

(** A library whose entities are all of the type [kind], and whose
    type-specific info calls report [res]. *)
Definition described (kind : Z) (res : ns_RESULT) : NsLibrary Mock.calls :=
  {| dl_handle := 7;
     GetLibraryInfo := Some (other_symbol 1);
     OpenFile := Some (other_symbol 2);
     CloseFile := Some (other_symbol 3);
     GetFileInfo := Some (other_symbol 4);
     GetEntityInfo := Some (ns_GetEntityInfo (Mock.entity_info kind));
     GetEventInfo := Some (ns_GetEventInfo (event_info res));
     GetEventData := None;
     GetAnalogInfo := Some (ns_GetAnalogInfo (analog_info res));
     GetAnalogData := None;
     GetSegmentInfo := Some (ns_GetSegmentInfo (segment_info res));
     GetSegmentSourceInfo :=
       Some (ns_GetSegmentSourceInfo (Mock.segment_source_info None));
     GetSegmentData := None;
     GetNeuralInfo := Some (ns_GetNeuralInfo (neural_info res));
     GetNeuralData := None;
     GetIndexByTime := Some (other_symbol 5);
     GetTimeByIndex := Some (other_symbol 6);
     GetLastErrorMsg := Some (ns_GetLastErrorMsg Mock.last_error_msg) |}.

(** A loader whose [dlclose] fails. *)
Definition stuck_loader : Loader Mock.calls :=
  {| dlopen := @dlopen _ Mock.loader;
     dlsym := @dlsym _ Mock.loader;
     dlclose := λ handle w, (-1, S w);
     dlerror := λ w, ("library is in use", w) |}.

End MockFiles.

(* ===================================================================== *)
(** * Properties *)
(* ===================================================================== *)

(** ** Integers and bytes *)

Lemma wrap_small (w z : Z) : 0 ≤ z < 2 ^ w → wrap w z = z.
Proof. intros Hz. unfold wrap. by apply Z.mod_small. Qed.

Lemma wrap_range (w z : Z) : 0 ≤ w → 0 ≤ wrap w z < 2 ^ w.
Proof. intros Hw. unfold wrap. apply Z.mod_pos_bound. by apply Z.pow_pos_nonneg. Qed.

Lemma wrap_wrap (w z : Z) : 0 ≤ w → wrap w (wrap w z) = wrap w z.
Proof. intros Hw. apply wrap_small, wrap_range, Hw. Qed.

Lemma u32_range (z : Z) : 0 ≤ u32 z < 2 ^ 32.
Proof. apply wrap_range. lia. Qed.

Lemma swrap_small (z : Z) : LONG_MIN ≤ z ≤ LONG_MAX → swrap LONG_BIT z = z.
Proof.
  unfold LONG_MIN, LONG_MAX, LONG_BIT, swrap. intros Hz.
  rewrite Z.mod_small; lia.
Qed.

Lemma PyInt_FromLong_u32 (z : Z) : PyInt_FromLong (u32 z) = PyInt (u32 z).
Proof.
  unfold PyInt_FromLong. f_equal. apply swrap_small.
  pose proof (u32_range z). unfold LONG_MIN, LONG_MAX. lia.
Qed.

Lemma byte_val_range (b : byte) : 0 ≤ byte_val b < 256.
Proof.
  unfold byte_val. pose proof (Byte.to_N_bounded b) as Hb. lia.
Qed.

Lemma le_value_range (bs : list byte) : 0 ≤ le_value bs < 256 ^ Z.of_nat (length bs).
Proof.
  induction bs as [|b bs IH]; [done|].
  cbn [le_value length]. rewrite Nat2Z.inj_succ, Z.pow_succ_r by lia.
  pose proof (byte_val_range b). lia.
Qed.

Lemma native_value_range `{Platform} (bs : list byte) :
  0 ≤ native_value bs < 256 ^ Z.of_nat (length bs).
Proof.
  unfold native_value. destruct byte_order.
  - apply le_value_range.
  - rewrite <- length_rev. apply le_value_range.
Qed.

Lemma load_take `{Platform} (n : nat) (data : list byte) :
  (n ≤ length data)%nat → load n data = Some (native_value (take n data)).
Proof.
  intros Hn. unfold load. by rewrite (proj2 (Nat.leb_le _ _) Hn).
Qed.

Lemma native_value_take_range `{Platform} (n : nat) (data : list byte) :
  (n ≤ length data)%nat → 0 ≤ native_value (take n data) < 256 ^ Z.of_nat n.
Proof.
  intros Hn. pose proof (native_value_range (take n data)) as Hr.
  by rewrite length_take_le in Hr.
Qed.

(** ** The numeric decoders *)

(** X1. What the decoders return at the widths they know: the byte and word
    decoders convert the value read to their return type, as their casts
    say (the byte decoder reads one byte at width 2); the dword decoder
    returns the value read at the widths 1 and 2. *)
Lemma decoders_convert `{Platform} (data : list byte) (w : nat) :
  w = 1%nat ∨ w = 2%nat ∨ w = 4%nat →
  (w ≤ length data)%nat →
  uint8_from_data data (Z.of_nat w)
    = Some (if decide (w = 2%nat) then native_value (take 1 data)
            else wrap 8 (native_value (take w data)))
  ∧ uint16_from_data data (Z.of_nat w) = Some (wrap 16 (native_value (take w data)))
  ∧ (w ≠ 4%nat → uint32_from_data data (Z.of_nat w) = Some (native_value (take w data))).
Proof.
  intros Hw Hlen.
  assert (H1 : (1 ≤ length data)%nat) by lia.
  pose proof (native_value_take_range 1 data H1) as R1.
  change (256 ^ Z.of_nat 1) with 256 in R1.
  unfold uint8_from_data, uint16_from_data, uint32_from_data.
  destruct Hw as [-> | [-> | ->]];
    [change (Z.of_nat 1) with 1 | change (Z.of_nat 2) with 2 | change (Z.of_nat 4) with 4];
    cbn [Z.eqb Pos.eqb].
  - rewrite !load_take by done. cbn [mbind option_bind].
    rewrite decide_False by lia.
    split; [done|]. split; [f_equal; apply wrap_wrap; lia|].
    intros _. f_equal. set (v := native_value (take 1 data)) in *.
    rewrite (wrap_small 32 v), (wrap_small 16 v), (wrap_small 32 v); lia.
  - pose proof (native_value_take_range 2 data Hlen) as R2.
    change (256 ^ Z.of_nat 2) with 65536 in R2.
    rewrite !load_take by done. cbn [mbind option_bind].
    rewrite decide_True by done.
    split; [f_equal; apply wrap_small; lia|]. split; [done|].
    intros _. f_equal. set (v := native_value (take 2 data)) in *.
    rewrite (wrap_small 32 v), (wrap_small 16 v), (wrap_small 32 v); lia.
  - rewrite !load_take by done. cbn [mbind option_bind].
    rewrite decide_False by lia.
    split; [done|]. split; [f_equal; apply wrap_wrap; lia|]. done.
Qed.

(** The dword decoder at width 4 keeps the low 16 bits of the value it
    reads: its local [ret] is a [uint16]. *)
Lemma uint32_from_data_4 `{Platform} (data : list byte) :
  (4 ≤ length data)%nat →
  uint32_from_data data 4 = Some (native_value (take 4 data) mod 2 ^ 16).
Proof.
  intros Hlen. unfold uint32_from_data. cbn [Z.eqb Pos.eqb].
  rewrite load_take by done. cbn [mbind option_bind]. f_equal.
  apply wrap_small. pose proof (wrap_range 16 (native_value (take 4 data))).
  unfold wrap in *. lia.
Qed.

(** On a little-endian machine the first byte of a buffer is the low byte
    of the word it starts with. *)
Lemma first_byte_low (data : list byte) :
  (2 ≤ length data)%nat →
  @native_value little_endian (take 1 data)
  = wrap 8 (@native_value little_endian (take 2 data)).
Proof.
  destruct data as [|a [|b rest]]; cbn [length]; try lia. intros _.
  unfold native_value, wrap. cbn [byte_order little_endian firstn le_value].
  rewrite take_0. cbn [le_value].
  pose proof (byte_val_range a). pose proof (byte_val_range b).
  replace (byte_val a + 256 * (byte_val b + 256 * 0))
    with (byte_val a + byte_val b * 2 ^ 8) by lia.
  rewrite Z.mod_add by lia. rewrite Z.mod_small by lia. lia.
Qed.

(** C8. Every decoder returns 0, and no error, at a declared width other
    than 1, 2 and 4, whatever the buffer holds. *)
Theorem decoders_unknown_width_zero `{Platform} (data : list byte) (data_len : size_t) :
  data_len ≠ 1 → data_len ≠ 2 → data_len ≠ 4 →
  uint8_from_data data data_len = Some 0
  ∧ uint16_from_data data data_len = Some 0
  ∧ uint32_from_data data data_len = Some 0.
Proof.
  intros H1 H2 H4.
  unfold uint8_from_data, uint16_from_data, uint32_from_data.
  rewrite (proj2 (Z.eqb_neq _ _) H1), (proj2 (Z.eqb_neq _ _) H2),
    (proj2 (Z.eqb_neq _ _) H4).
  done.
Qed.

Lemma decoders_unknown_width_zero_witness :
  @uint8_from_data little_endian [x2a; xff] 3 = Some 0
  ∧ @uint16_from_data little_endian [x2a; xff] 3 = Some 0
  ∧ @uint32_from_data little_endian [x2a; xff] 3 = Some 0.
Proof.
  apply (@decoders_unknown_width_zero little_endian [x2a; xff] 3); lia.
Defined.

(** C1. The dword decoder at width 4 does not return the 32-bit value of
    the four bytes: it returns that value modulo 2^16, which is another
    number as soon as the value has a bit set in its high half. *)
Theorem uint32_from_data_drops_high_half `{Platform} (data : list byte) :
  (4 ≤ length data)%nat →
  uint32_from_data data 4 = Some (native_value (take 4 data) mod 2 ^ 16)
  ∧ (2 ^ 16 ≤ native_value (take 4 data) →
     uint32_from_data data 4 ≠ Some (native_value (take 4 data))).
Proof.
  intros Hlen. rewrite uint32_from_data_4 by done. split; [done|].
  intros Hhigh [= Heq].
  pose proof (Z.mod_pos_bound (native_value (take 4 data)) (2 ^ 16)) as Hmod.
  lia.
Qed.

(** Of the bytes 78 56 34 12 the dword decoder returns 0x5678 where the
    bytes spell 0x12345678 (little-endian). *)
Lemma uint32_from_data_drops_high_half_witness :
  @uint32_from_data little_endian [x78; x56; x34; x12] 4 = Some 22136
  ∧ @native_value little_endian (take 4 [x78; x56; x34; x12]) = 305419896
  ∧ @uint32_from_data little_endian [x78; x56; x34; x12] 4
    ≠ Some (@native_value little_endian (take 4 [x78; x56; x34; x12])).
Proof.
  destruct (@uint32_from_data_drops_high_half little_endian [x78; x56; x34; x12])
    as [Hvalue Hother]; [cbn [length]; lia|].
  split; [rewrite Hvalue; vm_compute; reflexivity|].
  split; [vm_compute; reflexivity|].
  apply Hother. vm_compute. discriminate.
Defined.

(** ** Running the glue *)

Section Run.
Context {W : Type} `{nsAPItypes} `{Platform} `{Loader W}.

Lemma bind_Done {A B} (m : M W A) (f : A → M W B) (s s' : state W) (a : A) :
  m s = Done a s' → (m ≫= f) s = f a s'.
Proof. intros E. unfold mbind, M_bind. by rewrite E. Qed.

Lemma bind_Undefined {A B} (m : M W A) (f : A → M W B) (s : state W) :
  m s = Undefined → (m ≫= f) s = Undefined.
Proof. intros E. unfold mbind, M_bind. by rewrite E. Qed.

Lemma bind_inv {A B} (m : M W A) (f : A → M W B) (s s2 : state W) (b : B) :
  (m ≫= f) s = Done b s2 → ∃ a s1, m s = Done a s1 ∧ f a s1 = Done b s2.
Proof.
  unfold mbind, M_bind. destruct (m s) as [a s1|]; [|done]. eauto.
Qed.

Lemma ret_inv {A} (a b : A) (s s' : state W) :
  mret (M := M W) a s = Done b s' → a = b ∧ s = s'.
Proof. unfold mret, M_ret. by intros [= -> ->]. Qed.

Lemma read_NsLibrary_Done (p : addr) (lib : NsLibrary W) (s : state W) :
  heap s !! p = Some (BLib lib) → read_NsLibrary p s = Done lib s.
Proof. intros E. unfold read_NsLibrary. by rewrite E. Qed.

Lemma PyCObject_AsVoidPtr_Done (p : addr) (lib : NsLibrary W) (s : state W) {B}
    (k : addr → NsLibrary W → M W B) :
  heap s !! p = Some (BLib lib) →
  (lib_ptr ← PyCObject_AsVoidPtr (PyCObject p);
   fields ← read_NsLibrary lib_ptr;
   k lib_ptr fields) s
  = k p lib s.
Proof.
  intros E. erewrite bind_Done by reflexivity.
  by erewrite bind_Done by (by apply read_NsLibrary_Done).
Qed.

Lemma call_native_Done {A} (f : native W A) (s : state W) res (out : A) (w : W) :
  f (world s) = (res, out, w) →
  call_native f s = Done (res, out) (mkState (heap s) (pyerr s) w).
Proof. intros E. unfold call_native. by rewrite E. Qed.

Lemma call_loader_Done {A} (f : W → A * W) (s : state W) (a : A) (w : W) :
  f (world s) = (a, w) →
  call_loader f s = Done a (mkState (heap s) (pyerr s) w).
Proof. intros E. unfold call_loader. by rewrite E. Qed.

(** An allocation picks an address that was free, and releasing it again
    restores the heap, whatever happened to the rest of the state. *)
Lemma allocate_Done (b : block W) (s : state W) :
  ∃ p, heap s !! p = None
       ∧ allocate b s = Done p (mkState (<[p := b]> (heap s)) (pyerr s) (world s)).
Proof.
  exists (fresh (dom (heap s))). split; [|done].
  apply not_elem_of_dom, is_fresh.
Qed.

Lemma free_allocated (p : addr) (b : block W) (h : gmap addr (block W)) e (w : W) :
  h !! p = None →
  free p (mkState (<[p := b]> h) e w) = Done () (mkState h e w).
Proof.
  intros Hp. unfold free. cbn [heap pyerr world].
  by rewrite lookup_insert_eq, delete_insert_eq, delete_id.
Qed.

Lemma check_result_is_error_OK (lib : NsLibrary W) (s : state W) :
  check_result_is_error ns_OK lib s = Done false s.
Proof. unfold check_result_is_error. by rewrite Z.eqb_refl. Qed.

Lemma check_result_is_error_text
    (res : ns_RESULT) (lib : NsLibrary W) (s : state W) (msg : string) (w : W) :
  res ≠ ns_OK →
  vendor_error_text lib (world s) = Some (msg, w) →
  check_result_is_error res lib s
  = Done true (mkState (heap s) (Some (PgError, Some msg)) w).
Proof.
  intros Hres Htext. unfold check_result_is_error, vendor_error_text in *.
  rewrite (proj2 (Z.eqb_neq _ _) Hres).
  unfold call_GetLastErrorMsg.
  destruct (GetLastErrorMsg lib) as [[]|]; try done.
  destruct (f 1024 (world s)) as [[r written] w'] eqn:Ecall.
  erewrite bind_Done by (by apply call_native_Done).
  cbv beta iota.
  destruct (c_str_in_buffer 1024 written) as [buf|]; [|done].
  injection Htext as <- <-. reflexivity.
Qed.

(** [check_result_is_error] answers 0 exactly for [ns_OK], and changes
    nothing then. *)
Lemma check_result_is_error_inv
    (res : ns_RESULT) (lib : NsLibrary W) (s s' : state W) (err : bool) :
  check_result_is_error res lib s = Done err s' →
  (err = false ∧ res = ns_OK ∧ s' = s) ∨ (err = true ∧ res ≠ ns_OK).
Proof.
  unfold check_result_is_error. destruct (res =? ns_OK) eqn:E.
  - intros [-> ->]%ret_inv. left. by apply Z.eqb_eq in E.
  - intros ([r written] & s1 & _ & Hrest)%bind_inv.
    apply bind_inv in Hrest as (buf & s2 & _ & Hrest).
    apply bind_inv in Hrest as (u & s3 & _ & [<- _]%ret_inv).
    right. by apply Z.eqb_neq in E.
Qed.

Lemma array_cells_inv (size : Z) (samples : list double) (s s' : state W) cells :
  array_cells size samples s = Done cells s' →
  s' = s ∧ length cells = Z.to_nat size.
Proof.
  unfold array_cells. destruct (Z.of_nat (length samples) <=? size) eqn:E; [|done].
  intros [<- <-]%ret_inv. split; [done|].
  apply Z.leb_le in E.
  rewrite length_app, length_fmap, length_replicate. lia.
Qed.

Lemma array_cells_Done (size : Z) (samples : list double) (s : state W) :
  Z.of_nat (length samples) ≤ size →
  ∃ cells, array_cells size samples s = Done cells s.
Proof.
  intros E. unfold array_cells. rewrite (proj2 (Z.leb_le _ _) E). eauto.
Qed.

Lemma buffer_bytes_Done (size : Z) (written : list byte) (s : state W) :
  Z.of_nat (length written) ≤ size →
  buffer_bytes size written s = Done written s.
Proof.
  intros E. unfold buffer_bytes. by rewrite (proj2 (Z.leb_le _ _) E).
Qed.

Lemma buffer_bytes_inv (size : Z) (written bytes : list byte) (s s' : state W) :
  buffer_bytes size written s = Done bytes s' → bytes = written ∧ s' = s.
Proof.
  unfold buffer_bytes. destruct (_ <=? _); [|done]. by intros [<- <-]%ret_inv.
Qed.

Lemma defined_inv {A} (o : option A) (a : A) (s s' : state W) :
  defined o s = Done a s' → o = Some a ∧ s' = s.
Proof. destruct o; [|done]. by intros [<- <-]%ret_inv. Qed.

End Run.

(** ** Failure of a data entry point *)

Section Failure.
Context {W : Type} `{nsAPItypes} `{Platform} `{Loader W}.

Lemma check_result_is_error_no_text (res : ns_RESULT) (lib : NsLibrary W) (s : state W) :
  res ≠ ns_OK →
  vendor_error_text lib (world s) = None →
  check_result_is_error res lib s = Undefined.
Proof.
  intros Hres Htext. unfold check_result_is_error, vendor_error_text in *.
  rewrite (proj2 (Z.eqb_neq _ _) Hres).
  unfold call_GetLastErrorMsg.
  destruct (GetLastErrorMsg lib) as [[]|]; try done.
  destruct (f 1024 (world s)) as [[r written] w'] eqn:Ecall.
  erewrite bind_Done by (by apply call_native_Done).
  cbv beta iota.
  destruct (c_str_in_buffer 1024 written) as [buf|]; done.
Qed.

Lemma failed_inv (s : state W) (lib : NsLibrary W) (w1 : W) r (s' : state W) :
  failed s lib w1 = Done r s' →
  r = None ∧ heap s' = heap s ∧ ∃ msg, pyerr s' = Some (PgError, Some msg).
Proof.
  unfold failed. destruct (vendor_error_text lib w1) as [[msg w2]|]; [|done].
  intros [= <- <-]. eauto.
Qed.

(** After a failed check the allocation [q] of the call is released. *)
Lemma release_after_failure
    (res : ns_RESULT) (lib : NsLibrary W) (s : state W) (q : addr) (b : block W) (w1 : W)
    (otherwise : M W (option PyObject)) :
  res ≠ ns_OK →
  heap s !! q = None →
  (err ← check_result_is_error res lib;
   if err : bool then free q;; mret None else otherwise)
    (mkState (<[q := b]> (heap s)) (pyerr s) w1)
  = failed s lib w1.
Proof.
  intros Hres Hq. unfold failed.
  destruct (vendor_error_text lib w1) as [[msg w2]|] eqn:Htext.
  - erewrite bind_Done by (by apply check_result_is_error_text).
    cbv beta iota.
    erewrite bind_Done by (by apply free_allocated). reflexivity.
  - by erewrite bind_Undefined by (by apply check_result_is_error_no_text).
Qed.

Lemma do_get_event_data_failure
    p fid eid idx tp sz (s : state W) (lib : NsLibrary W) f res ts written n w1 :
  heap s !! p = Some (BLib lib) →
  GetEventData lib = Some (ns_GetEventData f) →
  f (u32 fid) (u32 eid) (u32 idx) (u32 sz) (world s) = (res, (ts, written, n), w1) →
  res ≠ ns_OK →
  do_get_event_data [PyCObject p; PyInt fid; PyInt eid; PyInt idx; PyInt tp; PyInt sz] s
  = if bool_decide (Z.of_nat (length written) ≤ u32 sz) then failed s lib w1
    else Undefined.
Proof.
  intros Hp Hf Hcall Hres. unfold do_get_event_data.
  cbn [PyCObject_Check PyInt_Check negb orb PyInt_AsUnsignedLongMask].
  rewrite (PyCObject_AsVoidPtr_Done p lib s _ Hp).
  destruct (allocate_Done (BRaw (wrap 32 sz)) s) as (q & Hq & Halloc).
  unfold malloc. erewrite bind_Done by exact Halloc.
  unfold call_GetEventData. rewrite Hf.
  erewrite bind_Done by (by apply call_native_Done).
  cbv beta iota. cbn [heap pyerr world].
  case_bool_decide as Hfit.
  - erewrite bind_Done by (by apply buffer_bytes_Done).
    by apply release_after_failure.
  - unfold buffer_bytes. rewrite (proj2 (Z.leb_gt _ _)) by (unfold u32 in Hfit; lia). done.
Qed.

Lemma PyArray_SIZE_1 (n : Z) : PyArray_SIZE [n] = n.
Proof. unfold PyArray_SIZE. cbn [foldr]. lia. Qed.

Lemma PyArray_SIZE_2 (m n : Z) : PyArray_SIZE [m; n] = m * n.
Proof. unfold PyArray_SIZE. cbn [foldr]. lia. Qed.

Lemma array_cells_overflow (size : Z) (samples : list double) (s : state W) :
  ¬ Z.of_nat (length samples) ≤ size →
  array_cells size samples s = Undefined.
Proof.
  intros E. unfold array_cells. by rewrite (proj2 (Z.leb_gt _ _)) by lia.
Qed.

Lemma do_get_analog_data_failure
    p fid eid idx n (s : state W) (lib : NsLibrary W) f res cont samples w1 :
  heap s !! p = Some (BLib lib) →
  GetAnalogData lib = Some (ns_GetAnalogData f) →
  f (u32 fid) (u32 eid) (u32 idx) (u32 n) (world s) = (res, (cont, samples), w1) →
  res ≠ ns_OK →
  do_get_analog_data [PyCObject p; PyInt fid; PyInt eid; PyInt idx; PyInt n] s
  = if bool_decide (Z.of_nat (length samples) ≤ u32 n) then failed s lib w1
    else Undefined.
Proof.
  intros Hp Hf Hcall Hres. unfold do_get_analog_data.
  cbn [PyCObject_Check PyInt_Check negb orb PyInt_AsUnsignedLongMask].
  rewrite (PyCObject_AsVoidPtr_Done p lib s _ Hp).
  cbv zeta. rewrite PyArray_SIZE_1.
  destruct (allocate_Done (BArr [wrap 32 n]) s) as (q & Hq & Halloc).
  unfold PyArray_New. erewrite bind_Done by exact Halloc.
  unfold call_GetAnalogData. rewrite Hf.
  erewrite bind_Done by (by apply call_native_Done).
  cbv beta iota. cbn [heap pyerr world].
  case_bool_decide as Hfit.
  - destruct (array_cells_Done (wrap 32 n) samples
      (mkState (<[q := BArr [wrap 32 n]]> (heap s)) (pyerr s) w1) Hfit) as (cells & Hcells).
    erewrite bind_Done by exact Hcells.
    by apply release_after_failure.
  - by erewrite bind_Undefined by (by apply array_cells_overflow).
Qed.

Lemma do_get_segment_data_failure
    p fid eid idx src n (s : state W) (lib : NsLibrary W) f res ts samples sc uid w1 :
  heap s !! p = Some (BLib lib) →
  GetSegmentData lib = Some (ns_GetSegmentData f) →
  f (u32 fid) (u32 eid) (u32 idx) (u32 (8 * (u32 src * u32 n))) (world s)
    = (res, (ts, samples, sc, uid), w1) →
  res ≠ ns_OK →
  do_get_segment_data
    [PyCObject p; PyInt fid; PyInt eid; PyInt idx; PyInt src; PyInt n] s
  = if bool_decide (Z.of_nat (length samples) ≤ u32 src * u32 n) then failed s lib w1
    else Undefined.
Proof.
  intros Hp Hf Hcall Hres. unfold do_get_segment_data.
  cbn [PyCObject_Check PyInt_Check negb orb PyInt_AsUnsignedLongMask].
  rewrite (PyCObject_AsVoidPtr_Done p lib s _ Hp).
  cbv zeta. rewrite PyArray_SIZE_2.
  destruct (allocate_Done (BArr [wrap 32 src; wrap 32 n]) s) as (q & Hq & Halloc).
  unfold PyArray_New. erewrite bind_Done by exact Halloc.
  unfold call_GetSegmentData. rewrite Hf.
  erewrite bind_Done by (by apply call_native_Done).
  cbv beta iota. cbn [heap pyerr world].
  case_bool_decide as Hfit.
  - destruct (array_cells_Done (wrap 32 src * wrap 32 n) samples
      (mkState (<[q := BArr [wrap 32 src; wrap 32 n]]> (heap s)) (pyerr s) w1) Hfit)
      as (cells & Hcells).
    erewrite bind_Done by exact Hcells.
    by apply release_after_failure.
  - by erewrite bind_Undefined by (by apply array_cells_overflow).
Qed.

Lemma do_get_neural_data_failure
    p fid eid idx n (s : state W) (lib : NsLibrary W) f res samples w1 :
  heap s !! p = Some (BLib lib) →
  GetNeuralData lib = Some (ns_GetNeuralData f) →
  f (u32 fid) (u32 eid) (u32 idx) (u32 n) (world s) = (res, samples, w1) →
  res ≠ ns_OK →
  do_get_neural_data [PyCObject p; PyInt fid; PyInt eid; PyInt idx; PyInt n] s
  = if bool_decide (Z.of_nat (length samples) ≤ u32 n) then failed s lib w1
    else Undefined.
Proof.
  intros Hp Hf Hcall Hres. unfold do_get_neural_data.
  cbn [PyCObject_Check PyInt_Check negb orb PyInt_AsUnsignedLongMask].
  rewrite (PyCObject_AsVoidPtr_Done p lib s _ Hp).
  cbv zeta. rewrite PyArray_SIZE_1.
  destruct (allocate_Done (BArr [wrap 32 n]) s) as (q & Hq & Halloc).
  unfold PyArray_New. erewrite bind_Done by exact Halloc.
  unfold call_GetNeuralData. rewrite Hf.
  erewrite bind_Done by (by apply call_native_Done).
  cbv beta iota. cbn [heap pyerr world].
  case_bool_decide as Hfit.
  - destruct (array_cells_Done (wrap 32 n) samples
      (mkState (<[q := BArr [wrap 32 n]]> (heap s)) (pyerr s) w1) Hfit) as (cells & Hcells).
    erewrite bind_Done by exact Hcells.
    by apply release_after_failure.
  - by erewrite bind_Undefined by (by apply array_cells_overflow).
Qed.

Lemma failed_cleanly (s : state W) (lib : NsLibrary W) (w1 : W) (fits : Prop)
    `{!Decision fits} :
  fails_cleanly s lib w1 fits (if bool_decide fits then failed s lib w1 else Undefined).
Proof.
  split.
  - intros r s'. case_bool_decide; [|done]. apply failed_inv.
  - intros Hfits msg w2 Htext. rewrite bool_decide_eq_true_2 by done.
    unfold failed. by rewrite Htext.
Qed.

(** C7. When the vendor's data entry point reports a status other than
    [ns_OK], each of the four data accessors (event, analog, segment,
    neural) releases the buffer or array it allocated for the call (the
    heap is as before), leaves a [PgError] with the vendor's text pending
    and returns [NULL]: no payload or array reaches the caller. *)
Theorem data_accessors_release_on_failure
    (p : addr) (s : state W) (lib : NsLibrary W) (fid eid idx : Z) :
  heap s !! p = Some (BLib lib) →
  (∀ tp sz f res ts written n w1,
     GetEventData lib = Some (ns_GetEventData f) →
     f (u32 fid) (u32 eid) (u32 idx) (u32 sz) (world s) = (res, (ts, written, n), w1) →
     res ≠ ns_OK →
     fails_cleanly s lib w1 (Z.of_nat (length written) ≤ u32 sz)
       (do_get_event_data
          [PyCObject p; PyInt fid; PyInt eid; PyInt idx; PyInt tp; PyInt sz] s))
  ∧ (∀ n f res cont samples w1,
     GetAnalogData lib = Some (ns_GetAnalogData f) →
     f (u32 fid) (u32 eid) (u32 idx) (u32 n) (world s) = (res, (cont, samples), w1) →
     res ≠ ns_OK →
     fails_cleanly s lib w1 (Z.of_nat (length samples) ≤ u32 n)
       (do_get_analog_data [PyCObject p; PyInt fid; PyInt eid; PyInt idx; PyInt n] s))
  ∧ (∀ src n f res ts samples sc uid w1,
     GetSegmentData lib = Some (ns_GetSegmentData f) →
     f (u32 fid) (u32 eid) (u32 idx) (u32 (8 * (u32 src * u32 n))) (world s)
       = (res, (ts, samples, sc, uid), w1) →
     res ≠ ns_OK →
     fails_cleanly s lib w1 (Z.of_nat (length samples) ≤ u32 src * u32 n)
       (do_get_segment_data
          [PyCObject p; PyInt fid; PyInt eid; PyInt idx; PyInt src; PyInt n] s))
  ∧ (∀ n f res samples w1,
     GetNeuralData lib = Some (ns_GetNeuralData f) →
     f (u32 fid) (u32 eid) (u32 idx) (u32 n) (world s) = (res, samples, w1) →
     res ≠ ns_OK →
     fails_cleanly s lib w1 (Z.of_nat (length samples) ≤ u32 n)
       (do_get_neural_data [PyCObject p; PyInt fid; PyInt eid; PyInt idx; PyInt n] s)).
Proof.
  intros Hp. split; [|split; [|split]]; intros.
  - erewrite do_get_event_data_failure by done. apply failed_cleanly.
  - erewrite do_get_analog_data_failure by done. apply failed_cleanly.
  - erewrite do_get_segment_data_failure by done. apply failed_cleanly.
  - erewrite do_get_neural_data_failure by done. apply failed_cleanly.
Qed.

End Failure.

(** ** Success of a data entry point *)

Section Success.
Context {W : Type} `{nsAPItypes} `{Platform}.

Lemma double_to_long_quot (d : double) (z : Z) :
  double_to_long d = Some z →
  double_is_finite d = true ∧ z = Z.quot (double_num d) (double_den d).
Proof.
  destruct d as [sg|sg| |sg m e]; cbn [double_to_long double_is_finite double_num double_den];
    try done.
  - intros [= <-]. done.
  - destruct (_ && _); [|done]. intros [= <-]. split; [done|].
    assert (Hmag : Z.shiftl (Z.pos m) e = Z.quot (Z.pos m * 2 ^ Z.max e 0) (2 ^ Z.max (- e) 0)).
    { destruct (Z.le_gt_cases 0 e) as [He|He].
      - rewrite Z.shiftl_mul_pow2 by done.
        rewrite (Z.max_l e 0), (Z.max_r (- e) 0) by lia.
        by rewrite Z.quot_1_r.
      - rewrite Z.shiftl_div_pow2 by lia.
        rewrite (Z.max_r e 0), (Z.max_l (- e) 0) by lia.
        rewrite Z.mul_1_r. rewrite Z.quot_div_nonneg; [done|lia|].
        apply Z.pow_pos_nonneg; lia. }
    destruct sg; [|done].
    rewrite Hmag, Z.quot_opp_l; [done|].
    apply Z.pow_nonzero; lia.
Qed.

Lemma do_get_analog_data_inv
    p fid eid idx n (s : state W) (lib : NsLibrary W) f res cont samples w1 obj s' :
  heap s !! p = Some (BLib lib) →
  GetAnalogData lib = Some (ns_GetAnalogData f) →
  f (u32 fid) (u32 eid) (u32 idx) (u32 n) (world s) = (res, (cont, samples), w1) →
  do_get_analog_data [PyCObject p; PyInt fid; PyInt eid; PyInt idx; PyInt n] s
    = Done (Some obj) s' →
  res = ns_OK
  ∧ ∃ a cells,
      heap s !! a = None
      ∧ s' = mkState (<[a := BArr [u32 n]]> (heap s)) (pyerr s) w1
      ∧ obj = PyTuple [PyArray a [u32 n] cells; PyInt (u32 cont)]
      ∧ length cells = Z.to_nat (u32 n).
Proof.
  intros Hp Hf Hcall. unfold do_get_analog_data.
  cbn [PyCObject_Check PyInt_Check negb orb PyInt_AsUnsignedLongMask].
  rewrite (PyCObject_AsVoidPtr_Done p lib s _ Hp).
  cbv zeta. rewrite PyArray_SIZE_1.
  destruct (allocate_Done (BArr [wrap 32 n]) s) as (q & Hq & Halloc).
  unfold PyArray_New. erewrite bind_Done by exact Halloc.
  unfold call_GetAnalogData. rewrite Hf.
  erewrite bind_Done by (by apply call_native_Done).
  cbv beta iota. cbn [heap pyerr world].
  intros (cells & s1 & [-> Hlen]%array_cells_inv & Hrun)%bind_inv.
  apply bind_inv in Hrun as (err & s2 & Hcheck & Hrun).
  apply check_result_is_error_inv in Hcheck as [(-> & -> & ->) | (-> & _)].
  - apply ret_inv in Hrun as [[= <-] <-]. split; [done|].
    exists q, cells. rewrite PyInt_FromLong_u32. done.
  - by apply bind_inv in Hrun as (u & s3 & _ & [? _]%ret_inv).
Qed.

Lemma do_get_segment_data_inv
    p fid eid idx src n (s : state W) (lib : NsLibrary W) f res ts samples sc uid w1 obj s' :
  heap s !! p = Some (BLib lib) →
  GetSegmentData lib = Some (ns_GetSegmentData f) →
  f (u32 fid) (u32 eid) (u32 idx) (u32 (8 * (u32 src * u32 n))) (world s)
    = (res, (ts, samples, sc, uid), w1) →
  do_get_segment_data
    [PyCObject p; PyInt fid; PyInt eid; PyInt idx; PyInt src; PyInt n] s
    = Done (Some obj) s' →
  res = ns_OK
  ∧ ∃ a cells z,
      double_to_long ts = Some z
      ∧ obj = PyTuple [PyArray a [u32 src; u32 n] cells;
                       PyInt z; PyInt (u32 sc); PyInt (u32 uid)]
      ∧ length cells = Z.to_nat (u32 src * u32 n).
Proof.
  intros Hp Hf Hcall. unfold do_get_segment_data.
  cbn [PyCObject_Check PyInt_Check negb orb PyInt_AsUnsignedLongMask].
  rewrite (PyCObject_AsVoidPtr_Done p lib s _ Hp).
  cbv zeta. rewrite PyArray_SIZE_2.
  destruct (allocate_Done (BArr [wrap 32 src; wrap 32 n]) s) as (q & Hq & Halloc).
  unfold PyArray_New. erewrite bind_Done by exact Halloc.
  unfold call_GetSegmentData. rewrite Hf.
  erewrite bind_Done by (by apply call_native_Done).
  cbv beta iota. cbn [heap pyerr world].
  intros (cells & s1 & [-> Hlen]%array_cells_inv & Hrun)%bind_inv.
  apply bind_inv in Hrun as (err & s2 & Hcheck & Hrun).
  apply check_result_is_error_inv in Hcheck as [(-> & -> & ->) | (-> & _)].
  - apply bind_inv in Hrun as (z & s3 & [Hz ->]%defined_inv & Hrun).
    apply ret_inv in Hrun as [[= <-] <-]. split; [done|].
    exists q, cells, z. rewrite !PyInt_FromLong_u32.
    split; [done|]. split; [|done].
    unfold PyInt_FromLong. rewrite swrap_small; [done|].
    unfold double_to_long in Hz. destruct ts as [| | |sg m e]; try done.
    + injection Hz as <-. unfold LONG_MIN, LONG_MAX. lia.
    + cbv zeta in Hz. destruct (_ && _) eqn:Hrange; [|done].
      injection Hz as <-. apply andb_true_iff in Hrange as [Hlo Hhi].
      apply Z.leb_le in Hlo, Hhi. done.
  - by apply bind_inv in Hrun as (u & s3 & _ & [? _]%ret_inv).
Qed.

Lemma do_get_event_data_inv
    p fid eid idx tp sz (s : state W) (lib : NsLibrary W) f res ts written n w1 obj s' :
  heap s !! p = Some (BLib lib) →
  GetEventData lib = Some (ns_GetEventData f) →
  f (u32 fid) (u32 eid) (u32 idx) (u32 sz) (world s) = (res, (ts, written, n), w1) →
  do_get_event_data [PyCObject p; PyInt fid; PyInt eid; PyInt idx; PyInt tp; PyInt sz] s
    = Done (Some obj) s' →
  res = ns_OK ∧ ∃ data_obj, obj = PyTuple [PyFloat ts; data_obj].
Proof.
  intros Hp Hf Hcall. unfold do_get_event_data.
  cbn [PyCObject_Check PyInt_Check negb orb PyInt_AsUnsignedLongMask].
  rewrite (PyCObject_AsVoidPtr_Done p lib s _ Hp).
  destruct (allocate_Done (BRaw (wrap 32 sz)) s) as (q & Hq & Halloc).
  unfold malloc. erewrite bind_Done by exact Halloc.
  unfold call_GetEventData. rewrite Hf.
  erewrite bind_Done by (by apply call_native_Done).
  cbv beta iota. cbn [heap pyerr world].
  intros (bytes & s1 & [-> ->]%buffer_bytes_inv & Hrun)%bind_inv.
  apply bind_inv in Hrun as (err & s2 & Hcheck & Hrun).
  apply check_result_is_error_inv in Hcheck as [(-> & -> & ->) | (-> & _)].
  - apply bind_inv in Hrun as (data_obj & s3 & _ & Hrun).
    apply bind_inv in Hrun as (u & s4 & _ & [[= <-] _]%ret_inv).
    split; [done|]. by exists data_obj.
  - by apply bind_inv in Hrun as (u & s3 & _ & [? _]%ret_inv).
Qed.

Lemma decoders_range (data : list byte) (size v : Z) :
  (uint8_from_data data size = Some v → 0 ≤ v < 2 ^ 8)
  ∧ (uint16_from_data data size = Some v → 0 ≤ v < 2 ^ 16)
  ∧ (uint32_from_data data size = Some v → 0 ≤ v < 2 ^ 32).
Proof.
  unfold uint8_from_data, uint16_from_data, uint32_from_data.
  split; [|split]; intros Hv;
    repeat (destruct (size =? _));
    try (destruct (load _ data); cbn [mbind option_bind option_ret] in Hv);
    try discriminate Hv; injection Hv as <-; apply wrap_range; lia.
Qed.

Lemma PyInt_FromLong_small (v : Z) : 0 ≤ v < 2 ^ 32 → PyInt_FromLong v = PyInt v.
Proof.
  intros Hv. unfold PyInt_FromLong. f_equal. apply swrap_small.
  unfold LONG_MIN, LONG_MAX. lia.
Qed.

(** What a successful [do_get_event_data] returns. *)
Lemma do_get_event_data_payload
    p fid eid idx tp sz (s : state W) (lib : NsLibrary W) f res ts written n w1 obj s' :
  heap s !! p = Some (BLib lib) →
  GetEventData lib = Some (ns_GetEventData f) →
  f (u32 fid) (u32 eid) (u32 idx) (u32 sz) (world s) = (res, (ts, written, n), w1) →
  do_get_event_data [PyCObject p; PyInt fid; PyInt eid; PyInt idx; PyInt tp; PyInt sz] s
    = Done (Some obj) s' →
  ∃ payload,
    obj = PyTuple [PyFloat ts; payload]
    ∧ payload_by_subtype (u32 tp) written (u32 n) payload.
Proof.
  intros Hp Hf Hcall. unfold do_get_event_data.
  cbn [PyCObject_Check PyInt_Check negb orb PyInt_AsUnsignedLongMask].
  rewrite (PyCObject_AsVoidPtr_Done p lib s _ Hp).
  destruct (allocate_Done (BRaw (wrap 32 sz)) s) as (q & Hq & Halloc).
  unfold malloc. erewrite bind_Done by exact Halloc.
  unfold call_GetEventData. rewrite Hf.
  erewrite bind_Done by (by apply call_native_Done).
  cbv beta iota. cbn [heap pyerr world].
  intros (bytes & s1 & [-> ->]%buffer_bytes_inv & Hrun)%bind_inv.
  apply bind_inv in Hrun as (err & s2 & Hcheck & Hrun).
  apply check_result_is_error_inv in Hcheck as [(-> & -> & ->) | (-> & _)];
    [|by apply bind_inv in Hrun as (u & s3 & _ & [? _]%ret_inv)].
  apply bind_inv in Hrun as (payload & s3 & Hpayload & Hrun).
  apply bind_inv in Hrun as (u & s4 & _ & [[= <-] _]%ret_inv).
  exists payload. split; [done|]. fold (u32 tp) in Hpayload.
  pose proof ns_EVENT_labels as Hnd.
  rewrite !NoDup_cons in Hnd. rewrite !not_elem_of_cons in Hnd.
  destruct Hnd as ((?&?&?&?&_) & (?&?&?&_) & (?&?&_) & (?&_) & _).
  unfold payload_by_subtype. rewrite !not_elem_of_cons.
  destruct (Z.eqb_spec (u32 tp) ns_EVENT_TEXT) as [Etext|Etext];
    [|destruct (Z.eqb_spec (u32 tp) ns_EVENT_CSV) as [Ecsv|Ecsv]];
    cbn [orb] in Hpayload.
  1, 2: unfold PyString_FromStringAndSize in Hpayload;
    destruct (u32 n <=? Z.of_nat (length written)) eqn:Efit; [|done];
    apply ret_inv in Hpayload as [<- _]; apply Z.leb_le in Efit;
    split_and!; intros; destruct_and?; try (exfalso; congruence); done.
  destruct (Z.eqb_spec (u32 tp) ns_EVENT_BYTE) as [Ebyte|Ebyte];
    [|destruct (Z.eqb_spec (u32 tp) ns_EVENT_WORD) as [Eword|Eword];
      [|destruct (Z.eqb_spec (u32 tp) ns_EVENT_DWORD) as [Edword|Edword]]].
  1, 2, 3: apply bind_inv in Hpayload as (v & s5 & [Hv _]%defined_inv & [<- _]%ret_inv);
    rewrite PyInt_FromLong_small
      by (apply (decoders_range written (u32 n) v) in Hv; lia);
    split_and!; intros; destruct_and?; destruct_or?; try (exfalso; congruence); eauto.
  apply ret_inv in Hpayload as [<- _].
  split_and!; intros; destruct_and?; destruct_or?; try (exfalso; congruence); done.
Qed.

(** C2. Whatever four bytes the vendor writes for an event of subtype
    Dword, a successful [get_event_data] call returns, with the timestamp,
    their value modulo 2^16, not their value as a 32-bit unsigned integer:
    the result differs from it as soon as the value has a bit set in its
    high half. *)
Theorem event_dword_payload_keeps_16_bits
    p fid eid idx tp sz (s : state W) (lib : NsLibrary W) f res ts written n w1 obj s' :
  heap s !! p = Some (BLib lib) →
  GetEventData lib = Some (ns_GetEventData f) →
  f (u32 fid) (u32 eid) (u32 idx) (u32 sz) (world s) = (res, (ts, written, n), w1) →
  u32 tp = ns_EVENT_DWORD →
  u32 n = 4 →
  (4 ≤ length written)%nat →
  do_get_event_data [PyCObject p; PyInt fid; PyInt eid; PyInt idx; PyInt tp; PyInt sz] s
    = Done (Some obj) s' →
  obj = PyTuple [PyFloat ts; PyInt (native_value (take 4 written) mod 2 ^ 16)]
  ∧ (2 ^ 16 ≤ native_value (take 4 written) →
     obj ≠ PyTuple [PyFloat ts; PyInt (native_value (take 4 written))]).
Proof.
  intros Hp Hf Hcall Htp Hn Hlen Hrun.
  destruct (do_get_event_data_payload _ _ _ _ _ _ _ _ _ _ _ _ _ _ _ _
              Hp Hf Hcall Hrun) as (payload & -> & _ & _ & _ & Hdword & _).
  destruct (Hdword Htp) as (v & Hv & ->).
  rewrite Hn, uint32_from_data_4 in Hv by done. injection Hv as <-.
  split; [done|]. intros Hhigh [= Heq].
  pose proof (Z.mod_pos_bound (native_value (take 4 written)) (2 ^ 16)) as Hmod.
  lia.
Qed.

(** C4 (as amended). A successful [get_analog_data] call for [n] samples
    ([n] read into the 32-bit [count]) returns an array of exactly that
    many cells, however many the vendor wrote, together with the
    contiguous count the vendor reported, unchanged: the count is at most
    the requested one exactly when the vendor reports such a count. *)
Theorem analog_data_length_and_reported_count
    p fid eid idx n (s : state W) (lib : NsLibrary W) f res cont samples w1 obj s' :
  heap s !! p = Some (BLib lib) →
  GetAnalogData lib = Some (ns_GetAnalogData f) →
  f (u32 fid) (u32 eid) (u32 idx) (u32 n) (world s) = (res, (cont, samples), w1) →
  do_get_analog_data [PyCObject p; PyInt fid; PyInt eid; PyInt idx; PyInt n] s
    = Done (Some obj) s' →
  ∃ a cells contiguous,
    obj = PyTuple [PyArray a [u32 n] cells; PyInt contiguous]
    ∧ Z.of_nat (length cells) = u32 n
    ∧ (0 ≤ n < 2 ^ 32 → Z.of_nat (length cells) = n)
    ∧ contiguous = u32 cont
    ∧ (u32 cont ≤ u32 n → contiguous ≤ Z.of_nat (length cells)).
Proof.
  intros Hp Hf Hcall Hrun.
  destruct (do_get_analog_data_inv _ _ _ _ _ _ _ _ _ _ _ _ _ _ Hp Hf Hcall Hrun)
    as (_ & a & cells & _ & _ & -> & Hlen).
  exists a, cells, (u32 cont). pose proof (u32_range n) as Hn.
  assert (Hcells : Z.of_nat (length cells) = u32 n) by lia.
  split; [done|]. split; [done|]. split; [|split; [done|]].
  - intros Hsmall. rewrite Hcells. by apply wrap_small.
  - by rewrite Hcells.
Qed.

End Success.

(** ** Opening and closing a library *)

Section Library.
Context {W : Type} `{Loader W}.

(** The record [library_open] stores for the loaded library [dlh]. *)
Lemma library_open_Done (filename : string) (s : state W) (dlh : addr) (w1 : W) :
  is_c_string filename = true →
  dlopen filename RTLD_NOW (world s) = (Some dlh, w1) →
  ∃ p lib,
    heap s !! p = None
    ∧ library_open [PyString filename] s
      = Done (Some (PyCObject p)) (mkState (<[p := BLib lib]> (heap s)) (pyerr s) w1)
    ∧ dl_handle lib = dlh
    ∧ ∀ name slot, (name, slot) ∈ entry_points → slot lib = dlsym dlh name w1.
Proof.
  intros Hname Hopen. unfold library_open. rewrite Hname. cbn [negb].
  erewrite bind_Done by (by apply call_loader_Done).
  destruct (allocate_Done (BRaw sizeof_NsLibrary) (mkState (heap s) (pyerr s) w1))
    as (p & Hp & Halloc).
  unfold malloc. erewrite bind_Done by exact Halloc.
  cbn [heap pyerr world] in *.
  unfold read_world, store_NsLibrary, mbind, M_bind, mret, M_ret.
  cbn [heap pyerr world]. rewrite lookup_insert_eq, insert_insert_eq.
  eexists p, _. split; [done|]. split; [reflexivity|]. split; [reflexivity|].
  intros name slot Hin. unfold entry_points in Hin.
  repeat (apply elem_of_cons in Hin as [[= -> ->] | Hin]; [reflexivity|]).
  by apply elem_of_nil in Hin.
Qed.

(** A successful [library_open] is one whose [dlopen] succeeded. *)
Lemma library_open_inv (filename : string) (s s1 : state W) (h : PyObject) :
  library_open [PyString filename] s = Done (Some h) s1 →
  ∃ p lib w1,
    h = PyCObject p
    ∧ heap s !! p = None
    ∧ s1 = mkState (<[p := BLib lib]> (heap s)) (pyerr s) w1.
Proof.
  intros Hrun.
  destruct (is_c_string filename) eqn:Hname.
  - destruct (dlopen filename RTLD_NOW (world s)) as [[dlh|] w1] eqn:Hopen.
    + destruct (library_open_Done filename s dlh w1 Hname Hopen)
        as (p & lib & Hp & Hdone & _).
      rewrite Hdone in Hrun. injection Hrun as <- <-. by exists p, lib, w1.
    + unfold library_open in Hrun. rewrite Hname in Hrun. cbn [negb] in Hrun.
      erewrite bind_Done in Hrun by (by apply call_loader_Done).
      cbv beta iota in Hrun.
      destruct (dlerror w1) as [msg w2] eqn:Herr.
      erewrite bind_Done in Hrun by (by apply call_loader_Done).
      by apply bind_inv in Hrun as (u & s2 & _ & [? _]%ret_inv).
  - unfold library_open in Hrun. rewrite Hname in Hrun. cbn [negb] in Hrun.
    by apply bind_inv in Hrun as (u & s2 & _ & [? _]%ret_inv).
Qed.

(** C9. Whenever [dlopen] loads the library, [library_open] succeeds and
    returns a handle, whatever [dlsym] finds: each of the entry point
    slots of the record behind the handle holds what [dlsym] returned for
    its name, null included. *)
Theorem library_open_keeps_unresolved_symbols
    (filename : string) (s : state W) (dlh : addr) (w1 : W) :
  is_c_string filename = true →
  dlopen filename RTLD_NOW (world s) = (Some dlh, w1) →
  ∃ p lib s',
    library_open [PyString filename] s = Done (Some (PyCObject p)) s'
    ∧ heap s' !! p = Some (BLib lib)
    ∧ pyerr s' = pyerr s
    ∧ dl_handle lib = dlh
    ∧ ∀ name slot, (name, slot) ∈ entry_points → slot lib = dlsym dlh name w1.
Proof.
  intros Hname Hopen.
  destruct (library_open_Done filename s dlh w1 Hname Hopen)
    as (p & lib & Hp & Hdone & Hdl & Hslots).
  eexists p, lib, _. split; [exact Hdone|]. cbn [heap pyerr].
  by rewrite lookup_insert_eq.
Qed.

(** C6 (as amended). The handle of a successful [library_open] can be
    closed once: if [dlclose] reports success, [library_close] returns
    [None] (the Python object) and releases the record behind the handle.
    Nothing marks the handle as closed: a second [library_close] on it, at
    once or in any later state in which the address of the record is not
    allocated, passes the type check and reads the released record, which
    is undefined and not a reported error. *)
Theorem library_close_once_then_undefined
    (filename : string) (s s1 : state W) (h : PyObject) :
  library_open [PyString filename] s = Done (Some h) s1 →
  ∃ p lib,
    h = PyCObject p
    ∧ heap s1 !! p = Some (BLib lib)
    ∧ (∀ w2, dlclose (dl_handle lib) (world s1) = (0, w2) →
         library_close [h] s1
           = Done (Some Py_None) (mkState (delete p (heap s1)) (pyerr s1) w2)
         ∧ library_close [h] (mkState (delete p (heap s1)) (pyerr s1) w2) = Undefined)
    ∧ (∀ s2 : state W, heap s2 !! p = None → library_close [h] s2 = Undefined).
Proof.
  intros (p & lib & w1 & -> & Hp & ->)%library_open_inv.
  exists p, lib. split; [done|]. cbn [heap pyerr world].
  split; [by rewrite lookup_insert_eq|].
  assert (Hgone : ∀ s2 : state W,
            heap s2 !! p = None → library_close [PyCObject p] s2 = Undefined).
  { intros s2 Hs2. unfold library_close. cbn [PyCObject_Check negb].
    erewrite bind_Done by reflexivity.
    apply bind_Undefined. unfold read_NsLibrary. by rewrite Hs2. }
  split; [|exact Hgone].
  intros w2 Hclose. split.
  - unfold library_close. cbn [PyCObject_Check negb].
    erewrite PyCObject_AsVoidPtr_Done by (cbn [heap]; by rewrite lookup_insert_eq).
    erewrite bind_Done by (by apply call_loader_Done).
    cbn [Z.eqb negb].
    unfold free, mbind, M_bind, mret, M_ret. cbn [heap pyerr world].
    by rewrite lookup_insert_eq.
  - apply Hgone. cbn [heap]. by rewrite lookup_delete_eq.
Qed.

End Library.

(** ** Entity information of a segment entity *)

Section Entity.
Context {W : Type} `{nsAPItypes}.

Lemma entity_labels_distinct :
  ns_ENTITY_SEGMENT ≠ ns_ENTITY_EVENT ∧ ns_ENTITY_SEGMENT ≠ ns_ENTITY_ANALOG.
Proof.
  pose proof ns_ENTITY_labels as Hnd.
  apply NoDup_cons in Hnd as [He Hnd]. apply NoDup_cons in Hnd as [Ha _].
  set_solver.
Qed.

Lemma PyString_FromString_inv (sz : list byte) (s s' : state W) (item : PyObject) :
  PyString_FromString sz s = Done item s' → item = PyString (c_string sz) ∧ s' = s.
Proof.
  unfold PyString_FromString, c_string. destruct (c_str sz); [|done].
  by intros [<- <-]%ret_inv.
Qed.

(** Writing to the dict held in a slot is writing to the slot. *)
Lemma alias_dict_set_item_insert
    (l : list (option PyObject)) (i : nat) (d : gmap string PyObject)
    (key : string) (item : PyObject) :
  (i < length l)%nat →
  alias_dict_set_item (<[i := Some (PyDict d)]> l) (Z.of_nat i) key item
  = <[i := Some (PyDict (<[key := item]> d))]> l.
Proof.
  intros Hi. unfold alias_dict_set_item, dict_set_item_eat_ref.
  rewrite Nat2Z.id, list_lookup_insert_eq by done.
  by rewrite list_insert_insert_eq.
Qed.

(** One round of the loop over the sources: slot [k] is filled, with the
    descriptor of source [k] or with an empty dict, and the status of the
    vendor call is the status returned. *)
Lemma get_and_add_segment_source_info_inv
    (lib : NsLibrary W) (fid eid : uint32) (k : nat) (l l' : list (option PyObject))
    (s s' : state W) f res info w' r :
  GetSegmentSourceInfo lib = Some (ns_GetSegmentSourceInfo f) →
  (k < length l)%nat →
  f fid eid (Z.of_nat k) (world s) = (res, info, w') →
  get_and_add_segment_source_info lib fid eid (Z.of_nat k) l s = Done (r, l') s' →
  r = res
  ∧ l' = <[k := Some (source_slot res info)]> l
  ∧ s' = mkState (heap s) (pyerr s) w'.
Proof.
  intros Hf Hk Hcall. unfold get_and_add_segment_source_info, PyList_SetItem.
  rewrite (proj2 (Z.leb_le 0 (Z.of_nat k))) by lia.
  rewrite (proj2 (Z.ltb_lt (Z.of_nat k) (Z.of_nat (length l)))) by lia.
  cbn [andb]. erewrite bind_Done by reflexivity. rewrite Nat2Z.id.
  unfold call_GetSegmentSourceInfo. rewrite Hf.
  erewrite bind_Done by (by apply call_native_Done).
  cbv beta iota. unfold source_slot.
  destruct (res =? ns_OK) eqn:Hres; cbn [negb].
  - rewrite !alias_dict_set_item_insert by done.
    intros (i1 & s1 & [-> ->]%PyString_FromString_inv & Hrun)%bind_inv.
    rewrite !alias_dict_set_item_insert in Hrun by done.
    apply bind_inv in Hrun as (i2 & s2 & [-> ->]%PyString_FromString_inv & Hrun).
    rewrite !alias_dict_set_item_insert in Hrun by done.
    apply bind_inv in Hrun as (i3 & s3 & [-> ->]%PyString_FromString_inv & Hrun).
    rewrite !alias_dict_set_item_insert in Hrun by done.
    apply ret_inv in Hrun as [[= <- <-] <-].
    apply Z.eqb_eq in Hres. rewrite !PyInt_FromLong_u32. done.
  - by intros [[= <- <-] <-]%ret_inv.
Qed.

(** The loop over the sources, with [n] rounds to go from source [k]: it
    fills the slots [k .. k+n-1] in this order, each with the answer of
    its own source, and leaves the other slots alone. *)
Lemma segment_source_loop_inv
    (lib : NsLibrary W) (fid eid : uint32) f (w0 : W) (n : nat) :
  GetSegmentSourceInfo lib = Some (ns_GetSegmentSourceInfo f) →
  ∀ (k : nat) (l l' : list (option PyObject)) (s s' : state W),
    (k + n = length l)%nat →
    world s = source_world f fid eid k w0 →
    segment_source_loop lib fid eid n (Z.of_nat k) l s = Done l' s' →
    length l' = length l
    ∧ (∀ j, (j < k)%nat → l' !! j = l !! j)
    ∧ (∀ j, (k ≤ j < k + n)%nat → l' !! j = Some (Some (source_at f fid eid w0 j)))
    ∧ heap s' = heap s ∧ pyerr s' = pyerr s.
Proof.
  intros Hf. induction n as [|n IH]; intros k l l' s s' Hlen Hworld.
  - cbn [segment_source_loop]. intros [<- <-]%ret_inv.
    repeat split; try done. intros j Hj. lia.
  - cbn [segment_source_loop].
    intros ([r l1] & s1 & Hstep & Hrun)%bind_inv.
    destruct (f fid eid (Z.of_nat k) (world s)) as [[res info] w'] eqn:Hcall.
    assert (Hk : (k < length l)%nat) by lia.
    destruct (get_and_add_segment_source_info_inv _ _ _ _ _ _ _ _ _ _ _ _ _
                Hf Hk Hcall Hstep) as (_ & -> & ->).
    destruct (INT_MAX <=? Z.of_nat k); [done|].
    replace (Z.of_nat k + 1) with (Z.of_nat (S k)) in Hrun by lia.
    apply IH in Hrun as (Hl & Hbefore & Hfrom & Hheap & Herr).
    + rewrite length_insert in Hl. split; [done|]. split; [|split; [|done]].
      * intros j Hj. rewrite Hbefore by lia. apply list_lookup_insert_ne. lia.
      * intros j Hj. destruct (decide (j = k)) as [->|Hne].
        -- rewrite Hbefore by lia. rewrite list_lookup_insert_eq by lia.
           unfold source_at. by rewrite <- Hworld, Hcall.
        -- apply Hfrom. lia.
    + rewrite length_insert. lia.
    + cbn [world source_world]. by rewrite <- Hworld, Hcall.
Qed.

Lemma get_and_add_segment_info_inv
    (lib : NsLibrary W) (fid eid : uint32) (dict dict' : gmap string PyObject)
    (s s' : state W) gs r1 sinfo w1 f r :
  GetSegmentInfo lib = Some (ns_GetSegmentInfo gs) →
  gs fid eid (world s) = (r1, sinfo, w1) →
  GetSegmentSourceInfo lib = Some (ns_GetSegmentSourceInfo f) →
  get_and_add_segment_info lib fid eid dict s = Done (r, dict') s' →
  r = r1
  ∧ pyerr s' = pyerr s
  ∧ (r1 = ns_OK →
     ∃ srcs,
       dict' !! "SourceCount" = Some (PyInt (u32 (ns_SEGMENTINFO.dwSourceCount sinfo)))
       ∧ dict' !! "SourceInfos" = Some (PyList srcs)
       ∧ Z.of_nat (length srcs) = u32 (ns_SEGMENTINFO.dwSourceCount sinfo)
       ∧ ∀ i : nat, Z.of_nat i < u32 (ns_SEGMENTINFO.dwSourceCount sinfo) →
           srcs !! i = Some (Some (source_at f fid eid w1 i))).
Proof.
  intros Hgs Hcall Hf. unfold get_and_add_segment_info, call_GetSegmentInfo.
  rewrite Hgs. erewrite bind_Done by (by apply call_native_Done).
  cbv beta iota. destruct (r1 =? ns_OK) eqn:Hres; cbn [negb].
  - intros (item & s1 & [-> ->]%PyString_FromString_inv & Hrun)%bind_inv.
    apply bind_inv in Hrun as (srcs & s2 & Hloop & Hrun).
    apply ret_inv in Hrun as [[= <- <-] <-].
    split; [done|].
    pose proof (u32_range (ns_SEGMENTINFO.dwSourceCount sinfo)) as Hcount.
    apply (segment_source_loop_inv lib fid eid f w1 _ Hf 0%nat) in Hloop
      as (Hlen & _ & Hslots & _ & Herr); [|by rewrite length_replicate|done].
    split; [exact Herr|]. intros _. exists srcs.
    rewrite length_replicate in Hlen.
    unfold dict_set_item_eat_ref. rewrite !PyInt_FromLong_u32.
    split; [by simplify_map_eq|]. split; [by simplify_map_eq|].
    split; [lia|]. intros i Hi. apply Hslots. lia.
  - intros [[= <- <-] <-]%ret_inv. split; [done|]. split; [done|].
    intros ->. by rewrite Z.eqb_refl in Hres.
Qed.

(** C3. Once the entity and its segment record are read, a query that
    completes succeeds, raising no error, also when the vendor call
    for a source [i] fails: the status of that call is looked at by
    nobody, and [SourceInfos] is returned with the empty dict that slot
    [i] was prepared with. *)
Theorem segment_source_failure_is_swallowed
    p fid eid (s s' : state W) (lib : NsLibrary W) ge einfo w0 gs sinfo w1 f r (i : nat) :
  heap s !! p = Some (BLib lib) →
  GetEntityInfo lib = Some (ns_GetEntityInfo ge) →
  ge (u32 fid) (u32 eid) (world s) = (ns_OK, einfo, w0) →
  u32 (ns_ENTITYINFO.dwEntityType einfo) = ns_ENTITY_SEGMENT →
  GetSegmentInfo lib = Some (ns_GetSegmentInfo gs) →
  gs (u32 fid) (u32 eid) w0 = (ns_OK, sinfo, w1) →
  GetSegmentSourceInfo lib = Some (ns_GetSegmentSourceInfo f) →
  Z.of_nat i < u32 (ns_SEGMENTINFO.dwSourceCount sinfo) →
  (f (u32 fid) (u32 eid) (Z.of_nat i) (source_world f (u32 fid) (u32 eid) i w1)).1.1
    ≠ ns_OK →
  do_get_entity_info [PyCObject p; PyInt fid; PyInt eid] s = Done r s' →
  ∃ d srcs,
    r = Some (PyDict d)
    ∧ pyerr s' = pyerr s
    ∧ d !! "SourceInfos" = Some (PyList srcs)
    ∧ srcs !! i = Some (Some (PyDict ∅)).
Proof.
  intros Hp Hge Hcall0 Hkind Hgs Hcall1 Hf Hi Hfail. unfold do_get_entity_info.
  cbn [PyCObject_Check PyInt_Check negb orb PyInt_AsUnsignedLongMask].
  rewrite (PyCObject_AsVoidPtr_Done p lib s _ Hp).
  unfold call_GetEntityInfo. rewrite Hge.
  erewrite bind_Done by (by apply call_native_Done).
  cbv beta iota zeta. fold (u32 fid) (u32 eid). rewrite Hkind.
  destruct entity_labels_distinct as [Hne1 Hne2].
  rewrite (proj2 (Z.eqb_neq _ _) Hne1), (proj2 (Z.eqb_neq _ _) Hne2), Z.eqb_refl.
  erewrite bind_Done by apply check_result_is_error_OK.
  intros (item & s2 & [-> ->]%PyString_FromString_inv & Hrun)%bind_inv.
  apply bind_inv in Hrun as ([r1 d] & s3 & Hinfo & Hrun).
  destruct (get_and_add_segment_info_inv lib _ _ _ _
              (mkState (heap s) (pyerr s) w0) _ gs ns_OK sinfo w1 f _
              Hgs Hcall1 Hf Hinfo) as (-> & Herr & Hdict).
  erewrite bind_Done in Hrun by apply check_result_is_error_OK.
  apply ret_inv in Hrun as [<- <-].
  destruct (Hdict eq_refl) as (srcs & _ & Hinfos & _ & Hslots).
  exists d, srcs. split; [done|]. split; [done|]. split; [done|].
  rewrite (Hslots i Hi). unfold source_at.
  destruct (f (u32 fid) (u32 eid) (Z.of_nat i) (source_world f (u32 fid) (u32 eid) i w1))
    as [[res info] w'].
  cbn [fst] in Hfail. unfold source_slot.
  by rewrite (proj2 (Z.eqb_neq _ _) Hfail).
Qed.


End Entity.

(** ** What the parts of the glue leave alone *)

Section Quiet.
Context {W : Type}.

Lemma quiet_ret {A} (a : A) : quiet (mret (M := M W) a).
Proof. by intros s b s' [_ <-]%ret_inv. Qed.

Lemma quiet_bind {A B} (m : M W A) (k : A → M W B) :
  quiet m → (∀ a, quiet (k a)) → quiet (m ≫= k).
Proof.
  intros Hm Hk s b s' (a & s1 & H1 & H2)%bind_inv.
  apply Hm in H1 as [? ?]. apply Hk in H2 as [? ?]. split; congruence.
Qed.

Lemma quiet_undefined {A} : quiet (undefined (W := W) (A := A)).
Proof. by intros s a s'. Qed.

Lemma quiet_call_native {A} (f : native W A) : quiet (call_native f).
Proof.
  intros s a s'. unfold call_native.
  destruct (f (world s)) as [[res out] w]. by intros [= <- <-].
Qed.

Lemma quiet_call_loader {A} (f : W → A * W) : quiet (call_loader f).
Proof.
  intros s a s'. unfold call_loader.
  destruct (f (world s)) as [out w]. by intros [= <- <-].
Qed.

Lemma quiet_read_world {A} (f : W → A) : quiet (read_world f).
Proof. by intros s a s' [= <- <-]. Qed.

Lemma quiet_read_NsLibrary (p : addr) : quiet (read_NsLibrary (W := W) p).
Proof.
  intros s a s'. unfold read_NsLibrary.
  destruct (heap s !! p) as [[]|]; try done. by intros [= <- <-].
Qed.

Lemma quiet_PyCObject_AsVoidPtr (o : PyObject) : quiet (PyCObject_AsVoidPtr (W := W) o).
Proof. destruct o; first [apply quiet_ret | apply quiet_undefined]. Qed.

Lemma quiet_defined {A} (o : option A) : quiet (defined (W := W) o).
Proof. destruct o; [apply quiet_ret | apply quiet_undefined]. Qed.

Lemma quiet_PyString_FromString (sz : list byte) : quiet (PyString_FromString (W := W) sz).
Proof.
  unfold PyString_FromString. destruct (c_str sz); [apply quiet_ret | apply quiet_undefined].
Qed.

Lemma quiet_PyString_FromStringAndSize (buffer : list byte) (size : Z) :
  quiet (PyString_FromStringAndSize (W := W) buffer size).
Proof.
  unfold PyString_FromStringAndSize.
  destruct (_ <=? _); [apply quiet_ret | apply quiet_undefined].
Qed.

Lemma quiet_array_cells (size : Z) (samples : list double) :
  quiet (array_cells (W := W) size samples).
Proof.
  unfold array_cells. destruct (_ <=? _); [apply quiet_ret | apply quiet_undefined].
Qed.

Lemma quiet_buffer_bytes (size : Z) (written : list byte) :
  quiet (buffer_bytes (W := W) size written).
Proof.
  unfold buffer_bytes. destruct (_ <=? _); [apply quiet_ret | apply quiet_undefined].
Qed.

End Quiet.

Create HintDb quiet.

#[export] Hint Resolve quiet_ret quiet_undefined quiet_call_native quiet_call_loader
  quiet_read_world quiet_read_NsLibrary quiet_PyCObject_AsVoidPtr quiet_defined
  quiet_PyString_FromString quiet_PyString_FromStringAndSize quiet_array_cells
  quiet_buffer_bytes : quiet.

(** One step through a computation that is to be shown [quiet]. *)
Ltac quiet_step :=
  lazymatch goal with
  | |- quiet (_ ≫= _) => apply quiet_bind; [|intros ?]
  | |- quiet (let '(_, _) := ?a in _) => destruct a
  | |- quiet (if ?c then _ else _) => destruct c
  | |- quiet (match ?o with Some _ => _ | None => _ end) => destruct o
  | |- quiet _ => solve [auto with quiet]
  end.

Ltac quiet := repeat quiet_step.

Section QuietGlue.
Context {W : Type} `{nsAPItypes} `{Platform} `{Loader W} `{Vendor W}.

Lemma quiet_call_routine {A}
    (pointer : option (symbol W)) (typed : routine W → option (native W A)) :
  quiet (call_routine pointer typed).
Proof.
  unfold call_routine. destruct pointer as [[]|]; auto with quiet.
  destruct (routine_at code ≫= typed); auto with quiet.
Qed.

Lemma quiet_call_GetLastErrorMsg (lib : NsLibrary W) (size : uint32) :
  quiet (call_GetLastErrorMsg lib size).
Proof. unfold call_GetLastErrorMsg. destruct (GetLastErrorMsg lib) as [[]|]; auto with quiet. Qed.

Lemma quiet_call_GetEntityInfo (lib : NsLibrary W) (fid eid : uint32) :
  quiet (call_GetEntityInfo lib fid eid).
Proof. unfold call_GetEntityInfo. destruct (GetEntityInfo lib) as [[]|]; auto with quiet. Qed.

Lemma quiet_call_GetEventInfo (lib : NsLibrary W) (fid eid : uint32) :
  quiet (call_GetEventInfo lib fid eid).
Proof. unfold call_GetEventInfo. destruct (GetEventInfo lib) as [[]|]; auto with quiet. Qed.

Lemma quiet_call_GetAnalogInfo (lib : NsLibrary W) (fid eid : uint32) :
  quiet (call_GetAnalogInfo lib fid eid).
Proof. unfold call_GetAnalogInfo. destruct (GetAnalogInfo lib) as [[]|]; auto with quiet. Qed.

Lemma quiet_call_GetSegmentInfo (lib : NsLibrary W) (fid eid : uint32) :
  quiet (call_GetSegmentInfo lib fid eid).
Proof. unfold call_GetSegmentInfo. destruct (GetSegmentInfo lib) as [[]|]; auto with quiet. Qed.

Lemma quiet_call_GetSegmentSourceInfo (lib : NsLibrary W) (fid eid sid : uint32) :
  quiet (call_GetSegmentSourceInfo lib fid eid sid).
Proof.
  unfold call_GetSegmentSourceInfo.
  destruct (GetSegmentSourceInfo lib) as [[]|]; auto with quiet.
Qed.

Lemma quiet_call_GetNeuralInfo (lib : NsLibrary W) (fid eid : uint32) :
  quiet (call_GetNeuralInfo lib fid eid).
Proof. unfold call_GetNeuralInfo. destruct (GetNeuralInfo lib) as [[]|]; auto with quiet. Qed.

Lemma quiet_call_GetEventData (lib : NsLibrary W) (fid eid idx size : uint32) :
  quiet (call_GetEventData lib fid eid idx size).
Proof. unfold call_GetEventData. destruct (GetEventData lib) as [[]|]; auto with quiet. Qed.

Lemma quiet_call_GetAnalogData (lib : NsLibrary W) (fid eid idx n : uint32) :
  quiet (call_GetAnalogData lib fid eid idx n).
Proof. unfold call_GetAnalogData. destruct (GetAnalogData lib) as [[]|]; auto with quiet. Qed.

Lemma quiet_call_GetSegmentData (lib : NsLibrary W) (fid eid idx size : uint32) :
  quiet (call_GetSegmentData lib fid eid idx size).
Proof. unfold call_GetSegmentData. destruct (GetSegmentData lib) as [[]|]; auto with quiet. Qed.

Lemma quiet_call_GetNeuralData (lib : NsLibrary W) (fid eid idx n : uint32) :
  quiet (call_GetNeuralData lib fid eid idx n).
Proof. unfold call_GetNeuralData. destruct (GetNeuralData lib) as [[]|]; auto with quiet. Qed.

Lemma quiet_PyList_SetItem (l : list (option PyObject)) (i : Z) (item : PyObject) :
  quiet (PyList_SetItem (W := W) l i item).
Proof. unfold PyList_SetItem. destruct (_ && _); auto with quiet. Qed.

End QuietGlue.

#[export] Hint Resolve quiet_call_routine quiet_call_GetLastErrorMsg quiet_call_GetEntityInfo
  quiet_call_GetEventInfo quiet_call_GetAnalogInfo quiet_call_GetSegmentInfo
  quiet_call_GetSegmentSourceInfo quiet_call_GetNeuralInfo quiet_call_GetEventData
  quiet_call_GetAnalogData quiet_call_GetSegmentData quiet_call_GetNeuralData
  quiet_PyList_SetItem : quiet.

Section QuietInfo.
Context {W : Type} `{nsAPItypes} `{Platform} `{Loader W} `{Vendor W}.

Lemma quiet_get_and_add_event_info (lib : NsLibrary W) (fid eid : uint32) dict :
  quiet (get_and_add_event_info lib fid eid dict).
Proof. unfold get_and_add_event_info. quiet. Qed.

Lemma quiet_get_and_add_analog_info (lib : NsLibrary W) (fid eid : uint32) dict :
  quiet (get_and_add_analog_info lib fid eid dict).
Proof. unfold get_and_add_analog_info. quiet. Qed.

Lemma quiet_get_and_add_neural_info (lib : NsLibrary W) (fid eid : uint32) dict :
  quiet (get_and_add_neural_info lib fid eid dict).
Proof. unfold get_and_add_neural_info. quiet. Qed.

Lemma quiet_get_and_add_segment_source_info (lib : NsLibrary W) (fid eid sid : uint32) l :
  quiet (get_and_add_segment_source_info lib fid eid sid l).
Proof. unfold get_and_add_segment_source_info. quiet. Qed.

Lemma quiet_segment_source_loop (lib : NsLibrary W) (fid eid : uint32) (n : nat) :
  ∀ i l, quiet (segment_source_loop lib fid eid n i l).
Proof.
  induction n as [|n IH]; intros i l; cbn [segment_source_loop]; [auto with quiet|].
  apply quiet_bind; [apply quiet_get_and_add_segment_source_info|].
  intros [r l1]. destruct (INT_MAX <=? i); [auto with quiet | apply IH].
Qed.

Lemma quiet_get_and_add_segment_info (lib : NsLibrary W) (fid eid : uint32) dict :
  quiet (get_and_add_segment_info lib fid eid dict).
Proof.
  unfold get_and_add_segment_info.
  pose proof (quiet_segment_source_loop lib fid eid). quiet.
Qed.

Lemma quiet_get_and_add_file_info (lib : NsLibrary W) (fid : uint32) dict :
  quiet (get_and_add_file_info lib fid dict).
Proof. unfold get_and_add_file_info, call_GetFileInfo. quiet. Qed.

End QuietInfo.

#[export] Hint Resolve quiet_get_and_add_event_info quiet_get_and_add_analog_info
  quiet_get_and_add_neural_info quiet_get_and_add_segment_info
  quiet_get_and_add_file_info : quiet.

(** ** How the functions of the module end *)

Section Protocol.
Context {W : Type} `{nsAPItypes} `{Platform} `{Loader W} `{Vendor W}.

(** What a check of a status does: nothing for [ns_OK]; otherwise it
    leaves an exception pending and the heap alone. *)
Lemma check_result_is_error_effect
    (res : ns_RESULT) (lib : NsLibrary W) (s s' : state W) (err : bool) :
  check_result_is_error res lib s = Done err s' →
  heap s' = heap s ∧ if err then is_Some (pyerr s') else s' = s.
Proof.
  unfold check_result_is_error. destruct (res =? ns_OK).
  - by intros [<- <-]%ret_inv.
  - intros ([r written] & s1 & [Hh1 _]%quiet_call_GetLastErrorMsg & Hrest)%bind_inv.
    apply bind_inv in Hrest as (buf & s2 & [Hh2 _]%quiet_defined & Hrest).
    apply bind_inv in Hrest as (u & s3 & Hset & [<- <-]%ret_inv).
    unfold PyErr_SetString in Hset. injection Hset as <- <-. cbn [heap pyerr].
    split; [congruence | by eexists].
Qed.

Lemma tidy_keeps_protocol (m : M W (option PyObject)) : tidy m → keeps_protocol m.
Proof. intros Hm s r s' Hrun. by apply Hm in Hrun as [_ ?]. Qed.

Lemma tidy_bind {A} (m : M W A) (k : A → M W (option PyObject)) :
  quiet m → (∀ a, tidy (k a)) → tidy (m ≫= k).
Proof.
  intros Hm Hk s r s' (a & s1 & [Hh He]%Hm & [Hh' Hp]%Hk)%bind_inv.
  split; [congruence|]. destruct r; cbn in *; [congruence|].
  destruct Hp as [? ?]. split; [congruence | done].
Qed.

Lemma tidy_ret_Some (o : PyObject) : tidy (mret (M := M W) (Some o)).
Proof. by intros s r s' [<- <-]%ret_inv. Qed.

Lemma tidy_raise (exc : PyExc) (msg : string) :
  tidy (PyErr_SetString (W := W) exc msg;; mret None).
Proof. intros s r s' [= <- <-]. cbn. split; [done|]. split; [done | by eexists]. Qed.

Lemma tidy_parse_error :
  tidy (PyArg_ParseTuple_error (W := W);;
        PyErr_SetString PyExc_StandardError "Could not parse arguments";;
        mret None).
Proof. intros s r s' [= <- <-]. cbn. split; [done|]. split; [done | by eexists]. Qed.

Lemma tidy_parse_error_only : tidy (PyArg_ParseTuple_error (W := W);; mret None).
Proof. intros s r s' [= <- <-]. cbn. split; [done|]. split; [done | by eexists]. Qed.

Lemma tidy_check (res : ns_RESULT) (lib : NsLibrary W) (k : M W (option PyObject)) :
  tidy k →
  tidy (err ← check_result_is_error res lib; if err : bool then mret None else k).
Proof.
  intros Hk s r s' (err & s1 & [Hh He]%check_result_is_error_effect & Hrun)%bind_inv.
  destruct err.
  - apply ret_inv in Hrun as [<- <-]. cbn. done.
  - subst s1. by apply Hk.
Qed.

Lemma tidy_check_negb (res : ns_RESULT) (lib : NsLibrary W) (k : M W (option PyObject)) :
  tidy k →
  tidy (err ← check_result_is_error res lib; if negb err then k else mret None).
Proof.
  intros Hk s r s' (err & s1 & [Hh He]%check_result_is_error_effect & Hrun)%bind_inv.
  destruct err; cbn [negb] in Hrun.
  - apply ret_inv in Hrun as [<- <-]. cbn. done.
  - subst s1. by apply Hk.
Qed.

(** *** With an allocation at hand *)

Lemma settles_bind {A} (q : addr) (kept : bool) (m : M W A) (k : A → M W (option PyObject)) :
  quiet m → (∀ a, settles q kept (k a)) → settles q kept (m ≫= k).
Proof.
  intros Hm Hk s r s' Hq (a & s1 & [Hh He]%Hm & Hrun)%bind_inv.
  apply Hk in Hrun; [|by rewrite Hh]. rewrite Hh, He in Hrun. done.
Qed.

Lemma settles_ret_Some (q : addr) (o : PyObject) :
  settles q true (mret (M := M W) (Some o)).
Proof. by intros s r s' _ [<- <-]%ret_inv. Qed.

Lemma settles_free_ret_Some (q : addr) (o : PyObject) :
  settles q false (free (W := W) q;; mret (Some o)).
Proof.
  intros s r s' [b Hq] (u & s1 & Hfree & [<- <-]%ret_inv)%bind_inv.
  unfold free in Hfree. rewrite Hq in Hfree. by injection Hfree as <- <-.
Qed.

Lemma settles_check (q : addr) (kept : bool)
    (res : ns_RESULT) (lib : NsLibrary W) (k : M W (option PyObject)) :
  settles q kept k →
  settles q kept (err ← check_result_is_error res lib;
                  if err : bool then free q;; mret None else k).
Proof.
  intros Hk s r s' Hq (err & s1 & [Hh He]%check_result_is_error_effect & Hrun)%bind_inv.
  destruct err.
  - apply bind_inv in Hrun as (u & s2 & Hfree & [<- <-]%ret_inv).
    destruct Hq as [b Hq]. unfold free in Hfree. rewrite Hh, Hq in Hfree.
    injection Hfree as <- <-. cbn [heap pyerr]. done.
  - subst s1. by apply Hk.
Qed.

(** A computation that allocates a block and then settles it. *)
Lemma allocate_settled (b : block W) (kept : bool) (rest : addr → M W (option PyObject)) :
  (∀ q, settles q kept (rest q)) →
  ∀ s r s', (q ← allocate b; rest q) s = Done r s' →
    match r with
    | Some _ =>
        pyerr s' = pyerr s
        ∧ if kept then ∃ q, heap s !! q = None ∧ heap s' = <[q := b]> (heap s)
          else heap s' = heap s
    | None => heap s' = heap s ∧ is_Some (pyerr s')
    end.
Proof.
  intros Hrest s r s'.
  destruct (allocate_Done b s) as (q & Hq & Halloc).
  erewrite bind_Done by exact Halloc. intros Hrun.
  apply Hrest in Hrun; [|cbn [heap]; by rewrite lookup_insert_eq].
  cbn [heap pyerr] in Hrun. rewrite delete_insert_eq, delete_id in Hrun by done.
  destruct r as [o|]; [|done]. destruct Hrun as [He Hh]. split; [done|].
  destruct kept; [by exists q | done].
Qed.

Lemma tidy_allocate (b : block W) (rest : addr → M W (option PyObject)) :
  (∀ q, settles q false (rest q)) → tidy (q ← allocate b; rest q).
Proof.
  intros Hrest s r s' Hrun. apply (allocate_settled b false rest Hrest) in Hrun.
  destruct r; cbn; tauto.
Qed.

Lemma keeps_protocol_allocate (b : block W) (kept : bool)
    (rest : addr → M W (option PyObject)) :
  (∀ q, settles q kept (rest q)) → keeps_protocol (q ← allocate b; rest q).
Proof.
  intros Hrest s r s' Hrun. apply (allocate_settled b kept rest Hrest) in Hrun.
  destruct r; cbn; tauto.
Qed.

End Protocol.

Create HintDb tidy.

#[export] Hint Resolve tidy_ret_Some tidy_raise tidy_parse_error tidy_parse_error_only : tidy.

(** One step through a function that is to be shown [tidy]. *)
Ltac tidy_step :=
  lazymatch goal with
  | |- tidy (err ← check_result_is_error _ _; if negb err then _ else _) =>
      apply tidy_check_negb
  | |- tidy (err ← check_result_is_error _ _; if err then _ else _) => apply tidy_check
  | |- tidy (PyArg_ParseTuple_error ≫= _) =>
      first [apply tidy_parse_error | apply tidy_parse_error_only]
  | |- tidy (PyErr_SetString _ _ ≫= _) => apply tidy_raise
  | |- tidy (_ ≫= _) => apply tidy_bind; [solve [quiet]|intros ?]
  | |- tidy (let '(_, _) := ?a in _) => destruct a
  | |- tidy (if ?c then _ else _) => destruct c
  | |- tidy _ => solve [auto with tidy]
  end.

Ltac tidy := repeat tidy_step.

Ltac settles_step :=
  lazymatch goal with
  | |- settles _ _ (err ← check_result_is_error _ _; if err then _ else _) =>
      apply settles_check
  | |- settles _ false (free _ ;; mret (Some _)) => apply settles_free_ret_Some
  | |- settles _ true (mret (Some _)) => apply settles_ret_Some
  | |- settles _ _ (_ ≫= _) => apply settles_bind; [solve [quiet]|intros ?]
  | |- settles _ _ (let '(_, _) := ?a in _) => destruct a
  | |- settles _ _ (if ?c then _ else _) => destruct c
  end.

Ltac settles := repeat settles_step.

(** The shapes an argument tuple can have, up to the longest format. *)
Ltac by_arity args :=
  destruct args as [|? [|? [|? [|? [|? [|? [|? ?]]]]]]].

Section Functions.
Context {W : Type} `{nsAPItypes} `{Platform} `{Loader W} `{Vendor W}.

Lemma tidy_do_get_library_info (args : list PyObject) : tidy (do_get_library_info args).
Proof.
  unfold do_get_library_info, call_GetLibraryInfo. by_arity args; tidy.
Qed.

Lemma tidy_do_open_file (args : list PyObject) : tidy (do_open_file args).
Proof.
  unfold do_open_file, call_OpenFile.
  destruct args as [|cobj [|fobj [|? ?]]]; try solve [tidy]; destruct fobj; tidy.
Qed.

Lemma tidy_do_close_file (args : list PyObject) : tidy (do_close_file args).
Proof. unfold do_close_file, call_CloseFile. by_arity args; tidy. Qed.

Lemma tidy_do_get_index_by_time (args : list PyObject) : tidy (do_get_index_by_time args).
Proof. unfold do_get_index_by_time, call_GetIndexByTime. by_arity args; tidy. Qed.

Lemma tidy_do_get_time_by_index (args : list PyObject) : tidy (do_get_time_by_index args).
Proof. unfold do_get_time_by_index, call_GetTimeByIndex. by_arity args; tidy. Qed.

Lemma tidy_do_get_entity_info (args : list PyObject) : tidy (do_get_entity_info (W := W) args).
Proof. unfold do_get_entity_info. by_arity args; tidy. Qed.

Lemma tidy_do_get_event_data (args : list PyObject) : tidy (do_get_event_data (W := W) args).
Proof.
  unfold do_get_event_data. by_arity args; tidy.
  unfold malloc. apply tidy_allocate. intros q. settles.
Qed.

End Functions.

Section Allocating.
Context {W : Type} `{nsAPItypes} `{Platform} `{Loader W} `{Vendor W}.

Lemma keeps_protocol_bind {A} (m : M W A) (k : A → M W (option PyObject)) :
  quiet m → (∀ a, keeps_protocol (k a)) → keeps_protocol (m ≫= k).
Proof.
  intros Hm Hk s r s' (a & s1 & [Hh He]%Hm & Hp%Hk)%bind_inv.
  destruct r; cbn in *; [congruence|].
  destruct Hp as [? ?]. split; [congruence | done].
Qed.

Lemma keeps_protocol_do_get_analog_data (args : list PyObject) :
  keeps_protocol (do_get_analog_data (W := W) args).
Proof.
  unfold do_get_analog_data.
  by_arity args; try (apply tidy_keeps_protocol; solve [tidy]).
  destruct (_ || _); [apply tidy_keeps_protocol; tidy|].
  do 2 (apply keeps_protocol_bind; [solve [quiet]|intros ?]). cbv zeta.
  apply (keeps_protocol_allocate _ true). intros q. settles.
Qed.

Lemma keeps_protocol_do_get_segment_data (args : list PyObject) :
  keeps_protocol (do_get_segment_data (W := W) args).
Proof.
  unfold do_get_segment_data.
  by_arity args; try (apply tidy_keeps_protocol; solve [tidy]).
  destruct (_ || _); [apply tidy_keeps_protocol; tidy|].
  do 2 (apply keeps_protocol_bind; [solve [quiet]|intros ?]). cbv zeta.
  apply (keeps_protocol_allocate _ true). intros q. settles.
Qed.

Lemma keeps_protocol_do_get_neural_data (args : list PyObject) :
  keeps_protocol (do_get_neural_data (W := W) args).
Proof.
  unfold do_get_neural_data.
  by_arity args; try (apply tidy_keeps_protocol; solve [tidy]).
  destruct (_ || _); [apply tidy_keeps_protocol; tidy|].
  do 2 (apply keeps_protocol_bind; [solve [quiet]|intros ?]). cbv zeta.
  apply (keeps_protocol_allocate _ true). intros q. settles.
Qed.

Lemma keeps_protocol_library_open (args : list PyObject) :
  keeps_protocol (library_open (W := W) args).
Proof.
  assert (Hbad : keeps_protocol (PyArg_ParseTuple_error (W := W);; mret None))
    by apply tidy_keeps_protocol, tidy_parse_error_only.
  destruct args as [|o [|? ?]]; try exact Hbad.
  2: { destruct o; exact Hbad. }
  destruct o as [| | |filename| | | | |]; try exact Hbad.
  intros s r s' Hrun.
  destruct (is_c_string filename) eqn:Hname.
  - destruct (dlopen filename RTLD_NOW (world s)) as [[dlh|] w1] eqn:Hopen.
    + destruct (library_open_Done filename s dlh w1 Hname Hopen) as (p & lib & _ & Hdone & _).
      rewrite Hdone in Hrun. by injection Hrun as <- <-.
    + unfold library_open in Hrun. rewrite Hname in Hrun. cbn [negb] in Hrun.
      erewrite bind_Done in Hrun by (by apply call_loader_Done).
      cbv beta iota in Hrun.
      apply bind_inv in Hrun as (msg & s2 & [Hh He]%quiet_call_loader & Hrun).
      apply tidy_raise in Hrun as [Hh2 Hp]. cbn [heap pyerr] in *.
      destruct r; cbn in *; [congruence|]. destruct Hp. split; [congruence | done].
  - unfold library_open in Hrun. rewrite Hname in Hrun. by apply Hbad in Hrun.
Qed.

Lemma keeps_protocol_library_close (args : list PyObject) :
  keeps_protocol (library_close (W := W) args).
Proof.
  unfold library_close.
  by_arity args; try (apply tidy_keeps_protocol; solve [tidy]).
  destruct (negb _); [apply tidy_keeps_protocol; tidy|].
  do 3 (apply keeps_protocol_bind; [solve [quiet]|intros ?]).
  destruct (negb _); [apply tidy_keeps_protocol; tidy|].
  intros s r s' (u & s1 & Hfree & [<- <-]%ret_inv)%bind_inv.
  unfold free in Hfree. destruct (heap s !! _); [|done]. by injection Hfree as <- <-.
Qed.

Lemma NativeMethods_keep_protocol (name : string) (f : PyCFunction) (doc : string)
    (args : list PyObject) :
  (name, f, doc) ∈ NativeMethods → keeps_protocol (f args).
Proof.
  unfold NativeMethods. intros Hin.
  repeat (apply elem_of_cons in Hin as [[= -> -> ->] | Hin];
          [first [ apply keeps_protocol_library_open
                 | apply keeps_protocol_library_close
                 | apply keeps_protocol_do_get_analog_data
                 | apply keeps_protocol_do_get_segment_data
                 | apply keeps_protocol_do_get_neural_data
                 | apply tidy_keeps_protocol;
                   first [ apply tidy_do_get_library_info | apply tidy_do_open_file
                         | apply tidy_do_close_file | apply tidy_do_get_entity_info
                         | apply tidy_do_get_event_data | apply tidy_do_get_time_by_index
                         | apply tidy_do_get_index_by_time ] ]|]).
  by apply elem_of_nil in Hin.
Qed.

Lemma NativeMethods_tidy (name : string) (f : PyCFunction) (doc : string)
    (args : list PyObject) :
  (name, f, doc) ∈ NativeMethods → name ∉ allocating → tidy (f args).
Proof.
  unfold NativeMethods, allocating. intros Hin Hname.
  repeat (apply elem_of_cons in Hin as [[= -> -> ->] | Hin];
          [first [ exfalso; apply Hname; set_solver
                 | apply tidy_do_get_library_info | apply tidy_do_open_file
                 | apply tidy_do_close_file | apply tidy_do_get_entity_info
                 | apply tidy_do_get_event_data | apply tidy_do_get_time_by_index
                 | apply tidy_do_get_index_by_time ]|]).
  by apply elem_of_nil in Hin.
Qed.

(** X3. Every call of a function of the module that completes ends as
    CPython expects of it, whatever the arguments and the vendor library: a
    call that returns an object leaves the error indicator as it found it,
    and a call that returns [NULL] leaves an exception pending, and the C
    heap as it was before the call. *)
Theorem methods_keep_the_error_protocol
    (name : string) (f : PyCFunction) (doc : string)
    (args : list PyObject) (s s' : state W) (r : option PyObject) :
  (name, f, doc) ∈ NativeMethods →
  f args s = Done r s' →
  error_protocol s r s'.
Proof. intros Hin. by apply (NativeMethods_keep_protocol name f doc args Hin). Qed.

(** X4. Apart from the functions that open or close a library or return
    an array, no function of the module changes the C heap: after every
    call that completes the heap is as before, whatever the arguments and
    whether the call succeeded; so the event accessor releases its buffer
    on every path. *)
Theorem heap_is_left_as_found
    (name : string) (f : PyCFunction) (doc : string)
    (args : list PyObject) (s s' : state W) (r : option PyObject) :
  (name, f, doc) ∈ NativeMethods →
  name ∉ allocating →
  f args s = Done r s' →
  heap s' = heap s.
Proof.
  intros Hin Hname Hrun.
  by apply (NativeMethods_tidy name f doc args Hin Hname) in Hrun as [? _].
Qed.

End Allocating.

(** ** The arguments of the functions of the module *)

Lemma fits_Handle (o : PyObject) : fits Handle o = PyCObject_Check o.
Proof. by destruct o. Qed.

Lemma fits_Int (o : PyObject) : fits Int o = PyInt_Check o.
Proof. by destruct o. Qed.

Lemma fits_Float (o : PyObject) : fits Float o = PyFloat_Check o.
Proof. by destruct o. Qed.

Section RejectedBasics.
Context {W : Type}.

Lemma rejected_parse_error (s : state W) :
  rejected s ((PyArg_ParseTuple_error;;
               PyErr_SetString PyExc_StandardError "Could not parse arguments";;
               mret None) s).
Proof. by exists PyExc_StandardError, (Some "Could not parse arguments"). Qed.

Lemma rejected_parse_error_only (s : state W) :
  rejected s ((PyArg_ParseTuple_error;; mret None) s).
Proof. by exists PyExc_TypeError, None. Qed.

Lemma rejected_raise (msg : string) (s : state W) :
  rejected s ((PyErr_SetString PyExc_TypeError msg;; mret None) s).
Proof. by exists PyExc_TypeError, (Some msg). Qed.

End RejectedBasics.

(** The checks of the glue, read as the signature they enforce. *)
Ltac check_types Hty :=
  cbn [well_typed] in Hty;
  repeat match type of Hty with
         | context [fits Handle ?o] => rewrite (fits_Handle o) in Hty
         | context [fits Int ?o] => rewrite (fits_Int o) in Hty
         | context [fits Float ?o] => rewrite (fits_Float o) in Hty
         end;
  repeat match type of Hty with
         | context [PyCObject_Check ?o] => destruct (PyCObject_Check o)
         | context [PyInt_Check ?o] => destruct (PyInt_Check o)
         | context [PyFloat_Check ?o] => destruct (PyFloat_Check o)
         end;
  cbn [andb] in Hty;
  first [discriminate Hty | cbn [negb orb]; apply rejected_raise].

Ltac reject args Hty :=
  by_arity args;
  first [discriminate Hty | apply rejected_parse_error | check_types Hty].

Section Rejected.
Context {W : Type} `{nsAPItypes} `{Platform} `{Loader W} `{Vendor W}.

Lemma library_open_rejects (args : list PyObject) (s : state W) :
  well_typed [Str] args = false → rejected s (library_open args s).
Proof.
  intros Hty. destruct args as [|o [|? ?]]; try apply rejected_parse_error_only.
  2: { destruct o; apply rejected_parse_error_only. }
  destruct o as [| | |filename| | | | |]; try apply rejected_parse_error_only.
  cbn in Hty. rewrite andb_true_r in Hty.
  unfold library_open. rewrite Hty. apply rejected_parse_error_only.
Qed.

Lemma library_close_rejects (args : list PyObject) (s : state W) :
  well_typed [Handle] args = false → rejected s (library_close args s).
Proof. intros Hty. unfold library_close. reject args Hty. Qed.

Lemma do_get_library_info_rejects (args : list PyObject) (s : state W) :
  well_typed [Handle] args = false → rejected s (do_get_library_info args s).
Proof. intros Hty. unfold do_get_library_info. reject args Hty. Qed.

Lemma do_open_file_rejects (args : list PyObject) (s : state W) :
  well_typed [Handle; Str] args = false → rejected s (do_open_file args s).
Proof.
  intros Hty. unfold do_open_file.
  destruct args as [|cobj [|fobj [|? ?]]]; try apply rejected_parse_error.
  2: { destruct fobj; apply rejected_parse_error. }
  destruct fobj as [| | |filename| | | | |]; try apply rejected_parse_error.
  cbn [well_typed] in Hty. rewrite fits_Handle in Hty. cbn [fits] in Hty.
  rewrite andb_true_r in Hty.
  destruct (is_c_string filename); cbn [negb]; [|apply rejected_parse_error].
  rewrite andb_true_r in Hty. rewrite Hty. apply rejected_raise.
Qed.

Lemma do_close_file_rejects (args : list PyObject) (s : state W) :
  well_typed [Handle; Int] args = false → rejected s (do_close_file args s).
Proof. intros Hty. unfold do_close_file. reject args Hty. Qed.

Lemma do_get_entity_info_rejects (args : list PyObject) (s : state W) :
  well_typed [Handle; Int; Int] args = false → rejected s (do_get_entity_info args s).
Proof. intros Hty. unfold do_get_entity_info. reject args Hty. Qed.

Lemma do_get_event_data_rejects (args : list PyObject) (s : state W) :
  well_typed [Handle; Int; Int; Int; Int; Int] args = false →
  rejected s (do_get_event_data args s).
Proof. intros Hty. unfold do_get_event_data. reject args Hty. Qed.

Lemma do_get_analog_data_rejects (args : list PyObject) (s : state W) :
  well_typed [Handle; Int; Int; Int; Int] args = false →
  rejected s (do_get_analog_data args s).
Proof. intros Hty. unfold do_get_analog_data. reject args Hty. Qed.

Lemma do_get_segment_data_rejects (args : list PyObject) (s : state W) :
  well_typed [Handle; Int; Int; Int; Int; Int] args = false →
  rejected s (do_get_segment_data args s).
Proof. intros Hty. unfold do_get_segment_data. reject args Hty. Qed.

Lemma do_get_neural_data_rejects (args : list PyObject) (s : state W) :
  well_typed [Handle; Int; Int; Int; Int] args = false →
  rejected s (do_get_neural_data args s).
Proof. intros Hty. unfold do_get_neural_data. reject args Hty. Qed.

Lemma do_get_time_by_index_rejects (args : list PyObject) (s : state W) :
  well_typed [Handle; Int; Int; Int] args = false →
  rejected s (do_get_time_by_index args s).
Proof. intros Hty. unfold do_get_time_by_index. reject args Hty. Qed.

Lemma do_get_index_by_time_rejects (args : list PyObject) (s : state W) :
  well_typed [Handle; Int; Int; Float; Int] args = false →
  rejected s (do_get_index_by_time args s).
Proof. intros Hty. unfold do_get_index_by_time. reject args Hty. Qed.

(** X5. A call whose arguments do not fit the signature of the function
    (their number, a library handle first, ints, a float for the time of
    [_get_index_by_time], a string without NUL for a file name) is turned
    down before anything happens: it returns [NULL] with a [TypeError] or
    [StandardError] pending, and has touched neither the C heap nor the
    loader nor the vendor library. *)
Theorem ill_typed_arguments_are_rejected
    (name : string) (f : PyCFunction) (doc : string) (sig : list kind)
    (args : list PyObject) (s : state W) :
  (name, f, doc) ∈ NativeMethods →
  (name, sig) ∈ signatures →
  well_typed sig args = false →
  rejected s (f args s).
Proof.
  unfold NativeMethods, signatures. intros Hin Hsig.
  repeat (apply elem_of_cons in Hin as [[= -> -> ->] | Hin];
          [repeat (apply elem_of_cons in Hsig as [Heq | Hsig];
                   [try discriminate Heq; injection Heq as ->;
                    first [ apply library_open_rejects | apply library_close_rejects
                          | apply do_get_library_info_rejects | apply do_open_file_rejects
                          | apply do_close_file_rejects | apply do_get_entity_info_rejects
                          | apply do_get_event_data_rejects
                          | apply do_get_analog_data_rejects
                          | apply do_get_segment_data_rejects
                          | apply do_get_neural_data_rejects
                          | apply do_get_time_by_index_rejects
                          | apply do_get_index_by_time_rejects ]|]);
           by apply elem_of_nil in Hsig|]).
  by apply elem_of_nil in Hin.
Qed.

End Rejected.

(** ** Int arguments *)

(** All the glue looks at in an argument. *)
Lemma same_uint32_views (a b : PyObject) :
  same_uint32 a b →
  PyCObject_Check a = PyCObject_Check b
  ∧ PyInt_Check a = PyInt_Check b
  ∧ PyFloat_Check a = PyFloat_Check b
  ∧ PyInt_AsUnsignedLongMask a = PyInt_AsUnsignedLongMask b
  ∧ PyFloat_AsDouble a = PyFloat_AsDouble b
  ∧ ∀ W, PyCObject_AsVoidPtr (W := W) a = PyCObject_AsVoidPtr b.
Proof.
  destruct a, b; cbn; intros E; try discriminate E; try (injection E as <-);
    try (injection E as <- <-); try (injection E as <- <- <-); done.
Qed.

(** The pairs of argument tuples of the same length, up to the longest
    format, each pair of items with what the glue sees of it. *)
Ltac pair_arity H n :=
  lazymatch n with
  | O => idtac
  | S ?n' =>
      let Hv := fresh "Hv" in
      destruct H as [|? ? ? ? Hv H];
      [|pair_arity H n']
  end.

Ltac by_views :=
  repeat match goal with
         | Hv : same_uint32 _ _ |- _ =>
             apply same_uint32_views in Hv as (? & ? & ? & ? & ? & ?)
         end;
  repeat match goal with
         | E : _ = _ |- _ => first [rewrite E | idtac]; clear E
         | E : ∀ W, _ = _ |- _ => first [rewrite E | idtac]; clear E
         end;
  reflexivity.

Section SameArguments.
Context {W : Type} `{nsAPItypes} `{Platform} `{Loader W} `{Vendor W}.

Lemma library_open_same (args args' : list PyObject) (s : state W) :
  Forall2 same_uint32 args args' → library_open args s = library_open args' s.
Proof.
  intros Hargs. destruct Hargs as [|a b ? ? Hab Hargs]; [done|].
  destruct a, b; cbn in Hab; try discriminate Hab; try (injection Hab as <-);
    destruct Hargs; reflexivity.
Qed.

Lemma library_close_same (args args' : list PyObject) (s : state W) :
  Forall2 same_uint32 args args' → library_close args s = library_close args' s.
Proof. intros Hargs. unfold library_close. pair_arity Hargs 7%nat; by_views. Qed.

Lemma do_get_library_info_same (args args' : list PyObject) (s : state W) :
  Forall2 same_uint32 args args' →
  do_get_library_info args s = do_get_library_info args' s.
Proof. intros Hargs. unfold do_get_library_info. pair_arity Hargs 7%nat; by_views. Qed.

Lemma do_open_file_same (args args' : list PyObject) (s : state W) :
  Forall2 same_uint32 args args' → do_open_file args s = do_open_file args' s.
Proof.
  intros Hargs. unfold do_open_file.
  destruct Hargs as [|a b ? ? Hab Hargs]; [done|].
  destruct Hargs as [|a2 b2 ? ? Hab2 Hargs]; [done|].
  destruct a2, b2; cbn in Hab2; try discriminate Hab2; try (injection Hab2 as <-);
    destruct Hargs; try reflexivity.
  by_views.
Qed.

Lemma do_close_file_same (args args' : list PyObject) (s : state W) :
  Forall2 same_uint32 args args' → do_close_file args s = do_close_file args' s.
Proof. intros Hargs. unfold do_close_file. pair_arity Hargs 7%nat; by_views. Qed.

Lemma do_get_entity_info_same (args args' : list PyObject) (s : state W) :
  Forall2 same_uint32 args args' →
  do_get_entity_info args s = do_get_entity_info args' s.
Proof. intros Hargs. unfold do_get_entity_info. pair_arity Hargs 7%nat; by_views. Qed.

Lemma do_get_event_data_same (args args' : list PyObject) (s : state W) :
  Forall2 same_uint32 args args' →
  do_get_event_data args s = do_get_event_data args' s.
Proof. intros Hargs. unfold do_get_event_data. pair_arity Hargs 7%nat; by_views. Qed.

Lemma do_get_analog_data_same (args args' : list PyObject) (s : state W) :
  Forall2 same_uint32 args args' →
  do_get_analog_data args s = do_get_analog_data args' s.
Proof. intros Hargs. unfold do_get_analog_data. pair_arity Hargs 7%nat; by_views. Qed.

Lemma do_get_segment_data_same (args args' : list PyObject) (s : state W) :
  Forall2 same_uint32 args args' →
  do_get_segment_data args s = do_get_segment_data args' s.
Proof. intros Hargs. unfold do_get_segment_data. pair_arity Hargs 7%nat; by_views. Qed.

Lemma do_get_neural_data_same (args args' : list PyObject) (s : state W) :
  Forall2 same_uint32 args args' →
  do_get_neural_data args s = do_get_neural_data args' s.
Proof. intros Hargs. unfold do_get_neural_data. pair_arity Hargs 7%nat; by_views. Qed.

Lemma do_get_time_by_index_same (args args' : list PyObject) (s : state W) :
  Forall2 same_uint32 args args' →
  do_get_time_by_index args s = do_get_time_by_index args' s.
Proof. intros Hargs. unfold do_get_time_by_index. pair_arity Hargs 7%nat; by_views. Qed.

Lemma do_get_index_by_time_same (args args' : list PyObject) (s : state W) :
  Forall2 same_uint32 args args' →
  do_get_index_by_time args s = do_get_index_by_time args' s.
Proof. intros Hargs. unfold do_get_index_by_time. pair_arity Hargs 7%nat; by_views. Qed.

(** X6. No function of the module checks the range of an int argument:
    it sees the argument modulo 2^32 only, so two calls whose int arguments
    agree modulo 2^32 (and whose other arguments are the same) do the
    same. *)
Theorem int_arguments_count_modulo_2_32
    (name : string) (f : PyCFunction) (doc : string)
    (args args' : list PyObject) (s : state W) :
  (name, f, doc) ∈ NativeMethods →
  Forall2 same_uint32 args args' →
  f args s = f args' s.
Proof.
  unfold NativeMethods. intros Hin Hargs.
  repeat (apply elem_of_cons in Hin as [[= -> -> ->] | Hin];
          [first [ by apply library_open_same | by apply library_close_same
                 | by apply do_get_library_info_same | by apply do_open_file_same
                 | by apply do_close_file_same | by apply do_get_entity_info_same
                 | by apply do_get_event_data_same | by apply do_get_analog_data_same
                 | by apply do_get_segment_data_same | by apply do_get_neural_data_same
                 | by apply do_get_time_by_index_same
                 | by apply do_get_index_by_time_same ]|]).
  by apply elem_of_nil in Hin.
Qed.

End SameArguments.

(** ** Handles of closed libraries *)

Section Stale.
Context {W : Type} `{nsAPItypes} `{Platform} `{Loader W} `{Vendor W}.

Lemma read_stale {B} (p : addr) (s : state W) (k : addr → NsLibrary W → M W B) :
  (∀ lib, heap s !! p ≠ Some (BLib lib)) →
  (lib_ptr ← PyCObject_AsVoidPtr (PyCObject p);
   fields ← read_NsLibrary lib_ptr;
   k lib_ptr fields) s
  = Undefined.
Proof.
  intros Hp. erewrite bind_Done by reflexivity. apply bind_Undefined.
  unfold read_NsLibrary. destruct (heap s !! p) as [[lib| |]|] eqn:E; try done.
  by destruct (Hp lib).
Qed.

End Stale.

(** The checks of the glue passed by arguments of the right types. *)
Ltac pass_types Hty :=
  cbn [well_typed] in Hty;
  repeat match type of Hty with
         | context [fits Handle ?o] => rewrite (fits_Handle o) in Hty
         | context [fits Int ?o] => rewrite (fits_Int o) in Hty
         | context [fits Float ?o] => rewrite (fits_Float o) in Hty
         end;
  repeat match type of Hty with
         | context [PyInt_Check ?o] => destruct (PyInt_Check o)
         | context [PyFloat_Check ?o] => destruct (PyFloat_Check o)
         end;
  cbn [PyCObject_Check andb] in Hty; try discriminate Hty;
  cbn [PyCObject_Check negb orb].

Ltac stale rest Hty Hp :=
  destruct rest as [|? [|? [|? [|? [|? [|? ?]]]]]]; try discriminate Hty;
  pass_types Hty; by apply read_stale.

Section StaleHandles.
Context {W : Type} `{nsAPItypes} `{Platform} `{Loader W} `{Vendor W}.

Lemma library_close_stale p rest (s : state W) :
  well_typed [Handle] (PyCObject p :: rest) = true →
  (∀ lib, heap s !! p ≠ Some (BLib lib)) →
  library_close (PyCObject p :: rest) s = Undefined.
Proof. intros Hty Hp. unfold library_close. stale rest Hty Hp. Qed.

Lemma do_get_library_info_stale p rest (s : state W) :
  well_typed [Handle] (PyCObject p :: rest) = true →
  (∀ lib, heap s !! p ≠ Some (BLib lib)) →
  do_get_library_info (PyCObject p :: rest) s = Undefined.
Proof. intros Hty Hp. unfold do_get_library_info. stale rest Hty Hp. Qed.

Lemma do_open_file_stale p rest (s : state W) :
  well_typed [Handle; Str] (PyCObject p :: rest) = true →
  (∀ lib, heap s !! p ≠ Some (BLib lib)) →
  do_open_file (PyCObject p :: rest) s = Undefined.
Proof.
  intros Hty Hp. unfold do_open_file.
  destruct rest as [|fobj [|? ?]]; try discriminate Hty.
  - destruct fobj as [| | |filename| | | | |]; try discriminate Hty.
    cbn in Hty. rewrite andb_true_r in Hty. rewrite Hty. cbn [negb PyCObject_Check].
    by apply read_stale.
  - cbn in Hty. by rewrite andb_false_r in Hty.
Qed.

Lemma do_close_file_stale p rest (s : state W) :
  well_typed [Handle; Int] (PyCObject p :: rest) = true →
  (∀ lib, heap s !! p ≠ Some (BLib lib)) →
  do_close_file (PyCObject p :: rest) s = Undefined.
Proof. intros Hty Hp. unfold do_close_file. stale rest Hty Hp. Qed.

Lemma do_get_entity_info_stale p rest (s : state W) :
  well_typed [Handle; Int; Int] (PyCObject p :: rest) = true →
  (∀ lib, heap s !! p ≠ Some (BLib lib)) →
  do_get_entity_info (PyCObject p :: rest) s = Undefined.
Proof. intros Hty Hp. unfold do_get_entity_info. stale rest Hty Hp. Qed.

Lemma do_get_event_data_stale p rest (s : state W) :
  well_typed [Handle; Int; Int; Int; Int; Int] (PyCObject p :: rest) = true →
  (∀ lib, heap s !! p ≠ Some (BLib lib)) →
  do_get_event_data (PyCObject p :: rest) s = Undefined.
Proof. intros Hty Hp. unfold do_get_event_data. stale rest Hty Hp. Qed.

Lemma do_get_analog_data_stale p rest (s : state W) :
  well_typed [Handle; Int; Int; Int; Int] (PyCObject p :: rest) = true →
  (∀ lib, heap s !! p ≠ Some (BLib lib)) →
  do_get_analog_data (PyCObject p :: rest) s = Undefined.
Proof. intros Hty Hp. unfold do_get_analog_data. stale rest Hty Hp. Qed.

Lemma do_get_segment_data_stale p rest (s : state W) :
  well_typed [Handle; Int; Int; Int; Int; Int] (PyCObject p :: rest) = true →
  (∀ lib, heap s !! p ≠ Some (BLib lib)) →
  do_get_segment_data (PyCObject p :: rest) s = Undefined.
Proof. intros Hty Hp. unfold do_get_segment_data. stale rest Hty Hp. Qed.

Lemma do_get_neural_data_stale p rest (s : state W) :
  well_typed [Handle; Int; Int; Int; Int] (PyCObject p :: rest) = true →
  (∀ lib, heap s !! p ≠ Some (BLib lib)) →
  do_get_neural_data (PyCObject p :: rest) s = Undefined.
Proof. intros Hty Hp. unfold do_get_neural_data. stale rest Hty Hp. Qed.

Lemma do_get_time_by_index_stale p rest (s : state W) :
  well_typed [Handle; Int; Int; Int] (PyCObject p :: rest) = true →
  (∀ lib, heap s !! p ≠ Some (BLib lib)) →
  do_get_time_by_index (PyCObject p :: rest) s = Undefined.
Proof. intros Hty Hp. unfold do_get_time_by_index. stale rest Hty Hp. Qed.

Lemma do_get_index_by_time_stale p rest (s : state W) :
  well_typed [Handle; Int; Int; Float; Int] (PyCObject p :: rest) = true →
  (∀ lib, heap s !! p ≠ Some (BLib lib)) →
  do_get_index_by_time (PyCObject p :: rest) s = Undefined.
Proof. intros Hty Hp. unfold do_get_index_by_time. stale rest Hty Hp. Qed.

(** X7. No function of the module notices that a handle is stale: called
    with arguments of the right types and a handle behind which no library
    record is allocated any more (or never was), each of them reads through
    the dangling pointer, which is undefined and no reported error. *)
Theorem stale_handle_is_not_detected
    (name : string) (f : PyCFunction) (doc : string) (sig : list kind)
    (p : addr) (rest : list PyObject) (s : state W) :
  (name, f, doc) ∈ NativeMethods →
  (name, sig) ∈ signatures →
  well_typed sig (PyCObject p :: rest) = true →
  (∀ lib, heap s !! p ≠ Some (BLib lib)) →
  f (PyCObject p :: rest) s = Undefined.
Proof.
  unfold NativeMethods, signatures. intros Hin Hsig.
  repeat (apply elem_of_cons in Hin as [[= -> -> ->] | Hin];
          [repeat (apply elem_of_cons in Hsig as [Heq | Hsig];
                   [try discriminate Heq; injection Heq as ->;
                    first [ by intros [=]
                          | apply library_close_stale
                          | apply do_get_library_info_stale | apply do_open_file_stale
                          | apply do_close_file_stale | apply do_get_entity_info_stale
                          | apply do_get_event_data_stale
                          | apply do_get_analog_data_stale
                          | apply do_get_segment_data_stale
                          | apply do_get_neural_data_stale
                          | apply do_get_time_by_index_stale
                          | apply do_get_index_by_time_stale ]|]);
           by apply elem_of_nil in Hsig|]).
  by apply elem_of_nil in Hin.
Qed.

End StaleHandles.

(** ** Entry points the library does not export *)

Section NullPointers.
Context {W : Type} `{nsAPItypes} `{Platform} `{Loader W} `{Vendor W}.

Lemma call_routine_null {A} (typed : routine W → option (native W A)) (s : state W) :
  call_routine None typed s = Undefined.
Proof. done. Qed.

End NullPointers.

(** A call of a function with arguments of the right types and a live
    handle, up to its first vendor call, which goes through a null
    pointer. *)
Ltac null_call rest Hty Hp Hnull :=
  destruct rest as [|? [|? [|? [|? [|? [|? ?]]]]]]; try discriminate Hty;
  pass_types Hty;
  rewrite (PyCObject_AsVoidPtr_Done _ _ _ _ Hp); cbv zeta;
  try (unfold malloc, PyArray_New;
       match goal with
       | |- (allocate ?b ≫= _) ?s = _ =>
           let Halloc := fresh in
           destruct (allocate_Done b s) as (? & _ & Halloc);
           erewrite bind_Done by exact Halloc
       end);
  apply bind_Undefined;
  first [ by rewrite Hnull ].

Section NullPointerCalls.
Context {W : Type} `{nsAPItypes} `{Platform} `{Loader W} `{Vendor W}.

Lemma do_get_library_info_null p rest (s : state W) (lib : NsLibrary W) :
  well_typed [Handle] (PyCObject p :: rest) = true →
  heap s !! p = Some (BLib lib) →
  GetLibraryInfo lib = None →
  do_get_library_info (PyCObject p :: rest) s = Undefined.
Proof.
  intros Hty Hp Hnull. unfold do_get_library_info, call_GetLibraryInfo.
  null_call rest Hty Hp Hnull.
Qed.

Lemma do_open_file_null p rest (s : state W) (lib : NsLibrary W) :
  well_typed [Handle; Str] (PyCObject p :: rest) = true →
  heap s !! p = Some (BLib lib) →
  OpenFile lib = None →
  do_open_file (PyCObject p :: rest) s = Undefined.
Proof.
  intros Hty Hp Hnull. unfold do_open_file, call_OpenFile.
  destruct rest as [|fobj [|? ?]]; try discriminate Hty.
  - destruct fobj as [| | |filename| | | | |]; try discriminate Hty.
    cbn in Hty. rewrite andb_true_r in Hty. rewrite Hty. cbn [negb PyCObject_Check].
    rewrite (PyCObject_AsVoidPtr_Done _ _ _ _ Hp). apply bind_Undefined.
    by rewrite Hnull.
  - cbn in Hty. by rewrite andb_false_r in Hty.
Qed.

Lemma do_close_file_null p rest (s : state W) (lib : NsLibrary W) :
  well_typed [Handle; Int] (PyCObject p :: rest) = true →
  heap s !! p = Some (BLib lib) →
  CloseFile lib = None →
  do_close_file (PyCObject p :: rest) s = Undefined.
Proof.
  intros Hty Hp Hnull. unfold do_close_file, call_CloseFile.
  null_call rest Hty Hp Hnull.
Qed.

Lemma do_get_entity_info_null p rest (s : state W) (lib : NsLibrary W) :
  well_typed [Handle; Int; Int] (PyCObject p :: rest) = true →
  heap s !! p = Some (BLib lib) →
  GetEntityInfo lib = None →
  do_get_entity_info (PyCObject p :: rest) s = Undefined.
Proof.
  intros Hty Hp Hnull. unfold do_get_entity_info, call_GetEntityInfo.
  null_call rest Hty Hp Hnull.
Qed.

Lemma do_get_event_data_null p rest (s : state W) (lib : NsLibrary W) :
  well_typed [Handle; Int; Int; Int; Int; Int] (PyCObject p :: rest) = true →
  heap s !! p = Some (BLib lib) →
  GetEventData lib = None →
  do_get_event_data (PyCObject p :: rest) s = Undefined.
Proof.
  intros Hty Hp Hnull. unfold do_get_event_data, call_GetEventData.
  null_call rest Hty Hp Hnull.
Qed.

Lemma do_get_analog_data_null p rest (s : state W) (lib : NsLibrary W) :
  well_typed [Handle; Int; Int; Int; Int] (PyCObject p :: rest) = true →
  heap s !! p = Some (BLib lib) →
  GetAnalogData lib = None →
  do_get_analog_data (PyCObject p :: rest) s = Undefined.
Proof.
  intros Hty Hp Hnull. unfold do_get_analog_data, call_GetAnalogData.
  null_call rest Hty Hp Hnull.
Qed.

Lemma do_get_segment_data_null p rest (s : state W) (lib : NsLibrary W) :
  well_typed [Handle; Int; Int; Int; Int; Int] (PyCObject p :: rest) = true →
  heap s !! p = Some (BLib lib) →
  GetSegmentData lib = None →
  do_get_segment_data (PyCObject p :: rest) s = Undefined.
Proof.
  intros Hty Hp Hnull. unfold do_get_segment_data, call_GetSegmentData.
  null_call rest Hty Hp Hnull.
Qed.

Lemma do_get_neural_data_null p rest (s : state W) (lib : NsLibrary W) :
  well_typed [Handle; Int; Int; Int; Int] (PyCObject p :: rest) = true →
  heap s !! p = Some (BLib lib) →
  GetNeuralData lib = None →
  do_get_neural_data (PyCObject p :: rest) s = Undefined.
Proof.
  intros Hty Hp Hnull. unfold do_get_neural_data, call_GetNeuralData.
  null_call rest Hty Hp Hnull.
Qed.

Lemma do_get_time_by_index_null p rest (s : state W) (lib : NsLibrary W) :
  well_typed [Handle; Int; Int; Int] (PyCObject p :: rest) = true →
  heap s !! p = Some (BLib lib) →
  GetTimeByIndex lib = None →
  do_get_time_by_index (PyCObject p :: rest) s = Undefined.
Proof.
  intros Hty Hp Hnull. unfold do_get_time_by_index, call_GetTimeByIndex.
  null_call rest Hty Hp Hnull.
Qed.

Lemma do_get_index_by_time_null p rest (s : state W) (lib : NsLibrary W) :
  well_typed [Handle; Int; Int; Float; Int] (PyCObject p :: rest) = true →
  heap s !! p = Some (BLib lib) →
  GetIndexByTime lib = None →
  do_get_index_by_time (PyCObject p :: rest) s = Undefined.
Proof.
  intros Hty Hp Hnull. unfold do_get_index_by_time, call_GetIndexByTime.
  null_call rest Hty Hp Hnull.
Qed.

(** X8. An entry point that [dlsym] did not find is called all the same:
    a function of the module, called with arguments of the right types and
    the handle of a library whose record holds a null pointer for the entry
    point the function calls first, calls through that null pointer, which
    is undefined and no reported error. *)
Theorem unresolved_entry_point_is_called
    (name : string) (f : PyCFunction) (doc : string) (sig : list kind)
    (entry : string) (slot : NsLibrary W → option (symbol W))
    (p : addr) (rest : list PyObject) (s : state W) (lib : NsLibrary W) :
  (name, f, doc) ∈ NativeMethods →
  (name, sig) ∈ signatures →
  (name, entry) ∈ first_call →
  (entry, slot) ∈ entry_points →
  well_typed sig (PyCObject p :: rest) = true →
  heap s !! p = Some (BLib lib) →
  slot lib = None →
  f (PyCObject p :: rest) s = Undefined.
Proof.
  unfold NativeMethods, signatures, first_call, entry_points.
  intros Hin Hsig Hfirst Hentry Hty Hp Hnull.
  repeat (apply elem_of_cons in Hin as [Hin | Hin];
          [injection Hin as -> -> ->;
           repeat (apply elem_of_cons in Hsig as [Heq | Hsig];
                   [try discriminate Heq; injection Heq as ->|]);
           try (by apply elem_of_nil in Hsig);
           repeat (apply elem_of_cons in Hfirst as [Heq | Hfirst];
                   [try discriminate Heq; injection Heq as ->|]);
           try (by apply elem_of_nil in Hfirst);
           repeat (apply elem_of_cons in Hentry as [Heq | Hentry];
                   [try discriminate Heq; injection Heq as ->|]);
           try (by apply elem_of_nil in Hentry);
           first [ by eapply do_get_library_info_null | by eapply do_open_file_null
                 | by eapply do_close_file_null | by eapply do_get_entity_info_null
                 | by eapply do_get_event_data_null | by eapply do_get_analog_data_null
                 | by eapply do_get_segment_data_null | by eapply do_get_neural_data_null
                 | by eapply do_get_time_by_index_null
                 | by eapply do_get_index_by_time_null ]|]).
  by apply elem_of_nil in Hin.
Qed.

End NullPointerCalls.

(** ** Library information, files, time and index *)

Section FileCalls.
Context {W : Type} `{nsAPItypes} `{Vendor W}.

Lemma call_routine_Done {A}
    (pointer : option (symbol W)) (typed : routine W → option (native W A))
    (r : routine W) (f : native W A) (s : state W) res (out : A) (w : W) :
  routine_behind pointer = Some r →
  typed r = Some f →
  f (world s) = (res, out, w) →
  call_routine pointer typed s = Done (res, out) (mkState (heap s) (pyerr s) w).
Proof.
  unfold routine_behind, call_routine. destruct pointer as [[]|]; try done.
  intros -> Hf Hcall. cbn. rewrite Hf. by apply call_native_Done.
Qed.

Lemma PyString_FromString_Done (sz : list byte) (s : state W) :
  is_Some (c_str sz) → PyString_FromString sz s = Done (PyString (c_string sz)) s.
Proof.
  intros [bs Hbs]. unfold PyString_FromString, c_string. by rewrite Hbs.
Qed.

(** What follows a vendor call made in state [s] that left the world
    [w1]: the rest of the function if the status is [ns_OK], and else the
    failure with the vendor's text. *)
Lemma check_then (res : ns_RESULT) (lib : NsLibrary W) (s : state W) (w1 : W)
    (k : M W (option PyObject)) :
  (err ← check_result_is_error res lib; if err : bool then mret None else k)
    (mkState (heap s) (pyerr s) w1)
  = if bool_decide (res = ns_OK) then k (mkState (heap s) (pyerr s) w1)
    else failed s lib w1.
Proof.
  case_bool_decide as Hres.
  - subst res. by erewrite bind_Done by apply check_result_is_error_OK.
  - unfold failed. destruct (vendor_error_text lib w1) as [[msg w2]|] eqn:Htext.
    + by erewrite bind_Done by (by apply check_result_is_error_text).
    + by erewrite bind_Undefined by (by apply check_result_is_error_no_text).
Qed.

Lemma do_close_file_outcome p fid (s : state W) (lib : NsLibrary W) f res w1 :
  heap s !! p = Some (BLib lib) →
  routine_behind (CloseFile lib) = Some (ns_CloseFile f) →
  f (u32 fid) (world s) = (res, (), w1) →
  do_close_file [PyCObject p; PyInt fid] s
  = if bool_decide (res = ns_OK) then Done (Some Py_None) (mkState (heap s) (pyerr s) w1)
    else failed s lib w1.
Proof.
  intros Hp Hf Hcall. unfold do_close_file.
  cbn [PyCObject_Check PyInt_Check negb orb PyInt_AsUnsignedLongMask].
  rewrite (PyCObject_AsVoidPtr_Done p lib s _ Hp).
  unfold call_CloseFile.
  erewrite bind_Done by (by eapply call_routine_Done).
  cbv beta iota. apply check_then.
Qed.

Lemma do_get_time_by_index_outcome
    p fid eid idx (s : state W) (lib : NsLibrary W) f res t w1 :
  heap s !! p = Some (BLib lib) →
  routine_behind (GetTimeByIndex lib) = Some (ns_GetTimeByIndex f) →
  f (u32 fid) (u32 eid) (u32 idx) (world s) = (res, t, w1) →
  do_get_time_by_index [PyCObject p; PyInt fid; PyInt eid; PyInt idx] s
  = if bool_decide (res = ns_OK)
    then Done (Some (PyFloat t)) (mkState (heap s) (pyerr s) w1)
    else failed s lib w1.
Proof.
  intros Hp Hf Hcall. unfold do_get_time_by_index.
  cbn [PyCObject_Check PyInt_Check negb orb PyInt_AsUnsignedLongMask].
  rewrite (PyCObject_AsVoidPtr_Done p lib s _ Hp).
  unfold call_GetTimeByIndex.
  erewrite bind_Done by (by eapply call_routine_Done).
  cbv beta iota. apply check_then.
Qed.

Lemma do_get_index_by_time_outcome
    p fid eid t flags (s : state W) (lib : NsLibrary W) f res idx w1 :
  heap s !! p = Some (BLib lib) →
  routine_behind (GetIndexByTime lib) = Some (ns_GetIndexByTime f) →
  f (u32 fid) (u32 eid) t (u32 flags) (world s) = (res, idx, w1) →
  do_get_index_by_time [PyCObject p; PyInt fid; PyInt eid; PyFloat t; PyInt flags] s
  = if bool_decide (res = ns_OK)
    then Done (Some (PyInt (u32 idx))) (mkState (heap s) (pyerr s) w1)
    else failed s lib w1.
Proof.
  intros Hp Hf Hcall. unfold do_get_index_by_time.
  cbn [PyCObject_Check PyInt_Check PyFloat_Check negb orb PyInt_AsUnsignedLongMask
       PyFloat_AsDouble].
  rewrite (PyCObject_AsVoidPtr_Done p lib s _ Hp).
  unfold call_GetIndexByTime.
  erewrite bind_Done by (by eapply call_routine_Done).
  cbv beta iota. rewrite PyInt_FromLong_u32. apply check_then.
Qed.

(** X9. What [_close_file], [_get_time_by_index] and [_get_index_by_time]
    come to, for a live handle and resolved entry points: the vendor is
    called once with the ids reduced modulo 2^32; on [ns_OK] the result is
    [None] (the object), the time as the float the vendor gave, and the
    index as an int below 2^32; on any other status the call fails with
    the vendor's text. *)
Theorem file_and_time_calls_outcome
    (p : addr) (s : state W) (lib : NsLibrary W) (fid : Z) :
  heap s !! p = Some (BLib lib) →
  (∀ f res w1,
     routine_behind (CloseFile lib) = Some (ns_CloseFile f) →
     f (u32 fid) (world s) = (res, (), w1) →
     do_close_file [PyCObject p; PyInt fid] s
     = if bool_decide (res = ns_OK)
       then Done (Some Py_None) (mkState (heap s) (pyerr s) w1)
       else failed s lib w1)
  ∧ (∀ eid idx f res t w1,
     routine_behind (GetTimeByIndex lib) = Some (ns_GetTimeByIndex f) →
     f (u32 fid) (u32 eid) (u32 idx) (world s) = (res, t, w1) →
     do_get_time_by_index [PyCObject p; PyInt fid; PyInt eid; PyInt idx] s
     = if bool_decide (res = ns_OK)
       then Done (Some (PyFloat t)) (mkState (heap s) (pyerr s) w1)
       else failed s lib w1)
  ∧ (∀ eid t flags f res idx w1,
     routine_behind (GetIndexByTime lib) = Some (ns_GetIndexByTime f) →
     f (u32 fid) (u32 eid) t (u32 flags) (world s) = (res, idx, w1) →
     do_get_index_by_time [PyCObject p; PyInt fid; PyInt eid; PyFloat t; PyInt flags] s
     = (if bool_decide (res = ns_OK)
        then Done (Some (PyInt (u32 idx))) (mkState (heap s) (pyerr s) w1)
        else failed s lib w1)
     ∧ 0 ≤ u32 idx < 2 ^ 32).
Proof.
  intros Hp. split; [|split].
  - intros. by eapply do_close_file_outcome.
  - intros. by eapply do_get_time_by_index_outcome.
  - intros. split; [by eapply do_get_index_by_time_outcome | apply u32_range].
Qed.

(** X10. [_get_library_info] returns, when [ns_GetLibraryInfo] reports
    [ns_OK], a dict of exactly the ten items of the library record (the two
    texts cut at their first NUL, the eight numbers as ints), and fails with
    the vendor's text on any other status. *)
Theorem library_info_outcome p (s : state W) (lib : NsLibrary W) f res info w1 :
  heap s !! p = Some (BLib lib) →
  routine_behind (GetLibraryInfo lib) = Some (ns_GetLibraryInfo f) →
  f (world s) = (res, info, w1) →
  is_Some (c_str (ns_LIBRARYINFO.szDescription info)) →
  is_Some (c_str (ns_LIBRARYINFO.szCreator info)) →
  do_get_library_info [PyCObject p] s
  = if bool_decide (res = ns_OK)
    then Done (Some (PyDict (LibraryInfoDescriptor info))) (mkState (heap s) (pyerr s) w1)
    else failed s lib w1.
Proof.
  intros Hp Hf Hcall Hdesc Hcreator. unfold do_get_library_info.
  cbn [PyCObject_Check negb].
  rewrite (PyCObject_AsVoidPtr_Done p lib s _ Hp).
  unfold call_GetLibraryInfo.
  erewrite bind_Done by (by eapply call_routine_Done).
  cbv beta iota. rewrite check_then. case_bool_decide; [|done].
  erewrite bind_Done by (by apply PyString_FromString_Done).
  erewrite bind_Done by (by apply PyString_FromString_Done).
  rewrite !PyInt_FromLong_u32. reflexivity.
Qed.

(** The dict [get_and_add_file_info] makes of an empty one. *)
Lemma get_and_add_file_info_outcome
    (lib : NsLibrary W) (fid : uint32) (s : state W) f res info w1 :
  routine_behind (GetFileInfo lib) = Some (ns_GetFileInfo f) →
  f fid (world s) = (res, info, w1) →
  is_Some (c_str (ns_FILEINFO.szFileType info)) →
  is_Some (c_str (ns_FILEINFO.szAppName info)) →
  is_Some (c_str (ns_FILEINFO.szFileComment info)) →
  get_and_add_file_info lib fid ∅ s
  = Done (res, if bool_decide (res = ns_OK) then FileInfoDescriptor info else ∅)
      (mkState (heap s) (pyerr s) w1).
Proof.
  intros Hf Hcall Htype Happ Hcomment. unfold get_and_add_file_info, call_GetFileInfo.
  erewrite bind_Done by (by eapply call_routine_Done).
  cbv beta iota. case_bool_decide as Hres.
  - rewrite (proj2 (Z.eqb_eq _ _) Hres). cbn [negb].
    erewrite bind_Done by (by apply PyString_FromString_Done).
    erewrite bind_Done by (by apply PyString_FromString_Done).
    erewrite bind_Done by (by apply PyString_FromString_Done).
    rewrite !PyInt_FromLong_u32. reflexivity.
  - by rewrite (proj2 (Z.eqb_neq _ _) Hres).
Qed.

End FileCalls.

Section OpenFile.
Context {W : Type} `{nsAPItypes} `{Vendor W}.

Lemma check_then_negb (res : ns_RESULT) (lib : NsLibrary W) (s : state W) (w1 : W)
    (k : M W (option PyObject)) :
  (err ← check_result_is_error res lib; if negb err then k else mret None)
    (mkState (heap s) (pyerr s) w1)
  = if bool_decide (res = ns_OK) then k (mkState (heap s) (pyerr s) w1)
    else failed s lib w1.
Proof.
  case_bool_decide as Hres.
  - subst res. by erewrite bind_Done by apply check_result_is_error_OK.
  - unfold failed. destruct (vendor_error_text lib w1) as [[msg w2]|] eqn:Htext.
    + by erewrite bind_Done by (by apply check_result_is_error_text).
    + by erewrite bind_Undefined by (by apply check_result_is_error_no_text).
Qed.

Lemma do_open_file_not_opened
    p filename (s : state W) (lib : NsLibrary W) fo res id w1 :
  heap s !! p = Some (BLib lib) →
  is_c_string filename = true →
  routine_behind (OpenFile lib) = Some (ns_OpenFile fo) →
  fo filename (world s) = (res, id, w1) →
  res ≠ ns_OK →
  do_open_file [PyCObject p; PyString filename] s = failed s lib w1.
Proof.
  intros Hp Hname Hfo Hopen Hres. unfold do_open_file.
  rewrite Hname. cbn [PyCObject_Check negb].
  rewrite (PyCObject_AsVoidPtr_Done p lib s _ Hp).
  unfold call_OpenFile.
  erewrite bind_Done by (by eapply call_routine_Done).
  cbv beta iota zeta. rewrite (proj2 (Z.eqb_neq _ _) Hres).
  erewrite bind_Done by reflexivity. cbv beta iota.
  rewrite check_then_negb. by rewrite bool_decide_eq_false_2.
Qed.

Lemma do_open_file_opened
    p filename (s : state W) (lib : NsLibrary W) fo id w1 fi res info w2 :
  heap s !! p = Some (BLib lib) →
  is_c_string filename = true →
  routine_behind (OpenFile lib) = Some (ns_OpenFile fo) →
  fo filename (world s) = (ns_OK, id, w1) →
  routine_behind (GetFileInfo lib) = Some (ns_GetFileInfo fi) →
  fi (u32 id) w1 = (res, info, w2) →
  is_Some (c_str (ns_FILEINFO.szFileType info)) →
  is_Some (c_str (ns_FILEINFO.szAppName info)) →
  is_Some (c_str (ns_FILEINFO.szFileComment info)) →
  do_open_file [PyCObject p; PyString filename] s
  = if bool_decide (res = ns_OK)
    then Done (Some (PyTuple [PyInt (u32 id); PyDict (FileInfoDescriptor info)]))
           (mkState (heap s) (pyerr s) w2)
    else failed s lib w2.
Proof.
  intros Hp Hname Hfo Hopen Hfi Hinfo Htype Happ Hcomment. unfold do_open_file.
  rewrite Hname. cbn [PyCObject_Check negb].
  rewrite (PyCObject_AsVoidPtr_Done p lib s _ Hp).
  unfold call_OpenFile.
  erewrite bind_Done by (by eapply call_routine_Done).
  cbv beta iota zeta. rewrite Z.eqb_refl.
  erewrite bind_Done.
  2: { erewrite bind_Done by (by eapply (get_and_add_file_info_outcome lib (u32 id)
                                          (mkState (heap s) (pyerr s) w1))).
       reflexivity. }
  cbv beta iota. cbn [heap pyerr].
  rewrite (check_then_negb res lib s w2). case_bool_decide; [|done].
  erewrite bind_Done by reflexivity. by rewrite PyInt_FromLong_u32.
Qed.

(** X11. [_open_file] on a file the vendor opens and describes returns
    the pair of the file id, as an int below 2^32, and the dict of the
    thirteen items of the file record; the file info is asked for the id
    that [ns_OpenFile] gave, in the world that call left. *)
Theorem open_file_returns_id_and_file_info
    p filename (s : state W) (lib : NsLibrary W) fo id w1 fi info w2 :
  heap s !! p = Some (BLib lib) →
  is_c_string filename = true →
  routine_behind (OpenFile lib) = Some (ns_OpenFile fo) →
  fo filename (world s) = (ns_OK, id, w1) →
  routine_behind (GetFileInfo lib) = Some (ns_GetFileInfo fi) →
  fi (u32 id) w1 = (ns_OK, info, w2) →
  is_Some (c_str (ns_FILEINFO.szFileType info)) →
  is_Some (c_str (ns_FILEINFO.szAppName info)) →
  is_Some (c_str (ns_FILEINFO.szFileComment info)) →
  do_open_file [PyCObject p; PyString filename] s
  = Done (Some (PyTuple [PyInt (u32 id); PyDict (FileInfoDescriptor info)]))
      (mkState (heap s) (pyerr s) w2).
Proof.
  intros. erewrite do_open_file_opened by done. by rewrite bool_decide_eq_true_2.
Qed.

(** X12. [_open_file] fails with the vendor's text when [ns_OpenFile]
    does not report [ns_OK], without asking for the file info; and also
    when the file was opened and [ns_GetFileInfo] does not report [ns_OK]:
    then the file stays open at the vendor's ([ns_CloseFile] is not called,
    whatever it is) and its id does not reach the caller. *)
Theorem open_file_failures
    p filename (s : state W) (lib : NsLibrary W) fo res id w1 :
  heap s !! p = Some (BLib lib) →
  is_c_string filename = true →
  routine_behind (OpenFile lib) = Some (ns_OpenFile fo) →
  fo filename (world s) = (res, id, w1) →
  (res ≠ ns_OK → do_open_file [PyCObject p; PyString filename] s = failed s lib w1)
  ∧ (res = ns_OK →
     ∀ fi res' info w2,
       routine_behind (GetFileInfo lib) = Some (ns_GetFileInfo fi) →
       fi (u32 id) w1 = (res', info, w2) →
       res' ≠ ns_OK →
       do_open_file [PyCObject p; PyString filename] s = failed s lib w2).
Proof.
  intros Hp Hname Hfo Hopen. split.
  - intros Hres. by eapply do_open_file_not_opened.
  - intros -> fi res' info w2 Hfi Hinfo Hres'. unfold do_open_file.
    rewrite Hname. cbn [PyCObject_Check negb].
    rewrite (PyCObject_AsVoidPtr_Done p lib s _ Hp).
    unfold call_OpenFile.
    erewrite bind_Done by (by eapply call_routine_Done).
    cbv beta iota zeta. rewrite Z.eqb_refl.
    unfold get_and_add_file_info, call_GetFileInfo.
    erewrite bind_Done.
    2: { erewrite bind_Done.
         2: { erewrite bind_Done by (by eapply call_routine_Done).
              cbv beta iota. rewrite (proj2 (Z.eqb_neq _ _) Hres'). reflexivity. }
         reflexivity. }
    cbv beta iota. cbn [heap pyerr].
    rewrite (check_then_negb res' lib s w2). by rewrite bool_decide_eq_false_2.
Qed.

End OpenFile.

(** ** Opening and closing a library, once more *)

Section LibraryFailures.
Context {W : Type} `{Loader W}.

(** X13. When [dlopen] cannot load the library, [library_open] returns
    [NULL] with a [PgError] whose text is [Could not load library: ]
    followed by the text of [dlerror]; nothing is allocated. *)
Theorem library_open_reports_the_loader_error
    (filename : string) (s : state W) (w1 : W) (msg : string) (w2 : W) :
  is_c_string filename = true →
  dlopen filename RTLD_NOW (world s) = (None, w1) →
  dlerror w1 = (msg, w2) →
  library_open [PyString filename] s
  = Done None (mkState (heap s) (Some (PgError, Some ("Could not load library: " +:+ msg))) w2).
Proof.
  intros Hname Hopen Herr. unfold library_open. rewrite Hname. cbn [negb].
  erewrite bind_Done by (by apply call_loader_Done).
  cbv beta iota.
  erewrite bind_Done by (by apply call_loader_Done).
  reflexivity.
Qed.

Lemma library_close_outcome p (s : state W) (lib : NsLibrary W) res w1 :
  heap s !! p = Some (BLib lib) →
  dlclose (dl_handle lib) (world s) = (res, w1) →
  library_close [PyCObject p] s
  = if bool_decide (res = 0)
    then Done (Some Py_None) (mkState (delete p (heap s)) (pyerr s) w1)
    else let '(msg, w2) := dlerror w1 in
         Done None (mkState (heap s)
                      (Some (PgError, Some ("Could not load library: " +:+ msg))) w2).
Proof.
  intros Hp Hclose. unfold library_close. cbn [PyCObject_Check negb].
  rewrite (PyCObject_AsVoidPtr_Done p lib s _ Hp).
  erewrite bind_Done by (by apply call_loader_Done).
  case_bool_decide as Hres.
  - subst res. cbn [Z.eqb negb].
    unfold free, mbind, M_bind, mret, M_ret. cbn [heap pyerr world]. by rewrite Hp.
  - rewrite (proj2 (Z.eqb_neq _ _) Hres). cbn [negb].
    destruct (dlerror w1) as [msg w2] eqn:Herr.
    erewrite bind_Done by (by apply call_loader_Done).
    reflexivity.
Qed.

(** X14. When [dlclose] reports a failure, [library_close] returns [NULL]
    with a [PgError] whose text is [Could not load library: ] (sic)
    followed by the text of [dlerror], and does not release the record: the
    heap is as before the call, so the handle is still good. *)
Theorem library_close_failure_keeps_the_record
    p (s : state W) (lib : NsLibrary W) res w1 msg w2 :
  heap s !! p = Some (BLib lib) →
  dlclose (dl_handle lib) (world s) = (res, w1) →
  res ≠ 0 →
  dlerror w1 = (msg, w2) →
  library_close [PyCObject p] s
  = Done None (mkState (heap s) (Some (PgError, Some ("Could not load library: " +:+ msg))) w2).
Proof.
  intros Hp Hclose Hres Herr. erewrite library_close_outcome by done.
  by rewrite bool_decide_eq_false_2, Herr.
Qed.

(** X15. Closing the handle of a successful [library_open] at once
    always completes, in one of two ways: [library_close] returns [None]
    (the object), and then the C heap and the error indicator are as they
    were before [library_open]; or it fails with a [PgError], and then the
    heap is as [library_open] left it. *)
Theorem open_then_close_restores_the_heap
    (filename : string) (s s1 : state W) (h : PyObject) :
  library_open [PyString filename] s = Done (Some h) s1 →
  ∃ r s2,
    library_close [h] s1 = Done r s2
    ∧ ((r = Some Py_None ∧ heap s2 = heap s ∧ pyerr s2 = pyerr s)
       ∨ (r = None ∧ heap s2 = heap s1 ∧ ∃ msg, pyerr s2 = Some (PgError, Some msg))).
Proof.
  intros (p & lib & w1 & -> & Hp & ->)%library_open_inv.
  destruct (dlclose (dl_handle lib) w1) as [res w2] eqn:Hclose.
  erewrite library_close_outcome; [|cbn [heap]; apply lookup_insert_eq|exact Hclose].
  cbn [heap pyerr]. case_bool_decide.
  - eexists _, _. split; [done|]. left. cbn [heap pyerr].
    by rewrite delete_insert_eq, delete_id.
  - destruct (dlerror w2) as [msg w3]. eexists _, _. split; [done|].
    right. cbn [heap pyerr]. eauto.
Qed.

End LibraryFailures.

(** ** Entity information by entity type *)

(** Items set one after the other in a dict are a dict of their own laid
    over it. *)
Ltac over_empty dict :=
  unfold dict_set_item_eat_ref;
  lazymatch goal with
  | |- ?items = _ ∪ dict =>
      let e := eval pattern dict in items in
      lazymatch e with
      | ?set_items _ =>
          transitivity (set_items ∅ ∪ dict);
          [ cbv beta; rewrite <- !insert_union_l, (left_id_L ∅ (∪)); reflexivity
          | f_equal; reflexivity ]
      end
  end.

Section EntityTypes.
Context {W : Type} `{nsAPItypes}.

(** The labels of the [switch] over the entity type, told apart. *)
Lemma entity_labels_apart :
  ns_ENTITY_ANALOG ≠ ns_ENTITY_EVENT
  ∧ ns_ENTITY_SEGMENT ≠ ns_ENTITY_EVENT ∧ ns_ENTITY_SEGMENT ≠ ns_ENTITY_ANALOG
  ∧ ns_ENTITY_NEURALEVENT ≠ ns_ENTITY_EVENT ∧ ns_ENTITY_NEURALEVENT ≠ ns_ENTITY_ANALOG
  ∧ ns_ENTITY_NEURALEVENT ≠ ns_ENTITY_SEGMENT.
Proof.
  pose proof ns_ENTITY_labels as Hnd.
  rewrite !NoDup_cons in Hnd. rewrite !not_elem_of_cons in Hnd.
  destruct Hnd as ((?&?&?&_) & (?&?&_) & (?&_) & _). split_and!; congruence.
Qed.

(** [do_get_entity_info] up to the [switch]: the generic part of the dict
    is made, and the rest depends on the entity type. *)
Lemma do_get_entity_info_generic
    p fid eid (s : state W) (lib : NsLibrary W) ge einfo w0 :
  heap s !! p = Some (BLib lib) →
  GetEntityInfo lib = Some (ns_GetEntityInfo ge) →
  ge (u32 fid) (u32 eid) (world s) = (ns_OK, einfo, w0) →
  is_Some (c_str (ns_ENTITYINFO.szEntityLabel einfo)) →
  do_get_entity_info [PyCObject p; PyInt fid; PyInt eid] s
  = ('(res, dict) ←
       (let dwEntityType := u32 (ns_ENTITYINFO.dwEntityType einfo) in
        if dwEntityType =? ns_ENTITY_EVENT then
          get_and_add_event_info lib (u32 fid) (u32 eid) (EntityInfoDescriptor einfo)
        else if dwEntityType =? ns_ENTITY_ANALOG then
          get_and_add_analog_info lib (u32 fid) (u32 eid) (EntityInfoDescriptor einfo)
        else if dwEntityType =? ns_ENTITY_SEGMENT then
          get_and_add_segment_info lib (u32 fid) (u32 eid) (EntityInfoDescriptor einfo)
        else if dwEntityType =? ns_ENTITY_NEURALEVENT then
          get_and_add_neural_info lib (u32 fid) (u32 eid) (EntityInfoDescriptor einfo)
        else mret (ns_OK, EntityInfoDescriptor einfo));
     err ← check_result_is_error res lib;
     if err : bool then mret None else mret (Some (PyDict dict)))
      (mkState (heap s) (pyerr s) w0).
Proof.
  intros Hp Hge Hcall Hlabel. etrans.
  { unfold do_get_entity_info.
    cbn [PyCObject_Check PyInt_Check negb orb PyInt_AsUnsignedLongMask].
    rewrite (PyCObject_AsVoidPtr_Done p lib s _ Hp).
    unfold call_GetEntityInfo. rewrite Hge.
    erewrite bind_Done by (by apply call_native_Done).
    cbv beta iota.
    erewrite bind_Done by apply check_result_is_error_OK.
    cbv beta iota.
    erewrite bind_Done by (by apply PyString_FromString_Done).
    rewrite !PyInt_FromLong_u32. reflexivity. }
  reflexivity.
Qed.

(** X16. An entity whose type is none of Event, Analog, Segment and
    Neural is no error: the [switch] has no default, so [_get_entity_info]
    returns the dict of the three generic items alone, after the one call
    of [ns_GetEntityInfo]. *)
Theorem entity_info_of_unknown_type
    p fid eid (s : state W) (lib : NsLibrary W) ge einfo w0 :
  heap s !! p = Some (BLib lib) →
  GetEntityInfo lib = Some (ns_GetEntityInfo ge) →
  ge (u32 fid) (u32 eid) (world s) = (ns_OK, einfo, w0) →
  is_Some (c_str (ns_ENTITYINFO.szEntityLabel einfo)) →
  u32 (ns_ENTITYINFO.dwEntityType einfo)
    ∉ [ns_ENTITY_EVENT; ns_ENTITY_ANALOG; ns_ENTITY_SEGMENT; ns_ENTITY_NEURALEVENT] →
  do_get_entity_info [PyCObject p; PyInt fid; PyInt eid] s
  = Done (Some (PyDict (EntityInfoDescriptor einfo))) (mkState (heap s) (pyerr s) w0).
Proof.
  intros Hp Hge Hcall Hlabel Htype.
  rewrite (do_get_entity_info_generic p fid eid s lib ge einfo w0) by done.
  rewrite !not_elem_of_cons in Htype. destruct Htype as (He & Ha & Hs & Hn & _).
  cbv zeta.
  rewrite (proj2 (Z.eqb_neq _ _) He), (proj2 (Z.eqb_neq _ _) Ha),
    (proj2 (Z.eqb_neq _ _) Hs), (proj2 (Z.eqb_neq _ _) Hn).
  erewrite bind_Done by reflexivity. cbv beta iota.
  by erewrite bind_Done by apply check_result_is_error_OK.
Qed.

Lemma get_and_add_event_info_outcome
    (lib : NsLibrary W) (fid eid : uint32) dict (s : state W) f res info w1 :
  GetEventInfo lib = Some (ns_GetEventInfo f) →
  f fid eid (world s) = (res, info, w1) →
  is_Some (c_str (ns_EVENTINFO.szCSVDesc info)) →
  get_and_add_event_info lib fid eid dict s
  = Done (res, if bool_decide (res = ns_OK) then EventInfoDescriptor info ∪ dict else dict)
      (mkState (heap s) (pyerr s) w1).
Proof.
  intros Hf Hcall Hdesc. unfold get_and_add_event_info, call_GetEventInfo. rewrite Hf.
  erewrite bind_Done by (by apply call_native_Done).
  cbv beta iota. case_bool_decide as Hres.
  - rewrite (proj2 (Z.eqb_eq _ _) Hres). cbn [negb].
    erewrite bind_Done by (by apply PyString_FromString_Done).
    rewrite !PyInt_FromLong_u32. subst res. do 2 f_equal. over_empty dict.
  - by rewrite (proj2 (Z.eqb_neq _ _) Hres).
Qed.

Lemma get_and_add_neural_info_outcome
    (lib : NsLibrary W) (fid eid : uint32) dict (s : state W) f res info w1 :
  GetNeuralInfo lib = Some (ns_GetNeuralInfo f) →
  f fid eid (world s) = (res, info, w1) →
  is_Some (c_str (ns_NEURALINFO.szProbeInfo info)) →
  get_and_add_neural_info lib fid eid dict s
  = Done (res, if bool_decide (res = ns_OK) then NeuralInfoDescriptor info ∪ dict else dict)
      (mkState (heap s) (pyerr s) w1).
Proof.
  intros Hf Hcall Hdesc. unfold get_and_add_neural_info, call_GetNeuralInfo. rewrite Hf.
  erewrite bind_Done by (by apply call_native_Done).
  cbv beta iota. case_bool_decide as Hres.
  - rewrite (proj2 (Z.eqb_eq _ _) Hres). cbn [negb].
    erewrite bind_Done by (by apply PyString_FromString_Done).
    rewrite !PyInt_FromLong_u32. subst res. do 2 f_equal. over_empty dict.
  - by rewrite (proj2 (Z.eqb_neq _ _) Hres).
Qed.

Lemma get_and_add_analog_info_outcome
    (lib : NsLibrary W) (fid eid : uint32) dict (s : state W) f res info w1 :
  GetAnalogInfo lib = Some (ns_GetAnalogInfo f) →
  f fid eid (world s) = (res, info, w1) →
  is_Some (c_str (ns_ANALOGINFO.szUnits info)) →
  is_Some (c_str (ns_ANALOGINFO.szHighFilterType info)) →
  is_Some (c_str (ns_ANALOGINFO.szLowFilterType info)) →
  is_Some (c_str (ns_ANALOGINFO.szProbeInfo info)) →
  get_and_add_analog_info lib fid eid dict s
  = Done (res, if bool_decide (res = ns_OK) then AnalogInfoDescriptor info ∪ dict else dict)
      (mkState (heap s) (pyerr s) w1).
Proof.
  intros Hf Hcall Hunits Hhigh Hlow Hprobe.
  unfold get_and_add_analog_info, call_GetAnalogInfo. rewrite Hf.
  erewrite bind_Done by (by apply call_native_Done).
  cbv beta iota. case_bool_decide as Hres.
  - rewrite (proj2 (Z.eqb_eq _ _) Hres). cbn [negb].
    erewrite bind_Done by (by apply PyString_FromString_Done).
    erewrite bind_Done by (by apply PyString_FromString_Done).
    erewrite bind_Done by (by apply PyString_FromString_Done).
    erewrite bind_Done by (by apply PyString_FromString_Done).
    rewrite !PyInt_FromLong_u32. subst res. do 2 f_equal. over_empty dict.
  - by rewrite (proj2 (Z.eqb_neq _ _) Hres).
Qed.


(** X17. [_get_entity_info] for an Event, Analog or Neural entity asks
    the entry point of that type, in the world [ns_GetEntityInfo] left, and
    returns on [ns_OK] the items of its record laid over the three generic
    items (the units of an Analog entity under the key [zUnits]); on any
    other status it fails with the vendor's text and the dict made so far
    is dropped. *)
Theorem entity_info_by_type
    p fid eid (s : state W) (lib : NsLibrary W) ge einfo w0 :
  heap s !! p = Some (BLib lib) →
  GetEntityInfo lib = Some (ns_GetEntityInfo ge) →
  ge (u32 fid) (u32 eid) (world s) = (ns_OK, einfo, w0) →
  is_Some (c_str (ns_ENTITYINFO.szEntityLabel einfo)) →
  (u32 (ns_ENTITYINFO.dwEntityType einfo) = ns_ENTITY_EVENT →
   ∀ f res info w1,
     GetEventInfo lib = Some (ns_GetEventInfo f) →
     f (u32 fid) (u32 eid) w0 = (res, info, w1) →
     is_Some (c_str (ns_EVENTINFO.szCSVDesc info)) →
     do_get_entity_info [PyCObject p; PyInt fid; PyInt eid] s
     = if bool_decide (res = ns_OK)
       then Done (Some (PyDict (EventInfoDescriptor info ∪ EntityInfoDescriptor einfo)))
              (mkState (heap s) (pyerr s) w1)
       else failed s lib w1)
  ∧ (u32 (ns_ENTITYINFO.dwEntityType einfo) = ns_ENTITY_ANALOG →
   ∀ f res info w1,
     GetAnalogInfo lib = Some (ns_GetAnalogInfo f) →
     f (u32 fid) (u32 eid) w0 = (res, info, w1) →
     is_Some (c_str (ns_ANALOGINFO.szUnits info)) →
     is_Some (c_str (ns_ANALOGINFO.szHighFilterType info)) →
     is_Some (c_str (ns_ANALOGINFO.szLowFilterType info)) →
     is_Some (c_str (ns_ANALOGINFO.szProbeInfo info)) →
     do_get_entity_info [PyCObject p; PyInt fid; PyInt eid] s
     = if bool_decide (res = ns_OK)
       then Done (Some (PyDict (AnalogInfoDescriptor info ∪ EntityInfoDescriptor einfo)))
              (mkState (heap s) (pyerr s) w1)
       else failed s lib w1)
  ∧ (u32 (ns_ENTITYINFO.dwEntityType einfo) = ns_ENTITY_NEURALEVENT →
   ∀ f res info w1,
     GetNeuralInfo lib = Some (ns_GetNeuralInfo f) →
     f (u32 fid) (u32 eid) w0 = (res, info, w1) →
     is_Some (c_str (ns_NEURALINFO.szProbeInfo info)) →
     do_get_entity_info [PyCObject p; PyInt fid; PyInt eid] s
     = if bool_decide (res = ns_OK)
       then Done (Some (PyDict (NeuralInfoDescriptor info ∪ EntityInfoDescriptor einfo)))
              (mkState (heap s) (pyerr s) w1)
       else failed s lib w1).
Proof.
  intros Hp Hge Hcall Hlabel.
  destruct entity_labels_apart as (Hae & Hse & Hsa & Hne & Hna & Hns).
  split; [|split]; intros Htype f res info w1 Hf Hinfo; intros;
    rewrite (do_get_entity_info_generic p fid eid s lib ge einfo w0) by done;
    cbv zeta; rewrite Htype;
    rewrite ?Z.eqb_refl, ?(proj2 (Z.eqb_neq _ _) Hae), ?(proj2 (Z.eqb_neq _ _) Hne),
      ?(proj2 (Z.eqb_neq _ _) Hna), ?(proj2 (Z.eqb_neq _ _) Hns).
  - erewrite bind_Done
      by (by eapply (get_and_add_event_info_outcome lib _ _ _
                       (mkState (heap s) (pyerr s) w0))).
    cbv beta iota. cbn [heap pyerr]. rewrite check_then. by case_bool_decide.
  - erewrite bind_Done
      by (by eapply (get_and_add_analog_info_outcome lib _ _ _
                       (mkState (heap s) (pyerr s) w0))).
    cbv beta iota. cbn [heap pyerr]. rewrite check_then. by case_bool_decide.
  - erewrite bind_Done
      by (by eapply (get_and_add_neural_info_outcome lib _ _ _
                       (mkState (heap s) (pyerr s) w0))).
    cbv beta iota. cbn [heap pyerr]. rewrite check_then. by case_bool_decide.
Qed.

(** X18. When [ns_GetSegmentInfo] itself does not report [ns_OK],
    [_get_entity_info] for a Segment entity fails with the vendor's text;
    no source is asked for. *)
Theorem segment_info_failure_fails_the_query
    p fid eid (s : state W) (lib : NsLibrary W) ge einfo w0 f res info w1 :
  heap s !! p = Some (BLib lib) →
  GetEntityInfo lib = Some (ns_GetEntityInfo ge) →
  ge (u32 fid) (u32 eid) (world s) = (ns_OK, einfo, w0) →
  is_Some (c_str (ns_ENTITYINFO.szEntityLabel einfo)) →
  u32 (ns_ENTITYINFO.dwEntityType einfo) = ns_ENTITY_SEGMENT →
  GetSegmentInfo lib = Some (ns_GetSegmentInfo f) →
  f (u32 fid) (u32 eid) w0 = (res, info, w1) →
  res ≠ ns_OK →
  do_get_entity_info [PyCObject p; PyInt fid; PyInt eid] s = failed s lib w1.
Proof.
  intros Hp Hge Hcall Hlabel Htype Hf Hinfo Hres.
  destruct entity_labels_apart as (Hae & Hse & Hsa & Hne & Hna & Hns).
  rewrite (do_get_entity_info_generic p fid eid s lib ge einfo w0) by done.
  cbv zeta. rewrite Htype.
  rewrite Z.eqb_refl, (proj2 (Z.eqb_neq _ _) Hse), (proj2 (Z.eqb_neq _ _) Hsa).
  unfold get_and_add_segment_info, call_GetSegmentInfo. rewrite Hf.
  erewrite bind_Done.
  2: { erewrite bind_Done by (by apply call_native_Done).
       cbv beta iota. rewrite (proj2 (Z.eqb_neq _ _) Hres). reflexivity. }
  cbv beta iota. cbn [heap pyerr]. rewrite check_then.
  by rewrite bool_decide_eq_false_2.
Qed.

(** *** The keys of an entity dict *)

Lemma PyString_FromString_same (sz : list byte) (s s' : state W) (item : PyObject) :
  PyString_FromString sz s = Done item s' → s' = s.
Proof.
  unfold PyString_FromString. destruct (c_str sz); [|done]. by intros [_ <-]%ret_inv.
Qed.

Ltac strings_in Hrun :=
  repeat (let item := fresh "item" in
          apply bind_inv in Hrun as (item & ? & ?%PyString_FromString_same & Hrun);
          subst).

Ltac keys_of_items :=
  rewrite !dom_insert_L, dom_empty_L; apply (bool_decide_unpack _); vm_compute; exact I.

Lemma get_and_add_event_info_adds
    (lib : NsLibrary W) (fid eid : uint32) dict d (s s' : state W) :
  get_and_add_event_info lib fid eid dict s = Done (ns_OK, d) s' →
  ∃ items, d = items ∪ dict ∧ dom items = event_keys.
Proof.
  unfold get_and_add_event_info.
  intros ([res info] & s1 & _ & Hrun)%bind_inv.
  destruct (res =? ns_OK) eqn:Hres; cbn [negb] in Hrun.
  - strings_in Hrun. apply ret_inv in Hrun as [Heq%(f_equal snd) _].
    cbn [snd] in Heq. subst d. eexists. split; [over_empty dict|]. keys_of_items.
  - apply ret_inv in Hrun as [[= -> _] _]. by rewrite Z.eqb_refl in Hres.
Qed.

Lemma get_and_add_analog_info_adds
    (lib : NsLibrary W) (fid eid : uint32) dict d (s s' : state W) :
  get_and_add_analog_info lib fid eid dict s = Done (ns_OK, d) s' →
  ∃ items, d = items ∪ dict ∧ dom items = analog_keys.
Proof.
  unfold get_and_add_analog_info.
  intros ([res info] & s1 & _ & Hrun)%bind_inv.
  destruct (res =? ns_OK) eqn:Hres; cbn [negb] in Hrun.
  - strings_in Hrun. apply ret_inv in Hrun as [Heq%(f_equal snd) _].
    cbn [snd] in Heq. subst d. eexists. split; [over_empty dict|]. keys_of_items.
  - apply ret_inv in Hrun as [[= -> _] _]. by rewrite Z.eqb_refl in Hres.
Qed.

Lemma get_and_add_neural_info_adds
    (lib : NsLibrary W) (fid eid : uint32) dict d (s s' : state W) :
  get_and_add_neural_info lib fid eid dict s = Done (ns_OK, d) s' →
  ∃ items, d = items ∪ dict ∧ dom items = neural_keys.
Proof.
  unfold get_and_add_neural_info.
  intros ([res info] & s1 & _ & Hrun)%bind_inv.
  destruct (res =? ns_OK) eqn:Hres; cbn [negb] in Hrun.
  - strings_in Hrun. apply ret_inv in Hrun as [Heq%(f_equal snd) _].
    cbn [snd] in Heq. subst d. eexists. split; [over_empty dict|]. keys_of_items.
  - apply ret_inv in Hrun as [[= -> _] _]. by rewrite Z.eqb_refl in Hres.
Qed.

Lemma get_and_add_segment_info_adds
    (lib : NsLibrary W) (fid eid : uint32) dict d (s s' : state W) :
  get_and_add_segment_info lib fid eid dict s = Done (ns_OK, d) s' →
  ∃ items, d = items ∪ dict ∧ dom items = segment_keys.
Proof.
  unfold get_and_add_segment_info.
  intros ([res info] & s1 & _ & Hrun)%bind_inv.
  destruct (res =? ns_OK) eqn:Hres; cbn [negb] in Hrun.
  - strings_in Hrun. apply bind_inv in Hrun as (srcs & s2 & _ & Hrun).
    apply ret_inv in Hrun as [Heq%(f_equal snd) _].
    cbn [snd] in Heq. subst d. eexists. split; [over_empty dict|]. keys_of_items.
  - apply ret_inv in Hrun as [[= -> _] _]. by rewrite Z.eqb_refl in Hres.
Qed.

Lemma generic_keys_dom (einfo : ns_ENTITYINFO.t) :
  dom (EntityInfoDescriptor einfo) = generic_keys.
Proof.
  unfold EntityInfoDescriptor. cbn [list_to_map foldr uncurry fst snd].
  rewrite !dom_insert_L, dom_empty_L. apply (bool_decide_unpack _). vm_compute. exact I.
Qed.

Lemma specific_keys_apart (entity_type : uint32) : specific_keys entity_type ## generic_keys.
Proof.
  unfold specific_keys.
  repeat (destruct (_ =? _)); apply (bool_decide_unpack _); vm_compute; exact I.
Qed.

(** X19. The keys of the dict of a successful [_get_entity_info], for any
    vendor library: the three generic keys and the keys of the entity type
    (none for an unknown type), no more and no less; and the generic items
    are those of [ns_GetEntityInfo]: no type-specific item overwrites
    one. *)
Theorem entity_info_keys
    p fid eid (s s' : state W) (lib : NsLibrary W) ge r0 einfo w0 obj :
  heap s !! p = Some (BLib lib) →
  GetEntityInfo lib = Some (ns_GetEntityInfo ge) →
  ge (u32 fid) (u32 eid) (world s) = (r0, einfo, w0) →
  do_get_entity_info [PyCObject p; PyInt fid; PyInt eid] s = Done (Some obj) s' →
  ∃ d,
    obj = PyDict d
    ∧ dom d = generic_keys ∪ specific_keys (u32 (ns_ENTITYINFO.dwEntityType einfo))
    ∧ EntityInfoDescriptor einfo ⊆ d.
Proof.
  intros Hp Hge Hcall. unfold do_get_entity_info.
  cbn [PyCObject_Check PyInt_Check negb orb PyInt_AsUnsignedLongMask].
  rewrite (PyCObject_AsVoidPtr_Done p lib s _ Hp).
  unfold call_GetEntityInfo. rewrite Hge.
  erewrite bind_Done by (by apply call_native_Done).
  cbv beta iota zeta.
  intros (err & s1 & Hcheck & Hrun)%bind_inv.
  apply check_result_is_error_inv in Hcheck as [(-> & -> & ->) | (-> & _)];
    [|by apply ret_inv in Hrun as [? _]].
  apply bind_inv in Hrun as (item & s2 & [-> ->]%PyString_FromString_inv & Hrun).
  rewrite !PyInt_FromLong_u32 in Hrun.
  change (dict_set_item_eat_ref _ "ItemCount" _) with (EntityInfoDescriptor einfo) in Hrun.
  apply bind_inv in Hrun as ([r d] & s3 & Hinfo & Hrun).
  apply bind_inv in Hrun as (err & s4 & Hcheck & Hrun).
  apply check_result_is_error_inv in Hcheck as [(-> & -> & ->) | (-> & _)];
    [|by apply ret_inv in Hrun as [? _]].
  apply ret_inv in Hrun as [[= <-] _]. exists d. split; [done|].
  pose proof (specific_keys_apart (u32 (ns_ENTITYINFO.dwEntityType einfo))) as Hapart.
  assert (Hadds : ∃ items, d = items ∪ EntityInfoDescriptor einfo
            ∧ dom items = specific_keys (u32 (ns_ENTITYINFO.dwEntityType einfo))).
  { unfold specific_keys.
    destruct (_ =? ns_ENTITY_EVENT); [by eapply get_and_add_event_info_adds|].
    destruct (_ =? ns_ENTITY_ANALOG); [by eapply get_and_add_analog_info_adds|].
    destruct (_ =? ns_ENTITY_SEGMENT); [by eapply get_and_add_segment_info_adds|].
    destruct (_ =? ns_ENTITY_NEURALEVENT); [by eapply get_and_add_neural_info_adds|].
    apply ret_inv in Hinfo as [[= <-] _]. exists ∅.
    by rewrite (left_id_L ∅ (∪)), dom_empty_L. }
  destruct Hadds as (items & -> & Hdom). split.
  - rewrite dom_union_L, Hdom, generic_keys_dom. apply (comm_L (∪)).
  - apply map_union_subseteq_r, map_disjoint_dom.
    by rewrite Hdom, generic_keys_dom.
Qed.

End EntityTypes.

(** ** The text of a vendor error *)

Lemma Byte_eqb_x00 (b : byte) : Byte.eqb b x00 = bool_decide (b = x00).
Proof.
  case_bool_decide as Hb.
  - by apply Byte.byte_dec_lb.
  - destruct (Byte.eqb b x00) eqn:E; [|done]. by apply Byte.byte_dec_bl in E.
Qed.

Lemma c_str_up_to_nul (arr : list byte) :
  c_str arr = if bool_decide (x00 ∈ arr) then Some (up_to_nul arr) else None.
Proof.
  induction arr as [|b rest IH]; cbn [c_str up_to_nul].
  - rewrite bool_decide_eq_false_2; [done | apply not_elem_of_nil].
  - rewrite Byte_eqb_x00. destruct (decide (b = x00)) as [->|Hb].
    + rewrite !bool_decide_eq_true_2; [done | by left | done].
    + rewrite (bool_decide_eq_false_2 (b = x00)) by done. rewrite IH.
      destruct (decide (x00 ∈ rest)) as [Hrest|Hrest].
      * rewrite !bool_decide_eq_true_2; [done | by right | done].
      * rewrite !bool_decide_eq_false_2; [done | | done].
        rewrite elem_of_cons. intros [?|?]; congruence.
Qed.

Lemma up_to_nul_app_nul (l : list byte) (n : nat) :
  up_to_nul (l ++ replicate n x00) = up_to_nul l.
Proof.
  induction l as [|b rest IH]; cbn [app up_to_nul].
  - by destruct n.
  - by rewrite IH.
Qed.

Lemma up_to_nul_length (l : list byte) :
  (length (up_to_nul l) ≤ length l)%nat
  ∧ (x00 ∈ l → (length (up_to_nul l) < length l)%nat)
  ∧ x00 ∉ up_to_nul l.
Proof.
  induction l as [|b rest (IH1 & IH2 & IH3)]; cbn [up_to_nul length].
  - split; [lia|]. split; [by intros ?%elem_of_nil | apply not_elem_of_nil].
  - rewrite Byte_eqb_x00. destruct (decide (b = x00)) as [->|Hb].
    + rewrite bool_decide_eq_true_2 by done. cbn [length].
      split; [lia|]. split; [lia | apply not_elem_of_nil].
    + rewrite bool_decide_eq_false_2 by done. cbn [length].
      split; [lia|]. split.
      * rewrite elem_of_cons. intros [?|?]; [congruence|]. apply IH2 in H. lia.
      * rewrite elem_of_cons. intros [?|?]; [congruence | done].
Qed.

(** What a reader of the buffer finds: the text up to its first NUL when
    the text fits, and no end otherwise. *)
Lemma c_str_in_buffer_text (size : nat) (written : list byte) :
  c_str_in_buffer size written
  = if bool_decide (text_fits size written) then Some (up_to_nul written) else None.
Proof.
  unfold c_str_in_buffer, text_fits.
  destruct (length written <=? size)%nat eqn:Hlen.
  - apply Nat.leb_le in Hlen. rewrite c_str_up_to_nul, up_to_nul_app_nul.
    case_bool_decide as Hnul.
    + rewrite bool_decide_eq_true_2; [done|]. split; [done|].
      apply elem_of_app in Hnul as [?|Hzero]; [by left|]. right.
      destruct (size - length written)%nat eqn:E; [|lia].
      by apply elem_of_nil in Hzero.
    + rewrite bool_decide_eq_false_2; [done|]. intros [_ Hfits]. apply Hnul.
      apply elem_of_app. destruct Hfits as [?|Hshort]; [by left|]. right.
      destruct (size - length written)%nat eqn:E; [lia|]. by left.
  - apply Nat.leb_gt in Hlen. rewrite bool_decide_eq_false_2; [done|].
    intros [? _]. lia.
Qed.

Section ErrorText.
Context {W : Type} `{nsAPItypes}.

(** X20. The text of a [PgError] raised for a failed vendor call is what
    [ns_GetLastErrorMsg] wrote into the 1024-byte buffer, up to its first
    NUL: at most 1023 bytes, none of them NUL; the status of
    [ns_GetLastErrorMsg] itself is not looked at. A text that does not end
    inside the buffer (longer than the buffer, or filling it without a NUL)
    makes the check undefined. *)
Theorem error_text_is_the_vendor_text_up_to_nul
    (res : ns_RESULT) (lib : NsLibrary W) (s : state W) g status written w1 :
  res ≠ ns_OK →
  GetLastErrorMsg lib = Some (ns_GetLastErrorMsg g) →
  g 1024 (world s) = (status, written, w1) →
  (text_fits 1024 written →
     check_result_is_error res lib s
     = Done true
         (mkState (heap s)
            (Some (PgError, Some (String.string_of_list_byte (up_to_nul written)))) w1)
     ∧ (length (up_to_nul written) < 1024)%nat
     ∧ x00 ∉ up_to_nul written)
  ∧ (¬ text_fits 1024 written → check_result_is_error res lib s = Undefined).
Proof.
  intros Hres Hg Hcall.
  assert (Htext : vendor_error_text lib (world s)
            = (λ buf, (String.string_of_list_byte buf, w1))
                <$> (if bool_decide (text_fits 1024 written)
                     then Some (up_to_nul written) else None)).
  { unfold vendor_error_text. rewrite Hg, Hcall. by rewrite c_str_in_buffer_text. }
  split; intros Hfits.
  - rewrite bool_decide_eq_true_2 in Htext by done.
    split; [by apply check_result_is_error_text|].
    destruct (up_to_nul_length written) as (Hle & Hlt & Hnul). split; [|done].
    destruct Hfits as [Hlen [Hin|Hshort]]; [apply Hlt in Hin|]; lia.
  - rewrite bool_decide_eq_false_2 in Htext by done.
    by apply check_result_is_error_no_text.
Qed.

End ErrorText.

(** ** The result of an event query *)

Section EventData.
Context {W : Type} `{nsAPItypes} `{Platform}.

(** [do_get_event_data] once the vendor reported [ns_OK]: what is left is
    to make the payload and to release the buffer. *)
Lemma do_get_event_data_OK
    p fid eid idx tp sz (s : state W) (lib : NsLibrary W) f ts written n w1 :
  heap s !! p = Some (BLib lib) →
  GetEventData lib = Some (ns_GetEventData f) →
  f (u32 fid) (u32 eid) (u32 idx) (u32 sz) (world s) = (ns_OK, (ts, written, n), w1) →
  Z.of_nat (length written) ≤ u32 sz →
  ∃ q,
    heap s !! q = None
    ∧ do_get_event_data [PyCObject p; PyInt fid; PyInt eid; PyInt idx; PyInt tp; PyInt sz] s
      = (data_obj ←
           (if (u32 tp =? ns_EVENT_TEXT) || (u32 tp =? ns_EVENT_CSV) then
              PyString_FromStringAndSize written (u32 n)
            else if u32 tp =? ns_EVENT_BYTE then
              v ← defined (uint8_from_data written (u32 n)); mret (PyInt_FromLong v)
            else if u32 tp =? ns_EVENT_WORD then
              v ← defined (uint16_from_data written (u32 n)); mret (PyInt_FromLong v)
            else if u32 tp =? ns_EVENT_DWORD then
              v ← defined (uint32_from_data written (u32 n)); mret (PyInt_FromLong v)
            else mret Py_None);
         free q;;
         mret (Some (PyTuple [PyFloat ts; data_obj])))
          (mkState (<[q := BRaw (u32 sz)]> (heap s)) (pyerr s) w1).
Proof.
  intros Hp Hf Hcall Hfit.
  destruct (allocate_Done (BRaw (u32 sz)) s) as (q & Hq & Halloc).
  exists q. split; [done|]. etrans.
  { unfold do_get_event_data.
    cbn [PyCObject_Check PyInt_Check negb orb PyInt_AsUnsignedLongMask].
    rewrite (PyCObject_AsVoidPtr_Done p lib s _ Hp).
    unfold malloc. erewrite bind_Done by exact Halloc.
    unfold call_GetEventData. rewrite Hf.
    erewrite bind_Done by (by apply call_native_Done).
    cbv beta iota. cbn [heap pyerr world].
    erewrite bind_Done by (by apply buffer_bytes_Done).
    erewrite bind_Done by apply check_result_is_error_OK.
    reflexivity. }
  reflexivity.
Qed.

Lemma event_labels_apart :
  ns_EVENT_BYTE ≠ ns_EVENT_TEXT ∧ ns_EVENT_BYTE ≠ ns_EVENT_CSV
  ∧ ns_EVENT_WORD ≠ ns_EVENT_TEXT ∧ ns_EVENT_WORD ≠ ns_EVENT_CSV
  ∧ ns_EVENT_WORD ≠ ns_EVENT_BYTE
  ∧ ns_EVENT_DWORD ≠ ns_EVENT_TEXT ∧ ns_EVENT_DWORD ≠ ns_EVENT_CSV
  ∧ ns_EVENT_DWORD ≠ ns_EVENT_BYTE ∧ ns_EVENT_DWORD ≠ ns_EVENT_WORD.
Proof.
  pose proof ns_EVENT_labels as Hnd.
  rewrite !NoDup_cons in Hnd. rewrite !not_elem_of_cons in Hnd.
  destruct Hnd as ((?&?&?&?&_) & (?&?&?&_) & (?&?&_) & (?&_) & _).
  split_and!; congruence.
Qed.

(** X22. An event query the vendor answers with [ns_OK], having stayed
    inside the buffer, returns the pair of the timestamp and the payload,
    and has released the buffer (the heap is as before the call). The
    payload is the first [n] bytes written as a string for a Text or CSV
    event ([n], the size the vendor reported, being no more than it wrote),
    the int the decoder of the width makes of the bytes for a Byte, Word or
    Dword event, and [None] for any other event type. *)
Theorem event_data_outcome
    p fid eid idx tp sz (s : state W) (lib : NsLibrary W) f ts written n w1 :
  heap s !! p = Some (BLib lib) →
  GetEventData lib = Some (ns_GetEventData f) →
  f (u32 fid) (u32 eid) (u32 idx) (u32 sz) (world s) = (ns_OK, (ts, written, n), w1) →
  Z.of_nat (length written) ≤ u32 sz →
  let run :=
    do_get_event_data [PyCObject p; PyInt fid; PyInt eid; PyInt idx; PyInt tp; PyInt sz] s in
  let returns payload :=
    run = Done (Some (PyTuple [PyFloat ts; payload])) (mkState (heap s) (pyerr s) w1) in
  (u32 tp = ns_EVENT_TEXT ∨ u32 tp = ns_EVENT_CSV →
   u32 n ≤ Z.of_nat (length written) →
   returns (PyString (String.string_of_list_byte (take (Z.to_nat (u32 n)) written))))
  ∧ (u32 tp = ns_EVENT_BYTE →
     ∀ v, uint8_from_data written (u32 n) = Some v → returns (PyInt v))
  ∧ (u32 tp = ns_EVENT_WORD →
     ∀ v, uint16_from_data written (u32 n) = Some v → returns (PyInt v))
  ∧ (u32 tp = ns_EVENT_DWORD →
     ∀ v, uint32_from_data written (u32 n) = Some v → returns (PyInt v))
  ∧ (u32 tp ∉ [ns_EVENT_TEXT; ns_EVENT_CSV; ns_EVENT_BYTE; ns_EVENT_WORD;
               ns_EVENT_DWORD] →
     returns Py_None).
Proof.
  intros Hp Hf Hcall Hfit run returns. subst run returns. cbv beta.
  destruct (do_get_event_data_OK p fid eid idx tp sz s lib f ts written n w1
              Hp Hf Hcall Hfit) as (q & Hq & ->).
  destruct event_labels_apart as (Hbt & Hbc & Hwt & Hwc & Hwb & Hdt & Hdc & Hdb & Hdw).
  assert (Hend : ∀ payload,
            (free q;; mret (Some (PyTuple [PyFloat ts; payload])))
              (mkState (<[q := BRaw (u32 sz)]> (heap s)) (pyerr s) w1)
            = Done (Some (PyTuple [PyFloat ts; payload])) (mkState (heap s) (pyerr s) w1)).
  { intros payload. by erewrite bind_Done by (by apply free_allocated). }
  split_and!.
  - intros Htext Hsize.
    assert ((u32 tp =? ns_EVENT_TEXT) || (u32 tp =? ns_EVENT_CSV) = true) as ->.
    { apply orb_true_iff. destruct Htext as [->| ->]; rewrite Z.eqb_refl; auto. }
    unfold PyString_FromStringAndSize. rewrite (proj2 (Z.leb_le _ _) Hsize).
    erewrite bind_Done by reflexivity. apply Hend.
  - intros -> v Hv. pose proof (decoders_range written (u32 n) v) as (Hrange & _ & _).
    rewrite (proj2 (Z.eqb_neq _ _) Hbt), (proj2 (Z.eqb_neq _ _) Hbc), Z.eqb_refl.
    cbn [orb]. rewrite Hv.
    erewrite bind_Done by reflexivity.
    rewrite PyInt_FromLong_small by (apply Hrange in Hv; lia).
    apply Hend.
  - intros -> v Hv. pose proof (decoders_range written (u32 n) v) as (_ & Hrange & _).
    rewrite (proj2 (Z.eqb_neq _ _) Hwt), (proj2 (Z.eqb_neq _ _) Hwc),
      (proj2 (Z.eqb_neq _ _) Hwb), Z.eqb_refl.
    cbn [orb]. rewrite Hv.
    erewrite bind_Done by reflexivity.
    rewrite PyInt_FromLong_small by (apply Hrange in Hv; lia).
    apply Hend.
  - intros -> v Hv. pose proof (decoders_range written (u32 n) v) as (_ & _ & Hrange).
    rewrite (proj2 (Z.eqb_neq _ _) Hdt), (proj2 (Z.eqb_neq _ _) Hdc),
      (proj2 (Z.eqb_neq _ _) Hdb), (proj2 (Z.eqb_neq _ _) Hdw), Z.eqb_refl.
    cbn [orb]. rewrite Hv.
    erewrite bind_Done by reflexivity.
    rewrite PyInt_FromLong_small by (apply Hrange in Hv; lia).
    apply Hend.
  - rewrite !not_elem_of_cons. intros (Ht & Hc & Hb & Hw & Hd & _).
    rewrite (proj2 (Z.eqb_neq _ _) Ht), (proj2 (Z.eqb_neq _ _) Hc),
      (proj2 (Z.eqb_neq _ _) Hb), (proj2 (Z.eqb_neq _ _) Hw),
      (proj2 (Z.eqb_neq _ _) Hd).
    cbn [orb]. erewrite bind_Done by reflexivity. apply Hend.
Qed.

End EventData.

(** ** The arrays of the data accessors *)

Section Arrays.
Context {W : Type} `{nsAPItypes}.

Lemma array_cells_after (size : Z) (samples : list double) (s : state W) :
  Z.of_nat (length samples) ≤ size →
  array_cells size samples s = Done (cells_after size samples) s.
Proof.
  intros Hfit. unfold array_cells. by rewrite (proj2 (Z.leb_le _ _) Hfit).
Qed.

Lemma double_to_long_range (d : double) (z : Z) :
  double_to_long d = Some z → LONG_MIN ≤ z ≤ LONG_MAX.
Proof.
  unfold double_to_long. destruct d as [| | |sg m e]; try done.
  - intros [= <-]. unfold LONG_MIN, LONG_MAX. lia.
  - cbv zeta. destruct (_ && _) eqn:Hrange; [|done].
    intros [= <-]. apply andb_true_iff in Hrange as [Hlo Hhi].
    apply Z.leb_le in Hlo, Hhi. done.
Qed.

Lemma do_get_analog_data_array
    p fid eid idx n (s : state W) (lib : NsLibrary W) f cont samples w1 :
  heap s !! p = Some (BLib lib) →
  GetAnalogData lib = Some (ns_GetAnalogData f) →
  f (u32 fid) (u32 eid) (u32 idx) (u32 n) (world s) = (ns_OK, (cont, samples), w1) →
  Z.of_nat (length samples) ≤ u32 n →
  ∃ a,
    heap s !! a = None
    ∧ do_get_analog_data [PyCObject p; PyInt fid; PyInt eid; PyInt idx; PyInt n] s
      = Done (Some (PyTuple [PyArray a [u32 n] (cells_after (u32 n) samples);
                             PyInt (u32 cont)]))
          (mkState (<[a := BArr [u32 n]]> (heap s)) (pyerr s) w1).
Proof.
  intros Hp Hf Hcall Hfit. unfold do_get_analog_data.
  cbn [PyCObject_Check PyInt_Check negb orb PyInt_AsUnsignedLongMask].
  rewrite (PyCObject_AsVoidPtr_Done p lib s _ Hp). cbv zeta. rewrite PyArray_SIZE_1.
  destruct (allocate_Done (BArr [wrap 32 n]) s) as (q & Hq & Halloc).
  exists q. split; [done|].
  unfold PyArray_New. erewrite bind_Done by exact Halloc.
  unfold call_GetAnalogData. rewrite Hf.
  erewrite bind_Done by (by apply call_native_Done).
  cbv beta iota. cbn [heap pyerr world].
  erewrite bind_Done by (by apply array_cells_after).
  erewrite bind_Done by apply check_result_is_error_OK.
  by rewrite PyInt_FromLong_u32.
Qed.

Lemma do_get_neural_data_array
    p fid eid idx n (s : state W) (lib : NsLibrary W) f samples w1 :
  heap s !! p = Some (BLib lib) →
  GetNeuralData lib = Some (ns_GetNeuralData f) →
  f (u32 fid) (u32 eid) (u32 idx) (u32 n) (world s) = (ns_OK, samples, w1) →
  Z.of_nat (length samples) ≤ u32 n →
  ∃ a,
    heap s !! a = None
    ∧ do_get_neural_data [PyCObject p; PyInt fid; PyInt eid; PyInt idx; PyInt n] s
      = Done (Some (PyArray a [u32 n] (cells_after (u32 n) samples)))
          (mkState (<[a := BArr [u32 n]]> (heap s)) (pyerr s) w1).
Proof.
  intros Hp Hf Hcall Hfit. unfold do_get_neural_data.
  cbn [PyCObject_Check PyInt_Check negb orb PyInt_AsUnsignedLongMask].
  rewrite (PyCObject_AsVoidPtr_Done p lib s _ Hp). cbv zeta. rewrite PyArray_SIZE_1.
  destruct (allocate_Done (BArr [wrap 32 n]) s) as (q & Hq & Halloc).
  exists q. split; [done|].
  unfold PyArray_New. erewrite bind_Done by exact Halloc.
  unfold call_GetNeuralData. rewrite Hf.
  erewrite bind_Done by (by apply call_native_Done).
  cbv beta iota. cbn [heap pyerr world].
  erewrite bind_Done by (by apply array_cells_after).
  by erewrite bind_Done by apply check_result_is_error_OK.
Qed.

Lemma do_get_segment_data_array
    p fid eid idx src n (s : state W) (lib : NsLibrary W) f ts samples sc uid w1 z :
  heap s !! p = Some (BLib lib) →
  GetSegmentData lib = Some (ns_GetSegmentData f) →
  f (u32 fid) (u32 eid) (u32 idx) (u32 (8 * (u32 src * u32 n))) (world s)
    = (ns_OK, (ts, samples, sc, uid), w1) →
  Z.of_nat (length samples) ≤ u32 src * u32 n →
  double_to_long ts = Some z →
  ∃ a,
    heap s !! a = None
    ∧ do_get_segment_data
        [PyCObject p; PyInt fid; PyInt eid; PyInt idx; PyInt src; PyInt n] s
      = Done (Some (PyTuple [PyArray a [u32 src; u32 n]
                               (cells_after (u32 src * u32 n) samples);
                             PyInt z; PyInt (u32 sc); PyInt (u32 uid)]))
          (mkState (<[a := BArr [u32 src; u32 n]]> (heap s)) (pyerr s) w1).
Proof.
  intros Hp Hf Hcall Hfit Hz. unfold do_get_segment_data.
  cbn [PyCObject_Check PyInt_Check negb orb PyInt_AsUnsignedLongMask].
  rewrite (PyCObject_AsVoidPtr_Done p lib s _ Hp). cbv zeta. rewrite PyArray_SIZE_2.
  destruct (allocate_Done (BArr [wrap 32 src; wrap 32 n]) s) as (q & Hq & Halloc).
  exists q. split; [done|].
  unfold PyArray_New. erewrite bind_Done by exact Halloc.
  unfold call_GetSegmentData. rewrite Hf.
  erewrite bind_Done by (by apply call_native_Done).
  cbv beta iota. cbn [heap pyerr world].
  erewrite bind_Done by (by apply array_cells_after).
  erewrite bind_Done by apply check_result_is_error_OK.
  cbv beta iota. rewrite Hz. erewrite bind_Done by reflexivity.
  rewrite !PyInt_FromLong_u32. unfold PyInt_FromLong at 1.
  by rewrite swrap_small by (by apply (double_to_long_range ts)).
Qed.

(** X21. A successful [_get_analog_data], [_get_segment_data] or
    [_get_neural_data] call returns an array that owns one fresh
    allocation, of the shape asked for (modulo 2^32: [n], [sources] by [n],
    [n]); its cells are the samples the vendor wrote, in order, followed by
    cells nobody wrote. The call succeeds whenever the vendor reports
    [ns_OK] and stayed inside the array (and, for a segment, the timestamp
    has an integral part that fits a [long]). *)
Theorem returned_arrays_hold_what_the_vendor_wrote
    (p : addr) (s : state W) (lib : NsLibrary W) (fid eid idx : Z) :
  heap s !! p = Some (BLib lib) →
  (∀ n f cont samples w1,
     GetAnalogData lib = Some (ns_GetAnalogData f) →
     f (u32 fid) (u32 eid) (u32 idx) (u32 n) (world s) = (ns_OK, (cont, samples), w1) →
     Z.of_nat (length samples) ≤ u32 n →
     ∃ a,
       heap s !! a = None
       ∧ do_get_analog_data [PyCObject p; PyInt fid; PyInt eid; PyInt idx; PyInt n] s
         = Done (Some (PyTuple [PyArray a [u32 n] (cells_after (u32 n) samples);
                                PyInt (u32 cont)]))
             (mkState (<[a := BArr [u32 n]]> (heap s)) (pyerr s) w1))
  ∧ (∀ src n f ts samples sc uid w1 z,
     GetSegmentData lib = Some (ns_GetSegmentData f) →
     f (u32 fid) (u32 eid) (u32 idx) (u32 (8 * (u32 src * u32 n))) (world s)
       = (ns_OK, (ts, samples, sc, uid), w1) →
     Z.of_nat (length samples) ≤ u32 src * u32 n →
     double_to_long ts = Some z →
     ∃ a,
       heap s !! a = None
       ∧ do_get_segment_data
           [PyCObject p; PyInt fid; PyInt eid; PyInt idx; PyInt src; PyInt n] s
         = Done (Some (PyTuple [PyArray a [u32 src; u32 n]
                                  (cells_after (u32 src * u32 n) samples);
                                PyInt z; PyInt (u32 sc); PyInt (u32 uid)]))
             (mkState (<[a := BArr [u32 src; u32 n]]> (heap s)) (pyerr s) w1))
  ∧ (∀ n f samples w1,
     GetNeuralData lib = Some (ns_GetNeuralData f) →
     f (u32 fid) (u32 eid) (u32 idx) (u32 n) (world s) = (ns_OK, samples, w1) →
     Z.of_nat (length samples) ≤ u32 n →
     ∃ a,
       heap s !! a = None
       ∧ do_get_neural_data [PyCObject p; PyInt fid; PyInt eid; PyInt idx; PyInt n] s
         = Done (Some (PyArray a [u32 n] (cells_after (u32 n) samples)))
             (mkState (<[a := BArr [u32 n]]> (heap s)) (pyerr s) w1)).
Proof.
  intros Hp. split; [|split]; intros.
  - by eapply do_get_analog_data_array.
  - by eapply do_get_segment_data_array.
  - by eapply do_get_neural_data_array.
Qed.

End Arrays.

(** ** What a successful data call hands back *)

Section Returned.
Context {W : Type} `{nsAPItypes} `{Platform}.

(** A finite double whose quotient rounded toward zero fits a [long]
    converts to that quotient. *)
Lemma double_to_long_fits (d : double) :
  double_is_finite d = true →
  LONG_MIN ≤ Z.quot (double_num d) (double_den d) ≤ LONG_MAX →
  double_to_long d = Some (Z.quot (double_num d) (double_den d)).
Proof.
  destruct d as [sg|sg| |sg m e];
    cbn [double_to_long double_is_finite double_num double_den]; try done.
  intros _ Hrange.
  assert (Hmag : Z.shiftl (Z.pos m) e = Z.quot (Z.pos m * 2 ^ Z.max e 0) (2 ^ Z.max (- e) 0)).
  { destruct (Z.le_gt_cases 0 e) as [He|He].
    - rewrite Z.shiftl_mul_pow2 by done.
      rewrite (Z.max_l e 0), (Z.max_r (- e) 0) by lia.
      by rewrite Z.quot_1_r.
    - rewrite Z.shiftl_div_pow2 by lia.
      rewrite (Z.max_r e 0), (Z.max_l (- e) 0) by lia.
      rewrite Z.mul_1_r. rewrite Z.quot_div_nonneg; [done|lia|].
      apply Z.pow_pos_nonneg; lia. }
  assert (Hquot : (if sg then - Z.shiftl (Z.pos m) e else Z.shiftl (Z.pos m) e)
                  = Z.quot (if sg then - (Z.pos m * 2 ^ Z.max e 0)
                            else Z.pos m * 2 ^ Z.max e 0) (2 ^ Z.max (- e) 0)).
  { destruct sg; [|done]. rewrite Hmag, Z.quot_opp_l; [done|].
    apply Z.pow_nonzero; lia. }
  rewrite Hquot.
  destruct Hrange as [Hlo%Z.leb_le Hhi%Z.leb_le]. by rewrite Hlo, Hhi.
Qed.

(** Once the vendor reported [ns_OK] from inside the buffer,
    [do_get_event_data] returns the timestamp with any payload that is
    the payload of the subtype. *)
Lemma do_get_event_data_returns
    p fid eid idx tp sz (s : state W) (lib : NsLibrary W) f ts written n w1 payload :
  heap s !! p = Some (BLib lib) →
  GetEventData lib = Some (ns_GetEventData f) →
  f (u32 fid) (u32 eid) (u32 idx) (u32 sz) (world s) = (ns_OK, (ts, written, n), w1) →
  Z.of_nat (length written) ≤ u32 sz →
  payload_by_subtype (u32 tp) written (u32 n) payload →
  do_get_event_data [PyCObject p; PyInt fid; PyInt eid; PyInt idx; PyInt tp; PyInt sz] s
  = Done (Some (PyTuple [PyFloat ts; payload])) (mkState (heap s) (pyerr s) w1).
Proof.
  intros Hp Hf Hcall Hfit (Htext & Hbyte & Hword & Hdword & Hnone).
  destruct (do_get_event_data_OK p fid eid idx tp sz s lib f ts written n w1
              Hp Hf Hcall Hfit) as (q & Hq & ->).
  assert (Hend : ∀ data_obj,
            (free q;; mret (Some (PyTuple [PyFloat ts; data_obj])))
              (mkState (<[q := BRaw (u32 sz)]> (heap s)) (pyerr s) w1)
            = Done (Some (PyTuple [PyFloat ts; data_obj])) (mkState (heap s) (pyerr s) w1)).
  { intros data_obj. by erewrite bind_Done by (by apply free_allocated). }
  destruct (Z.eqb_spec (u32 tp) ns_EVENT_TEXT) as [Etext|Etext];
    [|destruct (Z.eqb_spec (u32 tp) ns_EVENT_CSV) as [Ecsv|Ecsv]];
    cbn [orb].
  1, 2: destruct Htext as [Hsize ->]; [by auto|];
    unfold PyString_FromStringAndSize; rewrite (proj2 (Z.leb_le _ _) Hsize);
    erewrite bind_Done by reflexivity; apply Hend.
  destruct (Z.eqb_spec (u32 tp) ns_EVENT_BYTE) as [Ebyte|Ebyte];
    [|destruct (Z.eqb_spec (u32 tp) ns_EVENT_WORD) as [Eword|Eword];
      [|destruct (Z.eqb_spec (u32 tp) ns_EVENT_DWORD) as [Edword|Edword]]].
  - destruct (Hbyte Ebyte) as (v & Hv & ->). rewrite Hv.
    erewrite bind_Done by reflexivity.
    rewrite PyInt_FromLong_small
      by (apply (decoders_range written (u32 n) v) in Hv; lia).
    apply Hend.
  - destruct (Hword Eword) as (v & Hv & ->). rewrite Hv.
    erewrite bind_Done by reflexivity.
    rewrite PyInt_FromLong_small
      by (apply (decoders_range written (u32 n) v) in Hv; lia).
    apply Hend.
  - destruct (Hdword Edword) as (v & Hv & ->). rewrite Hv.
    erewrite bind_Done by reflexivity.
    rewrite PyInt_FromLong_small
      by (apply (decoders_range written (u32 n) v) in Hv; lia).
    apply Hend.
  - rewrite Hnone by (rewrite !not_elem_of_cons; split_and!; auto using not_elem_of_nil).
    erewrite bind_Done by reflexivity. apply Hend.
Qed.

(** X2. The payload of [get_event_data] is chosen by the declared
    subtype: the bytes written as a string for Text and CSV, the byte,
    word or dword decoder over the bytes written for Byte, Word and Dword,
    and [None] for any other subtype. Every successful call returns the
    timestamp, as a float, with such a payload; and the call does succeed,
    returning the timestamp with that payload and the buffer released,
    whenever the vendor reports [ns_OK], stayed inside the buffer, and the
    subtype has a payload over the bytes written. *)
Theorem event_payload_by_subtype
    p fid eid idx tp sz (s : state W) (lib : NsLibrary W) f res ts written n w1 :
  heap s !! p = Some (BLib lib) →
  GetEventData lib = Some (ns_GetEventData f) →
  f (u32 fid) (u32 eid) (u32 idx) (u32 sz) (world s) = (res, (ts, written, n), w1) →
  (∀ obj s',
     do_get_event_data [PyCObject p; PyInt fid; PyInt eid; PyInt idx; PyInt tp; PyInt sz] s
       = Done (Some obj) s' →
     ∃ payload,
       obj = PyTuple [PyFloat ts; payload]
       ∧ payload_by_subtype (u32 tp) written (u32 n) payload)
  ∧ (res = ns_OK →
     Z.of_nat (length written) ≤ u32 sz →
     ∀ payload,
       payload_by_subtype (u32 tp) written (u32 n) payload →
       do_get_event_data [PyCObject p; PyInt fid; PyInt eid; PyInt idx; PyInt tp; PyInt sz] s
       = Done (Some (PyTuple [PyFloat ts; payload])) (mkState (heap s) (pyerr s) w1)).
Proof.
  intros Hp Hf Hcall. split.
  - intros obj s' Hrun.
    exact (do_get_event_data_payload _ _ _ _ _ _ _ _ _ _ _ _ _ _ _ _ Hp Hf Hcall Hrun).
  - intros -> Hfit payload Hpayload.
    exact (do_get_event_data_returns _ _ _ _ _ _ _ _ _ _ _ _ _ _
             Hp Hf Hcall Hfit Hpayload).
Qed.

(** C10. [get_segment_data] returns the vendor's timestamp, a double, as
    a Python int: the quotient of its numerator by its denominator rounded
    toward zero, so the fraction is lost. Every successful call returns
    that int; and the call does succeed, returning it, whenever the vendor
    reports [ns_OK], stayed inside the array, and the timestamp is finite
    with a quotient that fits a [long]. [get_event_data] returns its
    timestamp as the float it was given: every successful call does, and
    the call does succeed whenever the vendor reports [ns_OK], stayed
    inside the buffer, and the subtype has a payload over the bytes
    written. *)
Theorem segment_timestamp_is_truncated
    (p : addr) (s : state W) (lib : NsLibrary W) (fid eid idx : Z) :
  heap s !! p = Some (BLib lib) →
  (∀ src n f res ts samples sc uid w1,
     GetSegmentData lib = Some (ns_GetSegmentData f) →
     f (u32 fid) (u32 eid) (u32 idx) (u32 (8 * (u32 src * u32 n))) (world s)
       = (res, (ts, samples, sc, uid), w1) →
     (∀ obj s',
        do_get_segment_data
          [PyCObject p; PyInt fid; PyInt eid; PyInt idx; PyInt src; PyInt n] s
          = Done (Some obj) s' →
        double_is_finite ts = true
        ∧ ∃ array,
            obj = PyTuple [array;
                           PyInt (Z.quot (double_num ts) (double_den ts));
                           PyInt (u32 sc); PyInt (u32 uid)])
     ∧ (res = ns_OK →
        Z.of_nat (length samples) ≤ u32 src * u32 n →
        double_is_finite ts = true →
        LONG_MIN ≤ Z.quot (double_num ts) (double_den ts) ≤ LONG_MAX →
        ∃ array s',
          do_get_segment_data
            [PyCObject p; PyInt fid; PyInt eid; PyInt idx; PyInt src; PyInt n] s
          = Done (Some (PyTuple [array;
                                 PyInt (Z.quot (double_num ts) (double_den ts));
                                 PyInt (u32 sc); PyInt (u32 uid)])) s'))
  ∧ (∀ tp sz f res ts written n w1,
     GetEventData lib = Some (ns_GetEventData f) →
     f (u32 fid) (u32 eid) (u32 idx) (u32 sz) (world s) = (res, (ts, written, n), w1) →
     (∀ obj s',
        do_get_event_data
          [PyCObject p; PyInt fid; PyInt eid; PyInt idx; PyInt tp; PyInt sz] s
          = Done (Some obj) s' →
        ∃ payload, obj = PyTuple [PyFloat ts; payload])
     ∧ (res = ns_OK →
        Z.of_nat (length written) ≤ u32 sz →
        ∀ payload,
          payload_by_subtype (u32 tp) written (u32 n) payload →
          do_get_event_data
            [PyCObject p; PyInt fid; PyInt eid; PyInt idx; PyInt tp; PyInt sz] s
          = Done (Some (PyTuple [PyFloat ts; payload])) (mkState (heap s) (pyerr s) w1))).
Proof.
  intros Hp. split.
  - intros src n f res ts samples sc uid w1 Hf Hcall. split.
    + intros obj s' Hrun.
      destruct (do_get_segment_data_inv _ _ _ _ _ _ _ _ _ _ _ _ _ _ _ _ _
                  Hp Hf Hcall Hrun) as (_ & a & cells & z & Hz & -> & _).
      apply double_to_long_quot in Hz as [Hfin ->]. eauto.
    + intros -> Hfit Hfin Hrange.
      destruct (do_get_segment_data_array p fid eid idx src n s lib f ts samples sc uid w1
                  _ Hp Hf Hcall Hfit (double_to_long_fits ts Hfin Hrange))
        as (a & _ & Hrun).
      eauto.
  - intros tp sz f res ts written n w1 Hf Hcall. split.
    + intros obj s' Hrun.
      by destruct (do_get_event_data_inv _ _ _ _ _ _ _ _ _ _ _ _ _ _ _ _
                     Hp Hf Hcall Hrun) as (_ & Hobj).
    + intros -> Hfit payload Hpayload.
      exact (do_get_event_data_returns _ _ _ _ _ _ _ _ _ _ _ _ _ _
               Hp Hf Hcall Hfit Hpayload).
Qed.

End Returned.

(** ** Concrete runs against the stand-in library *)

Lemma data_accessors_release_on_failure_witness :
  @do_get_event_data _ Mock.api little_endian
     [Mock.handle; PyInt 0; PyInt 0; PyInt 0; PyInt 4; PyInt 4]
     (Mock.state_with Mock.failing)
   = Done None (mkState {[ 1%positive := BLib Mock.failing ]}
                  (Some (PgError, Some "bad index")) 2%nat)
  ∧ @do_get_analog_data _ Mock.api
     [Mock.handle; PyInt 0; PyInt 0; PyInt 0; PyInt 3] (Mock.state_with Mock.failing)
   = Done None (mkState {[ 1%positive := BLib Mock.failing ]}
                  (Some (PgError, Some "bad index")) 2%nat)
  ∧ @do_get_segment_data _ Mock.api
     [Mock.handle; PyInt 0; PyInt 0; PyInt 0; PyInt 1; PyInt 3]
     (Mock.state_with Mock.failing)
   = Done None (mkState {[ 1%positive := BLib Mock.failing ]}
                  (Some (PgError, Some "bad index")) 2%nat)
  ∧ @do_get_neural_data _ Mock.api
     [Mock.handle; PyInt 0; PyInt 0; PyInt 0; PyInt 3] (Mock.state_with Mock.failing)
   = Done None (mkState {[ 1%positive := BLib Mock.failing ]}
                  (Some (PgError, Some "bad index")) 2%nat).
Proof.
  destruct (@data_accessors_release_on_failure _ Mock.api little_endian
              1%positive (Mock.state_with Mock.failing) Mock.failing 0 0 0 eq_refl)
    as (Hevent & Hanalog & Hsegment & Hneural).
  split; [|split; [|split]].
  - refine (proj2 (Hevent 4 4 _ _ _ _ _ _ eq_refl eq_refl _) _ _ _ eq_refl);
      by vm_compute.
  - refine (proj2 (Hanalog 3 _ _ _ _ _ eq_refl eq_refl _) _ _ _ eq_refl);
      by vm_compute.
  - refine (proj2 (Hsegment 1 3 _ _ _ _ _ _ _ eq_refl eq_refl _) _ _ _ eq_refl);
      by vm_compute.
  - refine (proj2 (Hneural 3 _ _ _ _ eq_refl eq_refl _) _ _ _ eq_refl);
      by vm_compute.
Defined.

Lemma analog_data_length_and_reported_count_witness :
  ∃ a cells contiguous,
    PyTuple [PyArray 2 [3] [Some Mock.d1_5; Some Mock.dm2_75; None]; PyInt 2]
      = PyTuple [PyArray a [u32 3] cells; PyInt contiguous]
    ∧ Z.of_nat (length cells) = u32 3
    ∧ (0 ≤ 3 < 2 ^ 32 → Z.of_nat (length cells) = 3)
    ∧ contiguous = u32 2
    ∧ (u32 2 ≤ u32 3 → contiguous ≤ Z.of_nat (length cells)).
Proof.
  eapply (@analog_data_length_and_reported_count _ Mock.api
            1%positive 0 0 0 3 (Mock.state_with Mock.working) Mock.working);
    [reflexivity | reflexivity | reflexivity | vm_compute; reflexivity].
Defined.

(** C4, as stated, fails: asked for 3 samples, a vendor library that
    reports 5 contiguous samples makes [get_analog_data] succeed with an
    array of 3 cells and the contiguous count 5. *)
Lemma analog_data_count_exceeds_request :
  @do_get_analog_data _ Mock.api
     [Mock.handle; PyInt 0; PyInt 0; PyInt 0; PyInt 3] (Mock.state_with Mock.overcounting)
   = Done (Some (PyTuple [PyArray 2 [3] [Some Mock.d1_5; Some Mock.dm2_75; None];
                          PyInt 5]))
       (mkState (<[2%positive := BArr [3]]> {[ 1%positive := BLib Mock.overcounting ]})
          None 1%nat)
  ∧ ¬ (5 ≤ 3).
Proof. split; [vm_compute; reflexivity | lia]. Qed.

(** The payload of the Dword event of the stand-in, whose four bytes are
    78 56 34 12. *)
Lemma dword_payload_of_the_stand_in :
  @payload_by_subtype Mock.api little_endian
    (u32 (@ns_EVENT_DWORD Mock.api)) [x78; x56; x34; x12] (u32 4) (PyInt 22136).
Proof.
  unfold payload_by_subtype. split_and!.
  - intros [Hsub|Hsub]; vm_compute in Hsub; discriminate Hsub.
  - intros Hsub. vm_compute in Hsub. discriminate Hsub.
  - intros Hsub. vm_compute in Hsub. discriminate Hsub.
  - intros _. exists 22136. split; vm_compute; reflexivity.
  - intros Hsub. exfalso. apply Hsub. do 4 right. left.
Qed.

(** With the stand-in, [get_segment_data] for 1 source and 3 samples
    returns the timestamp -2.75 as the int -2, and [get_event_data]
    returns the timestamp 1.5 as the float 1.5. *)
Lemma segment_timestamp_is_truncated_witness :
  (@do_get_segment_data _ Mock.api
     [Mock.handle; PyInt 0; PyInt 0; PyInt 0; PyInt 1; PyInt 3]
     (Mock.state_with Mock.working)
   = Done (Some (PyTuple [PyArray 2 [1; 3] [Some Mock.d1_5; Some Mock.dm2_75; None];
                          PyInt (-2); PyInt 2; PyInt 7]))
       (mkState (<[2%positive := BArr [1; 3]]> {[ 1%positive := BLib Mock.working ]})
          None 1%nat)
   ∧ (double_is_finite Mock.dm2_75 = true
      ∧ ∃ array,
          PyTuple [PyArray 2 [1; 3] [Some Mock.d1_5; Some Mock.dm2_75; None];
                   PyInt (-2); PyInt 2; PyInt 7]
          = PyTuple [array;
                     PyInt (Z.quot (double_num Mock.dm2_75) (double_den Mock.dm2_75));
                     PyInt (u32 2); PyInt (u32 7)])
   ∧ ∃ array s',
       @do_get_segment_data _ Mock.api
         [Mock.handle; PyInt 0; PyInt 0; PyInt 0; PyInt 1; PyInt 3]
         (Mock.state_with Mock.working)
       = Done (Some (PyTuple [array;
                              PyInt (Z.quot (double_num Mock.dm2_75)
                                       (double_den Mock.dm2_75));
                              PyInt (u32 2); PyInt (u32 7)])) s')
  ∧ (@do_get_event_data _ Mock.api little_endian
       [Mock.handle; PyInt 0; PyInt 0; PyInt 0; PyInt (@ns_EVENT_DWORD Mock.api); PyInt 4]
       (Mock.state_with Mock.working)
     = Done (Some (PyTuple [PyFloat Mock.d1_5; PyInt 22136]))
         (mkState {[ 1%positive := BLib Mock.working ]} None 1%nat)
     ∧ ∃ payload,
         PyTuple [PyFloat Mock.d1_5; PyInt 22136] = PyTuple [PyFloat Mock.d1_5; payload]).
Proof.
  destruct (@segment_timestamp_is_truncated _ Mock.api little_endian
              1%positive (Mock.state_with Mock.working) Mock.working 0 0 0 eq_refl)
    as (Hsegment & Hevent).
  split.
  - edestruct (Hsegment 1 3) as (Hinv & Hret); [reflexivity | reflexivity |].
    assert (Hrun : @do_get_segment_data _ Mock.api
                     [Mock.handle; PyInt 0; PyInt 0; PyInt 0; PyInt 1; PyInt 3]
                     (Mock.state_with Mock.working)
                   = Done (Some (PyTuple [PyArray 2 [1; 3]
                                            [Some Mock.d1_5; Some Mock.dm2_75; None];
                                          PyInt (-2); PyInt 2; PyInt 7]))
                       (mkState (<[2%positive := BArr [1; 3]]>
                                   {[ 1%positive := BLib Mock.working ]}) None 1%nat))
      by (vm_compute; reflexivity).
    split; [exact Hrun|]. split; [exact (Hinv _ _ Hrun)|].
    apply Hret;
      [reflexivity | vm_compute; discriminate | reflexivity
      | split; vm_compute; discriminate].
  - edestruct (Hevent (@ns_EVENT_DWORD Mock.api) 4) as (Hinv & Hret);
      [reflexivity | reflexivity |].
    assert (Hrun : @do_get_event_data _ Mock.api little_endian
                     [Mock.handle; PyInt 0; PyInt 0; PyInt 0;
                      PyInt (@ns_EVENT_DWORD Mock.api); PyInt 4]
                     (Mock.state_with Mock.working)
                   = Done (Some (PyTuple [PyFloat Mock.d1_5; PyInt 22136]))
                       (mkState {[ 1%positive := BLib Mock.working ]} None 1%nat)).
    { apply (Hret eq_refl);
        [vm_compute; discriminate | exact dword_payload_of_the_stand_in]. }
    split; [exact Hrun | exact (Hinv _ _ Hrun)].
Defined.

(** With a vendor library whose [GetEventData] writes the four bytes
    78 56 34 12 and reports [ns_OK], [get_event_data] for the subtype
    Dword and a capacity of 4 returns 0x5678 with the timestamp, not the
    32-bit value 0x12345678 of the bytes. *)
Lemma event_dword_payload_keeps_16_bits_witness :
  @do_get_event_data _ Mock.api little_endian
     [Mock.handle; PyInt 0; PyInt 0; PyInt 0; PyInt (@ns_EVENT_DWORD Mock.api); PyInt 4]
     (Mock.state_with Mock.working)
   = Done (Some (PyTuple [PyFloat Mock.d1_5; PyInt 22136]))
       (mkState {[ 1%positive := BLib Mock.working ]} None 1%nat)
  ∧ Mock.event_data 0 0 0 0 4 0%nat = (0, (Mock.d1_5, [x78; x56; x34; x12], 4), 1%nat)
  ∧ @native_value little_endian (take 4 [x78; x56; x34; x12]) = 305419896
  ∧ PyTuple [PyFloat Mock.d1_5; PyInt 22136]
    ≠ PyTuple [PyFloat Mock.d1_5;
               PyInt (@native_value little_endian (take 4 [x78; x56; x34; x12]))].
Proof.
  assert (Hrun :
    @do_get_event_data _ Mock.api little_endian
       [Mock.handle; PyInt 0; PyInt 0; PyInt 0; PyInt (@ns_EVENT_DWORD Mock.api); PyInt 4]
       (Mock.state_with Mock.working)
     = Done (Some (PyTuple [PyFloat Mock.d1_5; PyInt 22136]))
         (mkState {[ 1%positive := BLib Mock.working ]} None 1%nat))
    by (vm_compute; reflexivity).
  split; [exact Hrun|]. split; [reflexivity|]. split; [vm_compute; reflexivity|].
  refine (proj2 (@event_dword_payload_keeps_16_bits _ Mock.api little_endian
                   1%positive 0 0 0 (@ns_EVENT_DWORD Mock.api) 4
                   (Mock.state_with Mock.working) Mock.working
                   (Mock.event_data 0) 0 Mock.d1_5 [x78; x56; x34; x12] 4 1%nat _ _
                   eq_refl eq_refl eq_refl eq_refl eq_refl _ Hrun) _);
    [cbn [length]; lia | vm_compute; discriminate].
Defined.

Lemma library_open_keeps_unresolved_symbols_witness :
  ∃ p lib s',
    @library_open _ Mock.loader [PyString "libmock.so"] Mock.empty_state
      = Done (Some (PyCObject p)) s'
    ∧ heap s' !! p = Some (BLib lib)
    ∧ pyerr s' = pyerr Mock.empty_state
    ∧ dl_handle lib = 7%positive
    ∧ ∀ name slot, (name, slot) ∈ entry_points →
        slot lib = @dlsym _ Mock.loader 7%positive name 1%nat.
Proof.
  apply (@library_open_keeps_unresolved_symbols _ Mock.loader
           "libmock.so" Mock.empty_state 7%positive 1%nat); reflexivity.
Defined.

Lemma library_close_once_then_undefined_witness :
  @library_close _ Mock.loader [PyCObject 1] Mock.opened = Done (Some Py_None) Mock.closed
  ∧ @library_close _ Mock.loader [PyCObject 1] Mock.closed = Undefined.
Proof.
  destruct (@library_close_once_then_undefined _ Mock.loader
              "libmock.so" Mock.empty_state Mock.opened (PyCObject 1)
              ltac:(vm_compute; reflexivity))
    as (p & lib & [= <-] & Hlib & Hclose & _).
  change (Some (BLib Mock.resolved) = Some (BLib lib)) in Hlib.
  injection Hlib as <-.
  exact (Hclose 2%nat eq_refl).
Defined.

(** C6, as stated, fails: the handle of a successful [library_open] is
    closed once with success, and the second [library_close] on it is not
    rejected with an error; it runs into the released record. *)
Lemma second_library_close_is_not_rejected :
  @library_open _ Mock.loader [PyString "libmock.so"] Mock.empty_state
    = Done (Some (PyCObject 1)) Mock.opened
  ∧ @library_close _ Mock.loader [PyCObject 1] Mock.opened
    = Done (Some Py_None) Mock.closed
  ∧ @library_close _ Mock.loader [PyCObject 1] Mock.closed = Undefined
  ∧ ¬ ∃ s3, @library_close _ Mock.loader [PyCObject 1] Mock.closed = Done None s3.
Proof.
  assert (Hsecond : @library_close _ Mock.loader [PyCObject 1] Mock.closed = Undefined)
    by (vm_compute; reflexivity).
  repeat split; try (vm_compute; reflexivity).
  intros [s3 Hs3]. rewrite Hsecond in Hs3. discriminate.
Qed.


(** With a vendor library whose source-info call fails for source 1 of a
    two-source segment entity (status -1, where [ns_OK] is 0), the
    entity-info query does not fail: it returns the dict, no error is
    pending, and [SourceInfos] is returned with the descriptor of source 0
    and an empty dict for source 1. *)
Lemma segment_source_failure_is_swallowed_witness :
  Mock.segment_source_info (Some 1) 0 0 1 3%nat = (-1, Mock.source_info 1, 4%nat)
  ∧ (∃ d, @do_get_entity_info _ Mock.api [Mock.handle; PyInt 0; PyInt 0]
            (Mock.state_with Mock.half_described)
          = Done (Some (PyDict d)) (mkState {[ 1%positive := BLib Mock.half_described ]}
                                      None 4%nat)
          ∧ d !! "SourceInfos"
            = Some (PyList [Some (PyDict (SegmentSourceDescriptor (Mock.source_info 0)));
                            Some (PyDict ∅)]))
  ∧ ∃ d srcs,
      Some (PyDict d) = Some (PyDict d)
      ∧ pyerr (mkState {[ 1%positive := BLib Mock.half_described ]} None 4%nat)
        = pyerr (Mock.state_with Mock.half_described)
      ∧ d !! "SourceInfos" = Some (PyList srcs)
      ∧ srcs !! 1%nat = Some (Some (PyDict ∅)).
Proof.
  split; [reflexivity|].
  assert (Hrun : ∃ d, @do_get_entity_info _ Mock.api [Mock.handle; PyInt 0; PyInt 0]
            (Mock.state_with Mock.half_described)
          = Done (Some (PyDict d)) (mkState {[ 1%positive := BLib Mock.half_described ]}
                                      None 4%nat)
          ∧ d !! "SourceInfos"
            = Some (PyList [Some (PyDict (SegmentSourceDescriptor (Mock.source_info 0)));
                            Some (PyDict ∅)])).
  { eexists. split; vm_compute; reflexivity. }
  split; [exact Hrun|].
  destruct Hrun as (d & Hrun & _).
  destruct (@segment_source_failure_is_swallowed _ Mock.api
              1%positive 0 0 (Mock.state_with Mock.half_described) _ Mock.half_described
              (Mock.entity_info 3) (Mock.entity_record 3) 1%nat
              (Mock.segment_info 2) (Mock.segment_record 2) 2%nat
              (Mock.segment_source_info (Some 1)) _ 1%nat
              eq_refl eq_refl eq_refl eq_refl eq_refl eq_refl eq_refl
              ltac:(vm_compute; reflexivity) ltac:(vm_compute; discriminate) Hrun)
    as (d' & srcs & [= <-] & Herr & Hinfos & Hslot).
  by exists d, srcs.
Defined.

Lemma decoders_convert_witness :
  @uint8_from_data little_endian [x78; x56; x34; x12] (Z.of_nat 2)
    = Some (if decide (2%nat = 2%nat)
            then @native_value little_endian (take 1 [x78; x56; x34; x12])
            else wrap 8 (@native_value little_endian (take 2 [x78; x56; x34; x12])))
  ∧ @uint16_from_data little_endian [x78; x56; x34; x12] (Z.of_nat 2)
    = Some (wrap 16 (@native_value little_endian (take 2 [x78; x56; x34; x12])))
  ∧ (2%nat ≠ 4%nat →
     @uint32_from_data little_endian [x78; x56; x34; x12] (Z.of_nat 2)
     = Some (@native_value little_endian (take 2 [x78; x56; x34; x12]))).
Proof.
  apply (@decoders_convert little_endian [x78; x56; x34; x12] 2);
    [right; left; reflexivity | cbn [length]; lia].
Defined.

(** With the stand-in, whose [GetEventData] writes the four bytes
    78 56 34 12 and reports [ns_OK], [get_event_data] for the subtype
    Dword and a capacity of 4 returns the timestamp 1.5 with what the
    dword decoder makes of the four bytes. *)
Lemma event_payload_by_subtype_witness :
  @do_get_event_data _ Mock.api little_endian
    [Mock.handle; PyInt 0; PyInt 0; PyInt 0; PyInt (@ns_EVENT_DWORD Mock.api); PyInt 4]
    (Mock.state_with Mock.working)
  = Done (Some (PyTuple [PyFloat Mock.d1_5; PyInt 22136]))
      (mkState {[ 1%positive := BLib Mock.working ]} None 1%nat)
  ∧ ∃ payload,
      PyTuple [PyFloat Mock.d1_5; PyInt 22136] = PyTuple [PyFloat Mock.d1_5; payload]
      ∧ @payload_by_subtype Mock.api little_endian
          (u32 (@ns_EVENT_DWORD Mock.api)) [x78; x56; x34; x12] (u32 4) payload.
Proof.
  edestruct (@event_payload_by_subtype _ Mock.api little_endian
               1%positive 0 0 0 (@ns_EVENT_DWORD Mock.api) 4
               (Mock.state_with Mock.working) Mock.working)
    as (Hinv & Hret); [reflexivity | reflexivity | reflexivity |].
  assert (Hrun : @do_get_event_data _ Mock.api little_endian
                   [Mock.handle; PyInt 0; PyInt 0; PyInt 0;
                    PyInt (@ns_EVENT_DWORD Mock.api); PyInt 4]
                   (Mock.state_with Mock.working)
                 = Done (Some (PyTuple [PyFloat Mock.d1_5; PyInt 22136]))
                     (mkState {[ 1%positive := BLib Mock.working ]} None 1%nat)).
  { apply (Hret eq_refl);
      [vm_compute; discriminate | exact dword_payload_of_the_stand_in]. }
  split; [exact Hrun | exact (Hinv _ _ Hrun)].
Defined.

(** Closing the file 41, which the stand-in does not know, fails as a
    function of a module should. *)
Lemma methods_keep_the_error_protocol_witness :
  error_protocol (Mock.state_with Mock.working) None
    (mkState {[ 1%positive := BLib Mock.working ]}
       (Some (PgError, Some "bad index")) 2%nat).
Proof.
  apply (@methods_keep_the_error_protocol _ Mock.api little_endian Mock.loader
           (MockFiles.vendor 0 0) "_close_file"
           (@do_close_file _ Mock.api (MockFiles.vendor 0 0)) "Close the open data file"
           [Mock.handle; PyInt 41] (Mock.state_with Mock.working)).
  - do 4 right. left.
  - vm_compute. reflexivity.
Defined.

(** A successful event query leaves no buffer behind. *)
Lemma heap_is_left_as_found_witness :
  heap (mkState {[ 1%positive := BLib Mock.working ]} None 1%nat)
  = heap (Mock.state_with Mock.working).
Proof.
  apply (@heap_is_left_as_found _ Mock.api little_endian Mock.loader
           (MockFiles.vendor 0 0) "_get_event_data"
           (@do_get_event_data _ Mock.api little_endian) "Retrieve event data"
           [Mock.handle; PyInt 0; PyInt 0; PyInt 0; PyInt 4; PyInt 4]
           (Mock.state_with Mock.working) _
           (Some (PyTuple [PyFloat Mock.d1_5; PyInt 22136]))).
  - do 6 right. left.
  - apply (bool_decide_unpack _). vm_compute. exact I.
  - vm_compute. reflexivity.
Defined.

(** An int where the time is expected is turned down. *)
Lemma ill_typed_arguments_are_rejected_witness :
  rejected (Mock.state_with Mock.working)
    (@do_get_index_by_time _ Mock.api (MockFiles.vendor 0 0)
       [Mock.handle; PyInt 0; PyInt 0; PyInt 1; PyInt 0] (Mock.state_with Mock.working)).
Proof.
  apply (@ill_typed_arguments_are_rejected _ Mock.api little_endian Mock.loader
           (MockFiles.vendor 0 0) "_get_index_by_time"
           (@do_get_index_by_time _ Mock.api (MockFiles.vendor 0 0)) "Index by timepoint"
           [Handle; Int; Int; Float; Int]).
  - do 11 right. left.
  - do 11 right. left.
  - reflexivity.
Defined.

(** The file 42 + 2^32 is the file 42. *)
Lemma int_arguments_count_modulo_2_32_witness :
  @do_close_file _ Mock.api (MockFiles.vendor 0 0)
    [Mock.handle; PyInt (42 + 2 ^ 32)] (Mock.state_with Mock.working)
  = @do_close_file _ Mock.api (MockFiles.vendor 0 0)
      [Mock.handle; PyInt 42] (Mock.state_with Mock.working).
Proof.
  apply (@int_arguments_count_modulo_2_32 _ Mock.api little_endian Mock.loader
           (MockFiles.vendor 0 0) "_close_file"
           (@do_close_file _ Mock.api (MockFiles.vendor 0 0)) "Close the open data file").
  - do 4 right. left.
  - constructor; [reflexivity|]. constructor; [vm_compute; reflexivity | constructor].
Defined.

Lemma file_and_time_calls_outcome_witness :
  @do_close_file _ Mock.api (MockFiles.vendor 0 0)
    [Mock.handle; PyInt 42] (Mock.state_with Mock.working)
  = Done (Some Py_None) (mkState {[ 1%positive := BLib Mock.working ]} None 1%nat)
  ∧ @do_get_time_by_index _ Mock.api (MockFiles.vendor 0 0)
      [Mock.handle; PyInt 42; PyInt 0; PyInt 5] (Mock.state_with Mock.working)
    = Done (Some (PyFloat Mock.dm2_75))
        (mkState {[ 1%positive := BLib Mock.working ]} None 1%nat)
  ∧ @do_get_index_by_time _ Mock.api (MockFiles.vendor 0 0)
      [Mock.handle; PyInt 42; PyInt 0; PyFloat Mock.d1_5; PyInt (-1)]
      (Mock.state_with Mock.working)
    = Done (Some (PyInt 4294967295))
        (mkState {[ 1%positive := BLib Mock.working ]} None 1%nat).
Proof.
  destruct (@file_and_time_calls_outcome _ Mock.api (MockFiles.vendor 0 0)
              1%positive (Mock.state_with Mock.working) Mock.working 42 eq_refl)
    as (Hclose & Htime & Hindex).
  split; [|split].
  - exact (Hclose MockFiles.close_file 0 1%nat eq_refl eq_refl).
  - exact (Htime 0 5 MockFiles.time_by_index 0 Mock.dm2_75 1%nat eq_refl eq_refl).
  - exact (proj1 (Hindex 0 Mock.d1_5 (-1) MockFiles.index_by_time 0 (u32 (-1)) 1%nat
                    eq_refl eq_refl)).
Defined.

Lemma library_info_outcome_witness :
  @do_get_library_info _ Mock.api (MockFiles.vendor 0 0)
    [Mock.handle] (Mock.state_with Mock.working)
  = Done (Some (PyDict (LibraryInfoDescriptor MockFiles.library_record)))
      (mkState {[ 1%positive := BLib Mock.working ]} None 1%nat).
Proof.
  apply (@library_info_outcome _ Mock.api (MockFiles.vendor 0 0)
           1%positive (Mock.state_with Mock.working) Mock.working
           MockFiles.library_info 0 MockFiles.library_record 1%nat);
    first [reflexivity | by eexists].
Defined.

Lemma open_file_returns_id_and_file_info_witness :
  @do_open_file _ Mock.api (MockFiles.vendor 0 0)
    [Mock.handle; PyString "a.mcd"] (Mock.state_with Mock.working)
  = Done (Some (PyTuple [PyInt (u32 42);
                         PyDict (FileInfoDescriptor MockFiles.file_record)]))
      (mkState {[ 1%positive := BLib Mock.working ]} None 2%nat).
Proof.
  apply (@open_file_returns_id_and_file_info _ Mock.api (MockFiles.vendor 0 0)
           1%positive "a.mcd" (Mock.state_with Mock.working) Mock.working
           (MockFiles.open_file 0) 42 1%nat (MockFiles.file_info 0)
           MockFiles.file_record 2%nat);
    first [reflexivity | by eexists].
Defined.

(** A file that does not open, and a file that opens and cannot be
    described: the second stays open at the vendor's, three calls in. *)
Lemma open_file_failures_witness :
  @do_open_file _ Mock.api (MockFiles.vendor (-1) 0)
    [Mock.handle; PyString "a.mcd"] (Mock.state_with Mock.working)
  = Done None (mkState {[ 1%positive := BLib Mock.working ]}
                 (Some (PgError, Some "bad index")) 2%nat)
  ∧ @do_open_file _ Mock.api (MockFiles.vendor 0 (-1))
      [Mock.handle; PyString "a.mcd"] (Mock.state_with Mock.working)
    = Done None (mkState {[ 1%positive := BLib Mock.working ]}
                   (Some (PgError, Some "bad index")) 3%nat).
Proof.
  split.
  - apply (proj1 (@open_file_failures _ Mock.api (MockFiles.vendor (-1) 0)
                    1%positive "a.mcd" (Mock.state_with Mock.working) Mock.working
                    (MockFiles.open_file (-1)) (-1) 42 1%nat
                    eq_refl eq_refl eq_refl eq_refl)).
    discriminate.
  - apply (proj2 (@open_file_failures _ Mock.api (MockFiles.vendor 0 (-1))
                    1%positive "a.mcd" (Mock.state_with Mock.working) Mock.working
                    (MockFiles.open_file 0) 0 42 1%nat
                    eq_refl eq_refl eq_refl eq_refl)
             eq_refl (MockFiles.file_info (-1)) (-1) MockFiles.file_record 2%nat
             eq_refl eq_refl).
    discriminate.
Defined.

Lemma library_open_reports_the_loader_error_witness :
  @library_open _ Mock.loader [PyString "libbad.so"] Mock.empty_state
  = Done None
      (mkState ∅
         (Some (PgError,
                Some "Could not load library: libbad.so: cannot open shared object file"))
         1%nat).
Proof.
  apply (@library_open_reports_the_loader_error _ Mock.loader
           "libbad.so" Mock.empty_state 1%nat
           "libbad.so: cannot open shared object file" 1%nat); reflexivity.
Defined.

Lemma library_close_failure_keeps_the_record_witness :
  @library_close _ MockFiles.stuck_loader [Mock.handle] (Mock.state_with Mock.working)
  = Done None
      (mkState {[ 1%positive := BLib Mock.working ]}
         (Some (PgError, Some "Could not load library: library is in use")) 1%nat).
Proof.
  apply (@library_close_failure_keeps_the_record _ MockFiles.stuck_loader
           1%positive (Mock.state_with Mock.working) Mock.working (-1) 1%nat
           "library is in use" 1%nat); first [reflexivity | discriminate].
Defined.

Lemma open_then_close_restores_the_heap_witness :
  ∃ r s2,
    @library_close _ Mock.loader [PyCObject 1] Mock.opened = Done r s2
    ∧ ((r = Some Py_None
        ∧ heap s2 = heap Mock.empty_state ∧ pyerr s2 = pyerr Mock.empty_state)
       ∨ (r = None
          ∧ heap s2 = heap Mock.opened ∧ ∃ msg, pyerr s2 = Some (PgError, Some msg))).
Proof.
  apply (@open_then_close_restores_the_heap _ Mock.loader
           "libmock.so" Mock.empty_state Mock.opened (PyCObject 1)).
  vm_compute. reflexivity.
Defined.

Lemma entity_info_of_unknown_type_witness :
  @do_get_entity_info _ Mock.api [Mock.handle; PyInt 0; PyInt 0]
    (Mock.state_with (MockFiles.described 9 0))
  = Done (Some (PyDict (EntityInfoDescriptor (Mock.entity_record 9))))
      (mkState {[ 1%positive := BLib (MockFiles.described 9 0) ]} None 1%nat).
Proof.
  apply (@entity_info_of_unknown_type _ Mock.api 1%positive 0 0
           (Mock.state_with (MockFiles.described 9 0)) (MockFiles.described 9 0)
           (Mock.entity_info 9) (Mock.entity_record 9) 1%nat);
    first [reflexivity | by eexists | apply (bool_decide_unpack _); vm_compute; exact I].
Defined.

Lemma entity_info_keys_witness :
  ∃ obj s',
    @do_get_entity_info _ Mock.api [Mock.handle; PyInt 0; PyInt 0]
      (Mock.state_with (MockFiles.described 2 0)) = Done (Some obj) s'
    ∧ ∃ d,
        obj = PyDict d
        ∧ dom d = generic_keys
                  ∪ @specific_keys Mock.api
                      (u32 (ns_ENTITYINFO.dwEntityType (Mock.entity_record 2)))
        ∧ EntityInfoDescriptor (Mock.entity_record 2) ⊆ d.
Proof.
  eexists _, _. split; [vm_compute; reflexivity|].
  eapply (@entity_info_keys _ Mock.api 1%positive 0 0
            (Mock.state_with (MockFiles.described 2 0)) _ (MockFiles.described 2 0)
            (Mock.entity_info 2) 0 (Mock.entity_record 2) 1%nat);
    vm_compute; reflexivity.
Defined.

Lemma segment_info_failure_fails_the_query_witness :
  @do_get_entity_info _ Mock.api [Mock.handle; PyInt 0; PyInt 0]
    (Mock.state_with (MockFiles.described 3 (-1)))
  = Done None (mkState {[ 1%positive := BLib (MockFiles.described 3 (-1)) ]}
                 (Some (PgError, Some "bad index")) 3%nat).
Proof.
  apply (@segment_info_failure_fails_the_query _ Mock.api 1%positive 0 0
           (Mock.state_with (MockFiles.described 3 (-1))) (MockFiles.described 3 (-1))
           (Mock.entity_info 3) (Mock.entity_record 3) 1%nat
           (MockFiles.segment_info (-1)) (-1) (Mock.segment_record 1) 2%nat);
    first [reflexivity | by eexists | discriminate].
Defined.

Lemma error_text_is_the_vendor_text_up_to_nul_witness :
  @check_result_is_error _ Mock.api (-1) Mock.working (Mock.state_with Mock.working)
  = Done true
      (mkState {[ 1%positive := BLib Mock.working ]}
         (Some (PgError,
                Some (String.string_of_list_byte (up_to_nul (Mock.sz "bad index")))))
         1%nat)
  ∧ (length (up_to_nul (Mock.sz "bad index")) < 1024)%nat
  ∧ x00 ∉ up_to_nul (Mock.sz "bad index").
Proof.
  apply (proj1 (@error_text_is_the_vendor_text_up_to_nul _ Mock.api
                  (-1) Mock.working (Mock.state_with Mock.working)
                  Mock.last_error_msg 0 (Mock.sz "bad index") 1%nat
                  ltac:(discriminate) eq_refl eq_refl)).
  apply (bool_decide_unpack _). vm_compute. exact I.
Defined.

Lemma stale_handle_is_not_detected_witness :
  @do_close_file _ Mock.api (MockFiles.vendor 0 0)
    [PyCObject 1; PyInt 42] Mock.empty_state
  = Undefined.
Proof.
  apply (@stale_handle_is_not_detected _ Mock.api little_endian Mock.loader
           (MockFiles.vendor 0 0) "_close_file"
           (@do_close_file _ Mock.api (MockFiles.vendor 0 0)) "Close the open data file"
           [Handle; Int] 1%positive [PyInt 42] Mock.empty_state).
  - do 4 right. left.
  - do 4 right. left.
  - reflexivity.
  - intros lib. vm_compute. discriminate.
Defined.

Lemma entity_info_by_type_witness :
  @do_get_entity_info _ Mock.api [Mock.handle; PyInt 0; PyInt 0]
    (Mock.state_with (MockFiles.described 1 0))
  = Done (Some (PyDict (EventInfoDescriptor MockFiles.event_record
                        ∪ EntityInfoDescriptor (Mock.entity_record 1))))
      (mkState {[ 1%positive := BLib (MockFiles.described 1 0) ]} None 2%nat)
  ∧ @do_get_entity_info _ Mock.api [Mock.handle; PyInt 0; PyInt 0]
      (Mock.state_with (MockFiles.described 2 0))
    = Done (Some (PyDict (AnalogInfoDescriptor MockFiles.analog_record
                          ∪ EntityInfoDescriptor (Mock.entity_record 2))))
        (mkState {[ 1%positive := BLib (MockFiles.described 2 0) ]} None 2%nat)
  ∧ @do_get_entity_info _ Mock.api [Mock.handle; PyInt 0; PyInt 0]
      (Mock.state_with (MockFiles.described 4 (-1)))
    = Done None (mkState {[ 1%positive := BLib (MockFiles.described 4 (-1)) ]}
                   (Some (PgError, Some "bad index")) 3%nat).
Proof.
  split; [|split].
  - destruct (@entity_info_by_type _ Mock.api 1%positive 0 0
                (Mock.state_with (MockFiles.described 1 0)) (MockFiles.described 1 0)
                (Mock.entity_info 1) (Mock.entity_record 1) 1%nat
                eq_refl eq_refl eq_refl ltac:(by eexists)) as (Hevent & _ & _).
    apply (Hevent eq_refl (MockFiles.event_info 0) 0 MockFiles.event_record 2%nat
             eq_refl eq_refl ltac:(by eexists)).
  - destruct (@entity_info_by_type _ Mock.api 1%positive 0 0
                (Mock.state_with (MockFiles.described 2 0)) (MockFiles.described 2 0)
                (Mock.entity_info 2) (Mock.entity_record 2) 1%nat
                eq_refl eq_refl eq_refl ltac:(by eexists)) as (_ & Hanalog & _).
    apply (Hanalog eq_refl (MockFiles.analog_info 0) 0 MockFiles.analog_record 2%nat
             eq_refl eq_refl ltac:(by eexists) ltac:(by eexists) ltac:(by eexists)
             ltac:(by eexists)).
  - destruct (@entity_info_by_type _ Mock.api 1%positive 0 0
                (Mock.state_with (MockFiles.described 4 (-1)))
                (MockFiles.described 4 (-1))
                (Mock.entity_info 4) (Mock.entity_record 4) 1%nat
                eq_refl eq_refl eq_refl ltac:(by eexists)) as (_ & _ & Hneural).
    apply (Hneural eq_refl (MockFiles.neural_info (-1)) (-1) MockFiles.neural_record
             2%nat eq_refl eq_refl ltac:(by eexists)).
Defined.

Lemma returned_arrays_hold_what_the_vendor_wrote_witness :
  (∃ a,
     heap (Mock.state_with Mock.working) !! a = None
     ∧ @do_get_analog_data _ Mock.api
         [Mock.handle; PyInt 0; PyInt 0; PyInt 0; PyInt 3] (Mock.state_with Mock.working)
       = Done (Some (PyTuple [PyArray a [u32 3]
                                (cells_after (u32 3) [Mock.d1_5; Mock.dm2_75]);
                              PyInt (u32 2)]))
           (mkState (<[a := BArr [u32 3]]> (heap (Mock.state_with Mock.working)))
              (pyerr (Mock.state_with Mock.working)) 1%nat))
  ∧ (∃ a,
       heap (Mock.state_with Mock.working) !! a = None
       ∧ @do_get_segment_data _ Mock.api
           [Mock.handle; PyInt 0; PyInt 0; PyInt 0; PyInt 1; PyInt 3]
           (Mock.state_with Mock.working)
         = Done (Some (PyTuple [PyArray a [u32 1; u32 3]
                                  (cells_after (u32 1 * u32 3) [Mock.d1_5; Mock.dm2_75]);
                                PyInt (-2); PyInt (u32 2); PyInt (u32 7)]))
             (mkState (<[a := BArr [u32 1; u32 3]]> (heap (Mock.state_with Mock.working)))
                (pyerr (Mock.state_with Mock.working)) 1%nat))
  ∧ (∃ a,
       heap (Mock.state_with Mock.working) !! a = None
       ∧ @do_get_neural_data _ Mock.api
           [Mock.handle; PyInt 0; PyInt 0; PyInt 0; PyInt 3] (Mock.state_with Mock.working)
         = Done (Some (PyArray a [u32 3] (cells_after (u32 3) [Mock.d1_5])))
             (mkState (<[a := BArr [u32 3]]> (heap (Mock.state_with Mock.working)))
                (pyerr (Mock.state_with Mock.working)) 1%nat)).
Proof.
  destruct (@returned_arrays_hold_what_the_vendor_wrote _ Mock.api
              1%positive (Mock.state_with Mock.working) Mock.working 0 0 0 eq_refl)
    as (Hanalog & Hsegment & Hneural).
  split; [|split].
  - apply (Hanalog 3 (Mock.analog_data 0 2) 2 [Mock.d1_5; Mock.dm2_75] 1%nat
             eq_refl eq_refl).
    vm_compute. discriminate.
  - apply (Hsegment 1 3 (Mock.segment_data 0 Mock.dm2_75) Mock.dm2_75
             [Mock.d1_5; Mock.dm2_75] 2 7 1%nat (-2) eq_refl eq_refl);
      [vm_compute; discriminate | reflexivity].
  - apply (Hneural 3 (Mock.neural_data 0) [Mock.d1_5] 1%nat eq_refl eq_refl).
    vm_compute. discriminate.
Defined.

(** The stand-in library exports no [ns_CloseFile]: closing a file through
    the handle [library_open] made of it calls a null pointer. *)
Lemma unresolved_entry_point_is_called_witness :
  @do_close_file _ Mock.api (MockFiles.vendor 0 0) [PyCObject 1; PyInt 42] Mock.opened
  = Undefined.
Proof.
  apply (@unresolved_entry_point_is_called _ Mock.api little_endian Mock.loader
           (MockFiles.vendor 0 0) "_close_file"
           (@do_close_file _ Mock.api (MockFiles.vendor 0 0)) "Close the open data file"
           [Handle; Int] "ns_CloseFile" CloseFile 1%positive [PyInt 42]
           Mock.opened Mock.resolved).
  - do 4 right. left.
  - do 4 right. left.
  - do 2 right. left.
  - do 2 right. left.
  - reflexivity.
  - reflexivity.
  - reflexivity.
Defined.

Lemma event_data_outcome_witness :
  @do_get_event_data _ Mock.api little_endian
    [PyCObject 1%positive; PyInt 0; PyInt 0; PyInt 0;
     PyInt (@ns_EVENT_DWORD Mock.api); PyInt 4]
    (Mock.state_with Mock.working)
  = Done (Some (PyTuple [PyFloat Mock.d1_5; PyInt 22136]))
      (mkState (heap (Mock.state_with Mock.working))
         (pyerr (Mock.state_with Mock.working)) 1%nat).
Proof.
  edestruct (@event_data_outcome _ Mock.api little_endian
               1%positive 0 0 0 (@ns_EVENT_DWORD Mock.api) 4
               (Mock.state_with Mock.working) Mock.working)
    as (_ & _ & _ & Hdword & _);
    [reflexivity | reflexivity | reflexivity | vm_compute; discriminate |].
  apply Hdword; reflexivity.
Defined.
